(** * RegressionModel: OLS and logistic regression (Lesson.ipynb)

    A shallow embedding of the class [RegressionModel] of the notebook's
    graded cell, and of the profit function of its first cells.  The
    class is written against three external libraries (numpy, pandas,
    scipy); the embedding follows that split:

    - [NumPy] and [SciPy] are the interfaces of the numeric routines the
      class calls ([np.exp], [np.log], [np.linalg.inv], [minimize], ...).
      The methods are written once, over any implementation of them.
    - pandas objects (data frames, series) and Python lists live in a
      heap of shared objects; an instance of the class is a record of
      attributes that are unset until a method assigns them.
    - every method is a state transformer that may raise.

    The interfaces are then implemented three times: over an ordered
    field (exact arithmetic, MathComp matrices behind [np.linalg.inv]),
    over that field extended by the infinities and NaN (exact
    arithmetic in which a quotient by zero, the logarithm of zero and
    the square root of a negative number are what numpy returns) and
    over IEEE binary64 (Rocq's primitive floats, the arithmetic numpy
    runs). *)

From HB Require Import structures.
From mathcomp Require Import boot order algebra.
From Stdlib Require Import String.
From Stdlib Require PrimFloat FloatAxioms FloatOps SpecFloat Uint63 ZArith.

Set Implicit Arguments.
Unset Strict Implicit.
Unset Printing Implicit Defensive.

HB.instance Definition _ := hasDecEq.Build string String.eqb_spec.

(** ** Exceptions and results *)

(** The Python exceptions the class and the library calls it makes can
    raise. *)
Inductive exn :=
| RuntimeError (msg : string)
| ValueError
| IndexError
| TypeError
| AttributeError (attr : string)
| LinAlgError
| UnboundLocalError (name : string).

Inductive outcome (A : Type) :=
| Ok (a : A)
| Raise (e : exn).
Arguments Raise {A} e.

Definition obind {A B} (c : outcome A) (k : A -> outcome B) : outcome B :=
  match c with Ok a => k a | Raise e => Raise e end.

(** ** The numeric libraries, as interfaces *)

(** numpy's scalar arithmetic on the element type [T] (float64 in the
    notebook), the conversion of a Python int, the literal [0.1], the
    ufuncs the class applies and [np.linalg.inv]. *)
Class NumPy (T : Type) := {
  of_int : int -> T;
  lit_0_1 : T;
  fadd : T -> T -> T;
  fsub : T -> T -> T;
  fmul : T -> T -> T;
  fdiv : T -> T -> T;
  np_exp : T -> T;
  np_log : T -> T;
  np_sqrt : T -> T;
  np_abs : T -> T;
  np_linalg_inv : seq (seq T) -> outcome (seq (seq T))
}.

(** What [scipy.optimize.minimize] returns: the point [x] and the
    convergence flag [success] (the other fields are not read). *)
Record OptimizeResult (T : Type) := {
  res_x : seq T;
  success : bool
}.

(** scipy: the minimizer and the two survival functions. *)
Class SciPy (T : Type) := {
  minimize : (seq T -> outcome T) -> seq T -> outcome (OptimizeResult T);
  t_sf : T -> int -> T;
  norm_sf : T -> T
}.

Declare Scope np_scope.
Delimit Scope np_scope with np.
Notation "x + y" := (fadd x y) : np_scope.
Notation "x - y" := (fsub x y) : np_scope.
Notation "x * y" := (fmul x y) : np_scope.
Notation "x / y" := (fdiv x y) : np_scope.

Section Arrays.

Context {T : Type} {np : NumPy T}.
Local Open Scope np_scope.

Definition ndarray1 := seq T.
Definition ndarray2 := seq (seq T).

Definition I0 : T := of_int 0.
Definition I1 : T := of_int 1.

(** Python's [sum] over an iterable of numbers: starts from the int 0
    and adds from the left. *)
Definition pysum (s : seq T) : T := foldl fadd I0 s.

Definition ncols (A : ndarray2) : nat := size (head [::] A).

Definition col (A : ndarray2) (j : nat) : seq T := [seq nth I0 r j | r <- A].

(** [A.T] *)
Definition transpose (A : ndarray2) : ndarray2 :=
  [seq col A j | j <- iota 0 (ncols A)].

Definition dot (u v : seq T) : T := pysum [seq p.1 * p.2 | p <- zip u v].

(** [A @ B] on two-dimensional arrays: the inner dimensions must agree. *)
Definition matmul (A B : ndarray2) : outcome ndarray2 :=
  if ncols A == size B
  then Ok [seq [seq dot r (col B j) | j <- iota 0 (ncols B)] | r <- A]
  else Raise ValueError.

(** [x @ b] for a table [x] and a one-dimensional [b]. *)
Definition matvec (A : ndarray2) (b : seq T) : outcome (seq T) :=
  if ncols A == size b then Ok [seq dot r b | r <- A] else Raise ValueError.

(** Elementwise [A - B] on arrays of the same shape. *)
Definition msub (A B : ndarray2) : outcome ndarray2 :=
  if (size A == size B) && (ncols A == ncols B)
  then Ok [seq [seq q.1 - q.2 | q <- zip p.1 p.2] | p <- zip A B]
  else Raise ValueError.

(** [c * A] and [A / c] with a scalar [c]. *)
Definition smul (c : T) (A : ndarray2) : ndarray2 :=
  [seq [seq c * a | a <- r] | r <- A].
Definition sdiv (A : ndarray2) (c : T) : ndarray2 :=
  [seq [seq a / c | a <- r] | r <- A].

(** [np.diag(A)] of a two-dimensional array. *)
Definition np_diag (A : ndarray2) : seq T :=
  [seq nth I0 (nth [::] A i) i | i <- iota 0 (minn (size A) (ncols A))].

(** [u / v] on one-dimensional arrays, with numpy's broadcasting of a
    length-one operand. *)
Definition vdiv (u v : seq T) : outcome (seq T) :=
  if size u == size v then Ok [seq p.1 / p.2 | p <- zip u v]
  else if size v == 1%N then Ok [seq a / nth I0 v 0 | a <- u]
  else if size u == 1%N then Ok [seq nth I0 u 0 / b | b <- v]
  else Raise ValueError.

(** [np.mean] of all the entries of a table. *)
Definition np_mean (A : ndarray2) : T :=
  pysum (flatten A) / of_int (Posz (size (flatten A))).

(** [np.full(n, c)] *)
Definition np_full (n : nat) (c : T) : seq T := nseq n c.

(** [s[i]] *)
Definition getitem {A : Type} (d : A) (s : seq A) (i : nat) : outcome A :=
  if i < size s then Ok (nth d s i) else Raise IndexError.

End Arrays.

(** ** Objects, the heap and the instance *)

(** A Python dict with string keys: insertion-ordered; assigning to a key
    that is present replaces its value and keeps its position. *)
Definition dict (V : Type) := seq (string * V).

Fixpoint dict_set {V : Type} (d : dict V) (k : string) (v : V) : dict V :=
  match d with
  | [::] => [:: (k, v)]
  | e :: d' => if e.1 == k then (k, v) :: d' else e :: dict_set d' k v
  end.

Fixpoint dict_get {V : Type} (d : dict V) (k : string) : option V :=
  match d with
  | [::] => None
  | e :: d' => if e.1 == k then Some e.2 else dict_get d' k
  end.

Definition keys {V : Type} (d : dict V) : seq string := [seq e.1 | e <- d].

Definition loc := nat.

Section Objects.

Variable T : Type.

(** The objects the class shares with its caller or mutates in place.
    A [DataFrame] and a [Series] hold their values in a [Block] of rows
    (a series is one column wide); [pd.DataFrame(obj)] makes a new frame
    over the same block, so two frames may share one.  A [PyList] is a
    Python list of labels.

    Frames and series carry pandas' default index [0 .. n-1]: a row is
    known by its position alone.  A caller's frame or series with
    another index, on which pandas would align rows, is not an object
    of this heap. *)
Inductive obj :=
| Block (rows : seq (seq T))
| DataFrame (columns : seq string) (values : loc)
| Series (name : string) (values : loc)
| PyList (items : seq string).

Definition heap := seq obj.

Definition read (h : heap) (l : loc) : option obj := nth None [seq Some o | o <- h] l.

Definition write (h : heap) (l : loc) (o : obj) : heap := set_nth o h l o.

(** The attributes of an instance; [None] until assigned. *)
Record RegressionModel := {
  self_x : option loc;
  self_y : option loc;
  self_y2 : option loc;
  self_num_obs : option nat;
  self_num_vars : option nat;
  self_regression_type : option string;
  self_x_list : option loc;
  self_y_label : option string;
  self_x1 : option (seq (seq T));
  self_y1 : option (seq (seq T));
  self_Beta_hat_M : option (seq (seq T));
  self_Beta_hat : option (seq T);
  self_df : option int;
  self_stdError : option (seq T);
  self_t_stat : option (seq T);
  self_p_val : option (seq T);
  self_zScores : option (seq T);
  self_results : option (dict (dict T))
}.

Definition new_instance : RegressionModel :=
  {| self_x := None; self_y := None; self_y2 := None; self_num_obs := None;
     self_num_vars := None; self_regression_type := None;
     self_x_list := None; self_y_label := None; self_x1 := None;
     self_y1 := None; self_Beta_hat_M := None; self_Beta_hat := None;
     self_df := None; self_stdError := None; self_t_stat := None;
     self_p_val := None; self_zScores := None; self_results := None |}.

Definition set_x (v : loc) (m : RegressionModel) : RegressionModel :=
  {| self_x := Some v; self_y := self_y m; self_y2 := self_y2 m;
     self_num_obs := self_num_obs m; self_num_vars := self_num_vars m;
     self_regression_type := self_regression_type m;
     self_x_list := self_x_list m; self_y_label := self_y_label m;
     self_x1 := self_x1 m; self_y1 := self_y1 m;
     self_Beta_hat_M := self_Beta_hat_M m; self_Beta_hat := self_Beta_hat m;
     self_df := self_df m; self_stdError := self_stdError m;
     self_t_stat := self_t_stat m; self_p_val := self_p_val m;
     self_zScores := self_zScores m; self_results := self_results m |}.

Definition set_y (v : loc) (m : RegressionModel) : RegressionModel :=
  {| self_x := self_x m; self_y := Some v; self_y2 := self_y2 m;
     self_num_obs := self_num_obs m; self_num_vars := self_num_vars m;
     self_regression_type := self_regression_type m;
     self_x_list := self_x_list m; self_y_label := self_y_label m;
     self_x1 := self_x1 m; self_y1 := self_y1 m;
     self_Beta_hat_M := self_Beta_hat_M m; self_Beta_hat := self_Beta_hat m;
     self_df := self_df m; self_stdError := self_stdError m;
     self_t_stat := self_t_stat m; self_p_val := self_p_val m;
     self_zScores := self_zScores m; self_results := self_results m |}.

Definition set_y2 (v : loc) (m : RegressionModel) : RegressionModel :=
  {| self_x := self_x m; self_y := self_y m; self_y2 := Some v;
     self_num_obs := self_num_obs m; self_num_vars := self_num_vars m;
     self_regression_type := self_regression_type m;
     self_x_list := self_x_list m; self_y_label := self_y_label m;
     self_x1 := self_x1 m; self_y1 := self_y1 m;
     self_Beta_hat_M := self_Beta_hat_M m; self_Beta_hat := self_Beta_hat m;
     self_df := self_df m; self_stdError := self_stdError m;
     self_t_stat := self_t_stat m; self_p_val := self_p_val m;
     self_zScores := self_zScores m; self_results := self_results m |}.

Definition set_num_obs (v : nat) (m : RegressionModel) : RegressionModel :=
  {| self_x := self_x m; self_y := self_y m; self_y2 := self_y2 m;
     self_num_obs := Some v; self_num_vars := self_num_vars m;
     self_regression_type := self_regression_type m;
     self_x_list := self_x_list m; self_y_label := self_y_label m;
     self_x1 := self_x1 m; self_y1 := self_y1 m;
     self_Beta_hat_M := self_Beta_hat_M m; self_Beta_hat := self_Beta_hat m;
     self_df := self_df m; self_stdError := self_stdError m;
     self_t_stat := self_t_stat m; self_p_val := self_p_val m;
     self_zScores := self_zScores m; self_results := self_results m |}.

Definition set_num_vars (v : nat) (m : RegressionModel) : RegressionModel :=
  {| self_x := self_x m; self_y := self_y m; self_y2 := self_y2 m;
     self_num_obs := self_num_obs m; self_num_vars := Some v;
     self_regression_type := self_regression_type m;
     self_x_list := self_x_list m; self_y_label := self_y_label m;
     self_x1 := self_x1 m; self_y1 := self_y1 m;
     self_Beta_hat_M := self_Beta_hat_M m; self_Beta_hat := self_Beta_hat m;
     self_df := self_df m; self_stdError := self_stdError m;
     self_t_stat := self_t_stat m; self_p_val := self_p_val m;
     self_zScores := self_zScores m; self_results := self_results m |}.

Definition set_regression_type (v : string) (m : RegressionModel) : RegressionModel :=
  {| self_x := self_x m; self_y := self_y m; self_y2 := self_y2 m;
     self_num_obs := self_num_obs m; self_num_vars := self_num_vars m;
     self_regression_type := Some v; self_x_list := self_x_list m;
     self_y_label := self_y_label m; self_x1 := self_x1 m;
     self_y1 := self_y1 m; self_Beta_hat_M := self_Beta_hat_M m;
     self_Beta_hat := self_Beta_hat m; self_df := self_df m;
     self_stdError := self_stdError m; self_t_stat := self_t_stat m;
     self_p_val := self_p_val m; self_zScores := self_zScores m;
     self_results := self_results m |}.

Definition set_x_list (v : loc) (m : RegressionModel) : RegressionModel :=
  {| self_x := self_x m; self_y := self_y m; self_y2 := self_y2 m;
     self_num_obs := self_num_obs m; self_num_vars := self_num_vars m;
     self_regression_type := self_regression_type m; self_x_list := Some v;
     self_y_label := self_y_label m; self_x1 := self_x1 m;
     self_y1 := self_y1 m; self_Beta_hat_M := self_Beta_hat_M m;
     self_Beta_hat := self_Beta_hat m; self_df := self_df m;
     self_stdError := self_stdError m; self_t_stat := self_t_stat m;
     self_p_val := self_p_val m; self_zScores := self_zScores m;
     self_results := self_results m |}.

Definition set_y_label (v : string) (m : RegressionModel) : RegressionModel :=
  {| self_x := self_x m; self_y := self_y m; self_y2 := self_y2 m;
     self_num_obs := self_num_obs m; self_num_vars := self_num_vars m;
     self_regression_type := self_regression_type m;
     self_x_list := self_x_list m; self_y_label := Some v;
     self_x1 := self_x1 m; self_y1 := self_y1 m;
     self_Beta_hat_M := self_Beta_hat_M m; self_Beta_hat := self_Beta_hat m;
     self_df := self_df m; self_stdError := self_stdError m;
     self_t_stat := self_t_stat m; self_p_val := self_p_val m;
     self_zScores := self_zScores m; self_results := self_results m |}.

Definition set_x1 (v : seq (seq T)) (m : RegressionModel) : RegressionModel :=
  {| self_x := self_x m; self_y := self_y m; self_y2 := self_y2 m;
     self_num_obs := self_num_obs m; self_num_vars := self_num_vars m;
     self_regression_type := self_regression_type m;
     self_x_list := self_x_list m; self_y_label := self_y_label m;
     self_x1 := Some v; self_y1 := self_y1 m;
     self_Beta_hat_M := self_Beta_hat_M m; self_Beta_hat := self_Beta_hat m;
     self_df := self_df m; self_stdError := self_stdError m;
     self_t_stat := self_t_stat m; self_p_val := self_p_val m;
     self_zScores := self_zScores m; self_results := self_results m |}.

Definition set_y1 (v : seq (seq T)) (m : RegressionModel) : RegressionModel :=
  {| self_x := self_x m; self_y := self_y m; self_y2 := self_y2 m;
     self_num_obs := self_num_obs m; self_num_vars := self_num_vars m;
     self_regression_type := self_regression_type m;
     self_x_list := self_x_list m; self_y_label := self_y_label m;
     self_x1 := self_x1 m; self_y1 := Some v;
     self_Beta_hat_M := self_Beta_hat_M m; self_Beta_hat := self_Beta_hat m;
     self_df := self_df m; self_stdError := self_stdError m;
     self_t_stat := self_t_stat m; self_p_val := self_p_val m;
     self_zScores := self_zScores m; self_results := self_results m |}.

Definition set_Beta_hat_M (v : seq (seq T)) (m : RegressionModel) : RegressionModel :=
  {| self_x := self_x m; self_y := self_y m; self_y2 := self_y2 m;
     self_num_obs := self_num_obs m; self_num_vars := self_num_vars m;
     self_regression_type := self_regression_type m;
     self_x_list := self_x_list m; self_y_label := self_y_label m;
     self_x1 := self_x1 m; self_y1 := self_y1 m; self_Beta_hat_M := Some v;
     self_Beta_hat := self_Beta_hat m; self_df := self_df m;
     self_stdError := self_stdError m; self_t_stat := self_t_stat m;
     self_p_val := self_p_val m; self_zScores := self_zScores m;
     self_results := self_results m |}.

Definition set_Beta_hat (v : seq T) (m : RegressionModel) : RegressionModel :=
  {| self_x := self_x m; self_y := self_y m; self_y2 := self_y2 m;
     self_num_obs := self_num_obs m; self_num_vars := self_num_vars m;
     self_regression_type := self_regression_type m;
     self_x_list := self_x_list m; self_y_label := self_y_label m;
     self_x1 := self_x1 m; self_y1 := self_y1 m;
     self_Beta_hat_M := self_Beta_hat_M m; self_Beta_hat := Some v;
     self_df := self_df m; self_stdError := self_stdError m;
     self_t_stat := self_t_stat m; self_p_val := self_p_val m;
     self_zScores := self_zScores m; self_results := self_results m |}.

Definition set_df (v : int) (m : RegressionModel) : RegressionModel :=
  {| self_x := self_x m; self_y := self_y m; self_y2 := self_y2 m;
     self_num_obs := self_num_obs m; self_num_vars := self_num_vars m;
     self_regression_type := self_regression_type m;
     self_x_list := self_x_list m; self_y_label := self_y_label m;
     self_x1 := self_x1 m; self_y1 := self_y1 m;
     self_Beta_hat_M := self_Beta_hat_M m; self_Beta_hat := self_Beta_hat m;
     self_df := Some v; self_stdError := self_stdError m;
     self_t_stat := self_t_stat m; self_p_val := self_p_val m;
     self_zScores := self_zScores m; self_results := self_results m |}.

Definition set_stdError (v : seq T) (m : RegressionModel) : RegressionModel :=
  {| self_x := self_x m; self_y := self_y m; self_y2 := self_y2 m;
     self_num_obs := self_num_obs m; self_num_vars := self_num_vars m;
     self_regression_type := self_regression_type m;
     self_x_list := self_x_list m; self_y_label := self_y_label m;
     self_x1 := self_x1 m; self_y1 := self_y1 m;
     self_Beta_hat_M := self_Beta_hat_M m; self_Beta_hat := self_Beta_hat m;
     self_df := self_df m; self_stdError := Some v;
     self_t_stat := self_t_stat m; self_p_val := self_p_val m;
     self_zScores := self_zScores m; self_results := self_results m |}.

Definition set_t_stat (v : seq T) (m : RegressionModel) : RegressionModel :=
  {| self_x := self_x m; self_y := self_y m; self_y2 := self_y2 m;
     self_num_obs := self_num_obs m; self_num_vars := self_num_vars m;
     self_regression_type := self_regression_type m;
     self_x_list := self_x_list m; self_y_label := self_y_label m;
     self_x1 := self_x1 m; self_y1 := self_y1 m;
     self_Beta_hat_M := self_Beta_hat_M m; self_Beta_hat := self_Beta_hat m;
     self_df := self_df m; self_stdError := self_stdError m;
     self_t_stat := Some v; self_p_val := self_p_val m;
     self_zScores := self_zScores m; self_results := self_results m |}.

Definition set_p_val (v : seq T) (m : RegressionModel) : RegressionModel :=
  {| self_x := self_x m; self_y := self_y m; self_y2 := self_y2 m;
     self_num_obs := self_num_obs m; self_num_vars := self_num_vars m;
     self_regression_type := self_regression_type m;
     self_x_list := self_x_list m; self_y_label := self_y_label m;
     self_x1 := self_x1 m; self_y1 := self_y1 m;
     self_Beta_hat_M := self_Beta_hat_M m; self_Beta_hat := self_Beta_hat m;
     self_df := self_df m; self_stdError := self_stdError m;
     self_t_stat := self_t_stat m; self_p_val := Some v;
     self_zScores := self_zScores m; self_results := self_results m |}.

Definition set_zScores (v : seq T) (m : RegressionModel) : RegressionModel :=
  {| self_x := self_x m; self_y := self_y m; self_y2 := self_y2 m;
     self_num_obs := self_num_obs m; self_num_vars := self_num_vars m;
     self_regression_type := self_regression_type m;
     self_x_list := self_x_list m; self_y_label := self_y_label m;
     self_x1 := self_x1 m; self_y1 := self_y1 m;
     self_Beta_hat_M := self_Beta_hat_M m; self_Beta_hat := self_Beta_hat m;
     self_df := self_df m; self_stdError := self_stdError m;
     self_t_stat := self_t_stat m; self_p_val := self_p_val m;
     self_zScores := Some v; self_results := self_results m |}.

Definition set_results (v : dict (dict T)) (m : RegressionModel) : RegressionModel :=
  {| self_x := self_x m; self_y := self_y m; self_y2 := self_y2 m;
     self_num_obs := self_num_obs m; self_num_vars := self_num_vars m;
     self_regression_type := self_regression_type m;
     self_x_list := self_x_list m; self_y_label := self_y_label m;
     self_x1 := self_x1 m; self_y1 := self_y1 m;
     self_Beta_hat_M := self_Beta_hat_M m; self_Beta_hat := self_Beta_hat m;
     self_df := self_df m; self_stdError := self_stdError m;
     self_t_stat := self_t_stat m; self_p_val := self_p_val m;
     self_zScores := self_zScores m; self_results := Some v |}.

(** The state a method runs in: the heap and the attributes of [self]. *)
Record state := State {
  st_heap : heap;
  st_self : RegressionModel
}.

(** A method body: a state transformer that may raise.  What was done
    to the state before an exception stays done. *)
Definition M (A : Type) := state -> outcome A * state.

Definition ret {A} (a : A) : M A := fun s => (Ok a, s).

Definition bind {A B} (c : M A) (k : A -> M B) : M B :=
  fun s => match c s with
           | (Ok a, s') => k a s'
           | (Raise e, s') => (Raise e, s')
           end.

Definition raise {A} (e : exn) : M A := fun s => (Raise e, s).

Definition lift {A} (c : outcome A) : M A := fun s => (c, s).

(** [self.attr]: reading an attribute that was never assigned raises. *)
Definition getattr {A} (attr : RegressionModel -> option A) (name : string) : M A :=
  fun s => match attr (st_self s) with
           | Some v => (Ok v, s)
           | None => (Raise (AttributeError name), s)
           end.

(** [self.attr = v] *)
Definition setattr (upd : RegressionModel -> RegressionModel) : M unit :=
  fun s => (Ok tt, State (st_heap s) (upd (st_self s))).

(** A new object, at the next free location. *)
Definition new (o : obj) : M loc :=
  fun s => (Ok (size (st_heap s)), State (rcons (st_heap s) o) (st_self s)).

Definition deref (l : loc) : M obj :=
  fun s => match read (st_heap s) l with
           | Some o => (Ok o, s)
           | None => (Raise TypeError, s)
           end.

(** In-place update of the object at [l]. *)
Definition store (l : loc) (o : obj) : M unit :=
  fun s => (Ok tt, State (write (st_heap s) l o) (st_self s)).

End Objects.

Arguments Block {T} rows.
Arguments DataFrame {T} columns values.
Arguments Series {T} name values.
Arguments PyList {T} items.
Arguments new_instance {T}.
Arguments ret {T A} a.
Arguments raise {T A} e.
Arguments lift {T A} c.
Arguments setattr {T} upd.
Arguments new {T} o.
Arguments deref {T} l.
Arguments store {T} l o.

Notation "'let*' x ':=' c 'in' k" := (bind c (fun x => k))
  (at level 200, x name, c at level 100, k at level 200, right associativity).
Notation "c ;; k" := (bind c (fun _ => k))
  (at level 100, k at level 200, right associativity).

(** ** pandas and Python primitives

    The frames the class handles carry pandas' default index (rows
    numbered from 0), which is what the notebook passes in; the index is
    not represented.  The caller's [x] is a [DataFrame] and [y] a
    [Series]; the other objects of the heap are not tables. *)

Section Pandas.

Context {T : Type} {np : NumPy T}.
Local Notation M := (M T).

(** [frame.columns] *)
Definition frame_columns (l : loc) : M (seq string) :=
  let* o := deref l in
  match o with
  | DataFrame c _ => ret c
  | _ => raise (AttributeError "columns")
  end.

(** [np.array(frame)]: a copy of the values of a frame. *)
Definition np_array (l : loc) : M (seq (seq T)) :=
  let* o := deref l in
  match o with
  | DataFrame _ b =>
      let* v := deref b in
      match v with Block r => ret r | _ => raise TypeError end
  | _ => raise TypeError
  end.

(** [len(frame)] *)
Definition len (l : loc) : M nat :=
  let* v := np_array l in ret (size v).

(** [_, k = x.shape]: unpacking the shape of a series, a 1-tuple, raises. *)
Definition shape (l : loc) : M (nat * nat) :=
  let* o := deref l in
  match o with
  | DataFrame c b =>
      let* v := deref b in
      match v with Block r => ret (size r, size c) | _ => raise TypeError end
  | Series _ _ => raise ValueError
  | _ => raise (AttributeError "shape")
  end.

(** [pd.DataFrame(obj)] for a frame or a series: a new frame object over
    the values of [obj] (pandas does not copy them). *)
Definition pd_DataFrame (l : loc) : M loc :=
  let* o := deref l in
  match o with
  | DataFrame c b => new (DataFrame c b)
  | Series nm b => new (DataFrame [:: nm] b)
  | _ => raise TypeError
  end.

(** [pd.DataFrame(values, columns=[name])] for a Python list of numbers. *)
Definition pd_DataFrame_of_list (values : seq T) (name : string) : M loc :=
  let* b := new (Block [seq [:: v] | v <- values]) in
  new (DataFrame [:: name] b).

(** [pd.concat([a, b], axis=1)]: a new frame with its own values.
    pandas aligns the rows of [a] and [b] on their indexes; both carry
    the default index here, and the rows are put side by side by
    position. *)
Definition pd_concat_axis1 (a b : loc) : M loc :=
  let* ca := frame_columns a in
  let* va := np_array a in
  let* cb := frame_columns b in
  let* vb := np_array b in
  let* blk := new (Block [seq p.1 ++ p.2 | p <- zip va vb]) in
  new (DataFrame (ca ++ cb) blk).

(** [frame.reset_index(drop=True)]: a new frame, a copy. *)
Definition reset_index (a : loc) : M loc :=
  let* ca := frame_columns a in
  let* va := np_array a in
  let* blk := new (Block va) in
  new (DataFrame ca blk).

(** [y.name] *)
Definition series_name (l : loc) : M string :=
  let* o := deref l in
  match o with
  | Series nm _ => ret nm
  | _ => raise (AttributeError "name")
  end.

(** [list(labels)]: a new list object. *)
Definition py_list (items : seq string) : M loc := new (PyList items).

Definition list_items (l : loc) : M (seq string) :=
  let* o := deref l in
  match o with
  | PyList items => ret items
  | _ => raise TypeError
  end.

(** [lst.append(item)]: mutates the list object in place. *)
Definition list_append (l : loc) (item : string) : M unit :=
  let* o := deref l in
  match o with
  | PyList items => store l (PyList (rcons items item))
  | _ => raise (AttributeError "append")
  end.

(** [for a in s: body(a)] *)
Fixpoint for_each {A : Type} (s : seq A) (body : A -> M unit) : M unit :=
  match s with
  | [::] => ret tt
  | a :: s' => body a ;; for_each s' body
  end.

(** [enumerate(s)] *)
Definition enumerate {A : Type} (s : seq A) : seq (nat * A) :=
  zip (iota 0 (size s)) s.

End Pandas.

(** ** The class [RegressionModel] *)

Section Methods.

Context {T : Type} {np : NumPy T} {sp : SciPy T}.
Local Notation M := (M T).
Local Open Scope np_scope.

(** [add_intercept]: appends the label to [self.x_list] in place and
    rebinds [self.x] to a new frame with a column of ones. *)
Definition add_intercept (create_intercept : bool) : M unit :=
  if create_intercept then
    let* xl := getattr (@self_x_list T) "x_list" in
    list_append xl "intercept" ;;
    let* n := getattr (@self_num_obs T) "num_obs" in
    let* all_1 := pd_DataFrame_of_list (nseq n I1) "intercept" in
    let* sx := getattr (@self_x T) "x" in
    let* c := pd_concat_axis1 sx all_1 in
    let* c' := reset_index c in
    setattr (set_x c') ;;
    let* sx := getattr (@self_x T) "x" in
    let* sh := shape sx in
    setattr (set_num_vars sh.2)
  else ret tt.

(** [__init__(self, x, y, create_intercept, regression_type)] *)
Definition init (x y : loc) (create_intercept : bool)
    (regression_type : string) : M unit :=
  let* fx := pd_DataFrame x in
  setattr (set_x fx) ;;
  setattr (set_y y) ;;
  let* fy := pd_DataFrame y in
  setattr (set_y2 fy) ;;
  let* sx := getattr (@self_x T) "x" in
  let* n := len sx in
  setattr (set_num_obs n) ;;
  let* sh := shape x in
  setattr (set_num_vars sh.2) ;;
  (if regression_type \in [:: "ols"; "logit"]%string
   then setattr (set_regression_type regression_type)
   else raise (RuntimeError "Enter ols or logit to processed")) ;;
  let* sx := getattr (@self_x T) "x" in
  let* c := frame_columns sx in
  let* xl := py_list c in
  setattr (set_x_list xl) ;;
  let* nm := series_name y in
  setattr (set_y_label nm) ;;
  add_intercept create_intercept ;;
  let* sx := getattr (@self_x T) "x" in
  let* a := np_array sx in
  setattr (set_x1 a) ;;
  let* sy := getattr (@self_y2 T) "y2" in
  let* a := np_array sy in
  setattr (set_y1 a).

(** [RegressionModel(x, y, create_intercept, regression_type)]: a new
    instance, initialised in the caller's heap. *)
Definition RegressionModel_new (h : heap T) (x y : loc)
    (create_intercept : bool) (regression_type : string) :
    outcome unit * state T :=
  init x y create_intercept regression_type (State h new_instance).

Definition inver (mat : seq (seq T)) : M (seq (seq T)) :=
  lift (np_linalg_inv mat).

Definition BetaHat : M unit :=
  let* a := getattr (@self_x1 T) "x1" in
  let* xt_x := lift (matmul (transpose a) a) in
  let* b := getattr (@self_y1 T) "y1" in
  let* xt_y := lift (matmul (transpose a) b) in
  let* i := inver xt_x in
  let* bm := lift (matmul i xt_y) in
  setattr (set_Beta_hat_M bm) ;;
  let* bm := getattr (@self_Beta_hat_M T) "Beta_hat_M" in
  let* r := lift (getitem [::] (transpose bm) 0) in
  setattr (set_Beta_hat r).

Definition chat2 : M T :=
  let* a := getattr (@self_x1 T) "x1" in
  let n := size a in
  let k := ncols a in
  setattr (set_df (Posz n - Posz k)%R) ;;
  let* b := getattr (@self_y1 T) "y1" in
  let* bm := getattr (@self_Beta_hat_M T) "Beta_hat_M" in
  let* xb := lift (matmul a bm) in
  let* e := lift (msub b xb) in
  let* ee := lift (matmul (transpose e) e) in
  let* d := getattr (@self_df T) "df" in
  let res := sdiv ee (of_int d) in
  let* r := lift (getitem [::] res 0) in
  lift (getitem I0 r 0).

Definition varianceOfBeta_hat : M (seq T) :=
  let* c := chat2 in
  let* a := getattr (@self_x1 T) "x1" in
  let* xt_x := lift (matmul (transpose a) a) in
  let* i := inver xt_x in
  let covariance := smul c i in
  ret (np_diag covariance).

Definition std_error : M unit :=
  let* v := varianceOfBeta_hat in
  setattr (set_stdError [seq np_sqrt a | a <- v]).

Definition t_statistic : M unit :=
  let* b := getattr (@self_Beta_hat T) "Beta_hat" in
  let* o := getattr (@self_stdError T) "stdError" in
  setattr (set_t_stat [seq p.1 / p.2 | p <- zip b o]).

Definition p_value : M unit :=
  let* t := getattr (@self_t_stat T) "t_stat" in
  let* d := getattr (@self_df T) "df" in
  setattr (set_p_val [seq t_sf a d | a <- t]).

(** One row of the results: the record of a variable. *)
Definition record (stat : string) (c se st p : T) : dict T :=
  [:: ("coefficient"%string, c); ("standard_error"%string, se);
      (stat, st); ("p_value"%string, p)].

(** [resultToDict]: the table built from the five columns (pandas
    refuses columns of different lengths), indexed by variable name,
    transposed and turned into a dict of dicts. *)
Definition resultToDict : M unit :=
  let* xl := getattr (@self_x_list T) "x_list" in
  let* names := list_items xl in
  let* b := getattr (@self_Beta_hat T) "Beta_hat" in
  let* se := getattr (@self_stdError T) "stdError" in
  let* t := getattr (@self_t_stat T) "t_stat" in
  let* p := getattr (@self_p_val T) "p_val" in
  if all (fun n => n == size names) [:: size b; size se; size t; size p]
  then
    setattr (set_results
      (foldl (fun d r => dict_set d r.1 (record "t_stat" r.2.1 r.2.2.1 r.2.2.2.1 r.2.2.2.2))
             [::] (zip names (zip b (zip se (zip t p))))))
  else raise ValueError.

Definition ols_regression : M unit :=
  BetaHat ;;
  varianceOfBeta_hat ;;
  std_error ;;
  t_statistic ;;
  p_value ;;
  resultToDict.

(** The objective of the logit fit, local to [logistic_regression]. *)
Definition loglike (b : seq T) (y x : seq (seq T)) : outcome T :=
  obind (matvec x b) (fun xb =>
  let gamma := [seq np_exp t / (I1 + np_exp t) | t <- xb] in
  let ll := of_int (- 1)%R *
            pysum [seq p.1 * np_log p.2 + (I1 - p.1) * np_log (I1 - p.2)
                  | p <- zip (flatten y) gamma] in
  Ok ll).

Definition logistic_regression : M unit :=
  let* nv := getattr (@self_num_vars T) "num_vars" in
  let b := np_full nv lit_0_1 in
  let* y := getattr (@self_y2 T) "y2" in
  let* x := getattr (@self_x T) "x" in
  let* yv := np_array y in
  let* xv := np_array x in
  let* res := lift (minimize (fun b => loglike b yv xv) b) in
  let betas := res_x res in
  setattr (set_Beta_hat betas) ;;
  let* n := getattr (@self_num_obs T) "num_obs" in
  let shat2 := of_int (Posz n) * np_mean yv * (I1 - np_mean yv) in
  let* xt_x := lift (matmul (transpose xv) xv) in
  let* i := lift (np_linalg_inv xt_x) in
  let cov := smul shat2 i in
  setattr (set_stdError [seq np_sqrt a | a <- np_diag cov]) ;;
  let* se := getattr (@self_stdError T) "stdError" in
  let* z := lift (vdiv betas se) in
  setattr (set_zScores z) ;;
  let* z := getattr (@self_zScores T) "zScores" in
  setattr (set_p_val [seq norm_sf (np_abs a) * of_int 2 | a <- z]) ;;
  setattr (set_results [::]) ;;
  let* sx := getattr (@self_x T) "x" in
  let* variable_names := frame_columns sx in
  for_each (enumerate variable_names) (fun e =>
    let* c := lift (getitem I0 betas e.1) in
    let* se := getattr (@self_stdError T) "stdError" in
    let* s := lift (getitem I0 se e.1) in
    let* z := getattr (@self_zScores T) "zScores" in
    let* zi := lift (getitem I0 z e.1) in
    let* p := getattr (@self_p_val T) "p_val" in
    let* pi := lift (getitem I0 p e.1) in
    let* r := getattr (@self_results T) "results" in
    setattr (set_results (dict_set r e.2 (record "z_stat" c s zi pi)))).

Definition fit_model : M unit :=
  let* rt := getattr (@self_regression_type T) "regression_type" in
  if rt == "ols"%string then ols_regression
  else if rt == "logit"%string then logistic_regression
  else ret tt.

End Methods.

(** ** The interfaces on IEEE binary64

    numpy computes in binary64, which Rocq's primitive floats are: the
    arithmetic below is the kernel's.  The library routines ([exp],
    [log], the matrix inverse, the survival functions) are reference
    implementations, accurate to a few units in the last places or, for
    the survival functions, to about seven digits; they are not the
    code of numpy or scipy, but they treat zero, infinities and NaN as
    these do, which is what the examples on binary64 exercise. *)

Module Float64.

Import PrimFloat.
Local Open Scope float_scope.

Definition of_Z (z : BinNums.Z) : float :=
  match z with
  | BinNums.Z0 => 0
  | BinNums.Zpos _ => of_uint63 (Uint63.of_Z z)
  | BinNums.Zneg p => - of_uint63 (Uint63.of_Z (BinNums.Zpos p))
  end.

Definition of_int (z : int) : float :=
  match z with
  | Posz n => of_Z (BinInt.Z.of_nat n)
  | Negz n => of_Z (BinInt.Z.opp (BinInt.Z.of_nat n.+1))
  end.

Definition of_nat (n : nat) : float := of_int (Posz n).

(** [horner r cs]: the sum of [cs_i * r^i]. *)
Definition horner (r : float) (cs : seq float) : float :=
  foldr (fun c acc => c + r * acc) 0 cs.

(** [exp]: the Taylor polynomial at [t / 2^10], squared ten times. *)
Definition exp (t : float) : float :=
  if t <? -746 then 0
  else
    let r := t / 1024 in
    let p := foldr (fun k acc => 1 + r / of_nat k * acc) 1 (iota 1 14) in
    iter 10 (fun v => v * v) p.

Definition ln2 : float := 0x1.62e42fefa39efp-1.

(** [log]: [x = m * 2^e] with [m] near 1, and the series of
    [2 * atanh ((m - 1) / (m + 1))]. *)
Definition log (x : float) : float :=
  if is_nan x || (x <? 0) then nan
  else if x =? 0 then neg_infinity
  else if x =? infinity then infinity
  else
    let (m, e) := FloatOps.Z.frexp x in
    let (m, e) := if m <? 0x1.6a09e667f3bcdp-1
                  then (m * 2, BinInt.Z.pred e) else (m, e) in
    let s := (m - 1) / (m + 1) in
    let s2 := s * s in
    of_Z e * ln2
    + 2 * s * horner s2 [seq 1 / of_nat (2 * i + 1) | i <- iota 0 18].

Definition pi : float := 0x1.921fb54442d18p+1.

Definition atan (x : float) : float :=
  let a := abs x in
  let b := if 1 <? a then 1 / a else a in
  let h v := v / (1 + sqrt (1 + v * v)) in
  let c := h (h b) in
  let c2 := c * c in
  let t := 4 * c * horner (- c2) [seq 1 / of_nat (2 * i + 1) | i <- iota 0 14] in
  let r := if 1 <? a then pi / 2 - t else t in
  if x <? 0 then - r else r.

(** [scipy.stats.norm.sf]: half the complementary error function at
    [x / sqrt 2], by the rational approximation 7.1.26 of Abramowitz and
    Stegun. *)
Definition erfc_pos (x : float) : float :=
  let t := 1 / (1 + 0x1.4f72fbd0ac6c4p-2 * x) in
  t * horner t [:: 0x1.04f20c6ec5a7ep-2; -0x1.23531cc3c1469p-2;
                   0x1.6be1c55bae157p+0; -0x1.7401c57014c39p+0;
                   0x1.0fb844255a12dp+0]
  * exp (- (x * x)).

Definition norm_sf (x : float) : float :=
  let u := abs x / sqrt 2 in
  if x <? 0 then 1 - erfc_pos u / 2 else erfc_pos u / 2.

(** [scipy.stats.t.sf] for an integer number of degrees of freedom, by
    the finite sums 26.7.3 and 26.7.4 of Abramowitz and Stegun; its
    limits 0 and 1 at the infinities, NaN at NaN and when there are no
    degrees of freedom. *)
Definition t_sf (t : float) (df : int) : float :=
  match df with
  | Posz (S n) =>
      let nu := of_nat n.+1 in
      let a := abs t in
      let sin := a / sqrt (nu + a * a) in
      let cos2 := nu / (nu + a * a) in
      let two_sided :=
        if odd n.+1 then
          let cs := scanl (fun c j => c * of_nat (2 * j) / of_nat (2 * j + 1))
                          1 (iota 1 (n./2 - 1)) in
          2 / pi * (atan (a / sqrt nu)
                    + (if n is 0 then 0 else sin * sqrt cos2 * horner cos2 (1 :: cs)))
        else
          let ds := scanl (fun d j => d * of_nat (2 * j - 1) / of_nat (2 * j))
                          1 (iota 1 (n./2)) in
          sin * horner cos2 (1 :: ds) in
      if a =? infinity then (if t <? 0 then 1 else 0)
      else if t <? 0 then (1 + two_sided) / 2 else (1 - two_sided) / 2
  | _ => nan
  end.

(** [np.linalg.inv]: Gauss-Jordan elimination with partial pivoting on
    the matrix extended by the identity; a zero pivot is a singular
    matrix. *)
Definition entry (A : seq (seq float)) (i j : nat) : float :=
  nth 0 (nth [::] A i) j.

Definition eliminate (A : seq (seq float)) (j : nat) : outcome (seq (seq float)) :=
  let p := foldl (fun best i => if abs (entry A best j) <? abs (entry A i j)
                                then i else best)
                 j (iota j (size A - j)) in
  let piv := entry A p j in
  if piv =? 0 then Raise LinAlgError
  else
    let rowp := [seq a / piv | a <- nth [::] A p] in
    let A' := set_nth [::] (set_nth [::] A p (nth [::] A j)) j rowp in
    Ok [seq (if e.1 == j then rowp
             else [seq q.1 - nth 0 e.2 j * q.2 | q <- zip e.2 rowp])
       | e <- enumerate A'].

Definition inv (A : seq (seq float)) : outcome (seq (seq float)) :=
  let n := size A in
  if all (fun r => size r == n) A then
    let ext := [seq e.2 ++ [seq (if i == e.1 then 1 else 0) | i <- iota 0 n]
               | e <- enumerate A] in
    obind (foldl (fun acc j => obind acc (fun B => eliminate B j)) (Ok ext) (iota 0 n))
          (fun B => Ok [seq drop n r | r <- B])
  else Raise LinAlgError.

(** numpy on binary64, around given [exp] and [log]. *)
Definition numpy_with (exp log : float -> float) : NumPy float :=
  Build_NumPy of_int 0x1.999999999999ap-4 add sub mul div exp log sqrt abs inv.

Definition numpy : NumPy float := numpy_with exp log.

(** scipy on binary64, around a given minimizer. *)
Definition scipy
    (minimizer : (seq float -> outcome float) -> seq float ->
                 outcome (OptimizeResult float)) : SciPy float :=
  Build_SciPy minimizer t_sf norm_sf.

End Float64.

(** ** Reasoning about method bodies *)

Section Logic.

Variable T : Type.
Implicit Types (s : state T) (h : heap T) (l : loc).

(** [wp c Q R s]: running [c] from [s] ends in a state that satisfies
    [Q] with the returned value, or [R] with the exception raised. *)
Definition wp {A} (c : M T A) (Q : A -> state T -> Prop)
    (R : exn -> state T -> Prop) (s : state T) : Prop :=
  match c s with
  | (Ok a, s') => Q a s'
  | (Raise e, s') => R e s'
  end.

Lemma wp_bind {A B} (c : M T A) (k : A -> M T B) Q R s :
  wp c (fun a s' => wp (k a) Q R s') R s -> wp (bind c k) Q R s.
Proof. by rewrite /wp /bind; case: (c s) => [[a|e] s']. Qed.

Lemma wp_mono {A} (c : M T A) (Q Q' : A -> state T -> Prop)
    (R R' : exn -> state T -> Prop) s :
  wp c Q R s -> (forall a s', Q a s' -> Q' a s') ->
  (forall e s', R e s' -> R' e s') -> wp c Q' R' s.
Proof. by rewrite /wp; case: (c s) => [[a|e] s'] H HQ HR; auto. Qed.

Lemma wp_ret {A} (a : A) Q R s : Q a s -> wp (ret a) Q R s.
Proof. by []. Qed.

Lemma wp_raise {A} e (Q : A -> state T -> Prop) R s :
  R e s -> wp (raise e) Q R s.
Proof. by []. Qed.

Lemma wp_lift {A} (o : outcome A) Q R s :
  (forall a, o = Ok a -> Q a s) -> (forall e, o = Raise e -> R e s) ->
  wp (lift o) Q R s.
Proof. by rewrite /wp /lift; case: o => [a|e] HQ HR; auto. Qed.

Lemma wp_getattr {A} (attr : RegressionModel T -> option A) name Q R s :
  (forall v, attr (st_self s) = Some v -> Q v s) ->
  R (AttributeError name) s ->
  wp (getattr attr name) Q R s.
Proof. by rewrite /wp /getattr; case: (attr _) => [v|] HQ HR; auto. Qed.

Lemma wp_setattr upd (Q : unit -> state T -> Prop) R s :
  Q tt (State (st_heap s) (upd (st_self s))) -> wp (setattr upd) Q R s.
Proof. by []. Qed.

Lemma wp_new o (Q : loc -> state T -> Prop) R s :
  Q (size (st_heap s)) (State (rcons (st_heap s) o) (st_self s)) ->
  wp (new o) Q R s.
Proof. by []. Qed.

Lemma wp_deref l (Q : obj T -> state T -> Prop) R s :
  (forall o, read (st_heap s) l = Some o -> Q o s) -> R TypeError s ->
  wp (deref l) Q R s.
Proof. by rewrite /wp /deref; case: (read _ _) => [o|] HQ HR; auto. Qed.

Lemma wp_store l o (Q : unit -> state T -> Prop) R s :
  Q tt (State (write (st_heap s) l o) (st_self s)) -> wp (store l o) Q R s.
Proof. by []. Qed.

Lemma wp_for_each {A} (I : state T -> Prop) (xs : seq A) (body : A -> M T unit)
    (R : exn -> state T -> Prop) s :
  (forall a s', I s' -> wp (body a) (fun _ => I) R s') ->
  I s -> wp (for_each xs body) (fun _ => I) R s.
Proof.
move=> Hbody; elim: xs s => [|a xs IH] s Hs //=.
apply: wp_bind; apply: wp_mono (Hbody a s Hs) _ _ => // _ s'; exact: IH.
Qed.

(** *** The heap *)

Lemma read_rcons h o l :
  read (rcons h o) l = if l == size h then Some o else read h l.
Proof.
rewrite /read map_rcons nth_rcons size_map.
case: ltngtP => // Hl; by rewrite nth_default // size_map ltnW.
Qed.

Lemma read_size h l o : read h l = Some o -> l < size h.
Proof.
rewrite /read; case: (ltnP l (size h)) => // Hl.
by rewrite nth_default // size_map.
Qed.

Lemma read_rcons_old h o' l o :
  read h l = Some o -> read (rcons h o') l = Some o.
Proof.
move=> Hl; rewrite read_rcons; move: (read_size Hl).
by case: eqP => [->|_]; rewrite ?ltnn.
Qed.

Lemma read_rcons_new h o : read (rcons h o) (size h) = Some o.
Proof. by rewrite read_rcons eqxx. Qed.

Lemma read_take h n l : l < n -> read (take n h) l = read h l.
Proof. by move=> Hl; rewrite /read map_take nth_take. Qed.

Lemma write_rcons h o o' : write (rcons h o) (size h) o' = rcons h o'.
Proof. by rewrite /write; elim: h => [|a h IH] //=; rewrite IH. Qed.

Lemma take_write h n l o :
  n <= l -> n <= size h -> take n (write h l o) = take n h.
Proof.
rewrite /write; elim: h n l => [|a h IH] [|n] [|l] //= Hn Hs.
by rewrite IH.
Qed.

End Logic.

(** ** What a method may touch

    [owned hc s]: the objects of the heap [hc] the caller had when the
    instance was made are all unchanged in [s]; the list [self.x_list]
    refers to, the one object the class updates in place, is not one of
    them, and neither is the frame [self.x]. *)

Section Frame.

Context {T : Type} {np : NumPy T} {sp : SciPy T}.
Implicit Types (s : state T) (hc : heap T) (l : loc).

Definition owned hc s : Prop :=
  [/\ take (size hc) (st_heap s) = hc,
      forall l, self_x_list (st_self s) = Some l -> size hc <= l
    & forall l, self_x (st_self s) = Some l -> size hc <= l].

(** [c] keeps the caller's objects, whether it returns or raises. *)
Definition keeps hc {A} (c : M T A) : Prop :=
  forall s, owned hc s -> wp c (fun _ => owned hc) (fun _ => owned hc) s.

(** ... and the location it returns is a new one. *)
Definition fresh hc (c : M T loc) : Prop :=
  forall s, owned hc s ->
  wp c (fun l s' => owned hc s' /\ size hc <= l) (fun _ => owned hc) s.

Lemma owned_eta hc s : owned hc s -> owned hc (State (st_heap s) (st_self s)).
Proof. by []. Qed.

Lemma owned_size hc h m : owned hc (State h m) -> size hc <= size h.
Proof.
case=> /= Ht _ _; rewrite -{1}Ht size_take.
by case: ltnP => // /ltnW.
Qed.

Lemma owned_setattr hc h m upd :
  (forall m', self_x_list (upd m') = self_x_list m') ->
  (forall m', self_x (upd m') = self_x m') ->
  owned hc (State h m) -> owned hc (State h (upd m)).
Proof.
move=> Hl Hx [Ht Hxl Hsx]; split=> //= l; rewrite ?Hl ?Hx; auto.
Qed.

Lemma owned_set_x_list hc h m l :
  size hc <= l -> owned hc (State h m) -> owned hc (State h (set_x_list l m)).
Proof. by move=> Hl [Ht _ Hx]; split=> //= l' [<-]. Qed.

Lemma owned_set_x hc h m l :
  size hc <= l -> owned hc (State h m) -> owned hc (State h (set_x l m)).
Proof. by move=> Hl [Ht Hxl _]; split=> //= l' [<-]. Qed.

Lemma owned_new hc h m o :
  owned hc (State h m) -> owned hc (State (rcons h o) m).
Proof.
move=> Hs; case: (Hs) => /= Ht Hl Hx; split=> //=.
by rewrite -cats1 takel_cat // (owned_size Hs).
Qed.

Lemma owned_store hc h m l o :
  size hc <= l -> owned hc (State h m) -> owned hc (State (write h l o) m).
Proof.
move=> Hl Hs; case: (Hs) => /= Ht Hxl Hx; split=> //=.
by rewrite take_write // (owned_size Hs).
Qed.

Lemma owned_x_list hc s l :
  owned hc s -> self_x_list (st_self s) = Some l -> size hc <= l.
Proof. by case=> _ H _; exact: H. Qed.

(** One step of a method body. *)
Ltac frame_step :=
  match goal with
  | |- _ => eassumption
  | |- wp (bind _ _) _ _ _ => apply: wp_bind
  | |- wp (ret _) _ _ _ => apply: wp_ret
  | |- wp (raise _) _ _ _ => apply: wp_raise
  | |- wp (lift _) _ _ _ => apply: wp_lift => [? _|? _]
  | |- wp (getattr _ _) _ _ _ => apply: wp_getattr => [? ?|]
  | |- wp (setattr _) _ _ _ => apply: wp_setattr
  | |- wp (new _) _ _ _ => apply: wp_new
  | |- wp (deref _) _ _ _ => apply: wp_deref => [[?|? ?|? ?|?] _|]
  | |- wp (store _ _) _ _ _ => apply: wp_store
  | |- wp (if ?b then _ else _) _ _ _ => case: b
  | |- owned _ (State (st_heap ?s) (st_self ?s)) => apply: owned_eta
  | |- owned _ (State _ (set_x_list _ _)) => apply: owned_set_x_list
  | |- owned _ (State _ (set_x _ _)) => apply: owned_set_x
  | |- owned _ (State (rcons _ _) _) => apply: owned_new
  | |- owned _ (State (write _ _ _) _) => apply: owned_store
  | |- owned ?hc (State ?h (?f ?v ?m)) =>
      apply: (@owned_setattr hc h m (f v)); first by []
  | |- _ /\ _ => split
  | |- is_true (size _ <= _) => eassumption
  | |- is_true (size _ <= size (rcons _ _)) => rewrite size_rcons; apply: leqW
  | |- is_true (size _ <= size _) => eapply owned_size
  | |- is_true (size _ <= _) => eapply owned_x_list; eassumption
  | |- owned _ _ => eassumption
  end.

Ltac frame :=
  rewrite /keeps /fresh; intros;
  repeat first [ by [] | frame_step; cbn [st_heap st_self] ].

(** A call of a method whose frame is known. *)
Ltac frame_post :=
  move=> ? ?; cbv beta;
  lazymatch goal with
  | |- (_ /\ _) -> _ => case=> ? ?
  | |- _ => move=> ?
  end.

Ltac frame_call lem :=
  eapply wp_mono; [eapply lem; frame | frame_post; frame | frame_post; frame].

Lemma keeps_frame_columns hc l : keeps hc (frame_columns l).
Proof. rewrite /frame_columns; frame. Qed.

Lemma keeps_np_array hc l : keeps hc (np_array l).
Proof. rewrite /np_array; frame. Qed.

Lemma keeps_len hc l : keeps hc (len l).
Proof. rewrite /len; frame; frame_call keeps_np_array. Qed.

Lemma keeps_shape hc l : keeps hc (shape l).
Proof. rewrite /shape; frame. Qed.

Lemma fresh_pd_DataFrame hc l : fresh hc (pd_DataFrame l).
Proof. rewrite /pd_DataFrame; frame. Qed.

Lemma fresh_pd_DataFrame_of_list hc (v : seq T) name :
  fresh hc (pd_DataFrame_of_list v name).
Proof. rewrite /pd_DataFrame_of_list; frame. Qed.

Lemma fresh_pd_concat_axis1 hc a b : fresh hc (pd_concat_axis1 a b).
Proof.
rewrite /pd_concat_axis1; frame.
frame_call keeps_frame_columns.
frame_call keeps_np_array.
frame_call keeps_frame_columns.
frame_call keeps_np_array.
Qed.

Lemma fresh_reset_index hc a : fresh hc (reset_index a).
Proof.
rewrite /reset_index; frame.
frame_call keeps_frame_columns.
frame_call keeps_np_array.
Qed.

Lemma keeps_series_name hc l : keeps hc (series_name l).
Proof. rewrite /series_name; frame. Qed.

Lemma fresh_py_list hc items : fresh hc (py_list (T:=T) items).
Proof. rewrite /py_list; frame. Qed.

Lemma keeps_list_items hc l : keeps hc (list_items (T:=T) l).
Proof. rewrite /list_items; frame. Qed.

Lemma keeps_list_append hc l item :
  size hc <= l -> keeps hc (list_append (T:=T) l item).
Proof. move=> Hl; rewrite /list_append; frame. Qed.

Lemma keeps_add_intercept hc ci : keeps hc (add_intercept ci).
Proof.
rewrite /add_intercept; frame.
frame_call keeps_list_append.
frame_call fresh_pd_DataFrame_of_list.
frame_call fresh_pd_concat_axis1.
frame_call fresh_reset_index.
frame_call keeps_shape.
Qed.

Lemma keeps_init hc x y ci rt : keeps hc (init x y ci rt).
Proof.
rewrite /init; frame.
frame_call fresh_pd_DataFrame.
frame_call fresh_pd_DataFrame.
frame_call keeps_len.
frame_call keeps_shape.
frame_call keeps_frame_columns.
frame_call fresh_py_list.
frame_call keeps_series_name.
frame_call keeps_add_intercept.
frame_call keeps_np_array.
frame_call keeps_np_array.
Qed.

Lemma keeps_BetaHat hc : keeps hc (BetaHat (T:=T)).
Proof. rewrite /BetaHat /inver; frame. Qed.

Lemma keeps_chat2 hc : keeps hc (chat2 (T:=T)).
Proof. rewrite /chat2; frame. Qed.

Lemma keeps_varianceOfBeta_hat hc : keeps hc (varianceOfBeta_hat (T:=T)).
Proof. rewrite /varianceOfBeta_hat /inver; frame; frame_call keeps_chat2. Qed.

Lemma keeps_std_error hc : keeps hc (std_error (T:=T)).
Proof. rewrite /std_error; frame; frame_call keeps_varianceOfBeta_hat. Qed.

Lemma keeps_t_statistic hc : keeps hc (t_statistic (T:=T)).
Proof. rewrite /t_statistic; frame. Qed.

Lemma keeps_p_value hc : keeps hc (p_value (T:=T)).
Proof. rewrite /p_value; frame. Qed.

Lemma keeps_resultToDict hc : keeps hc (resultToDict (T:=T)).
Proof. rewrite /resultToDict; frame; frame_call keeps_list_items. Qed.

Lemma keeps_ols_regression hc : keeps hc (ols_regression (T:=T)).
Proof.
rewrite /ols_regression; frame.
frame_call keeps_BetaHat.
frame_call keeps_varianceOfBeta_hat.
frame_call keeps_std_error.
frame_call keeps_t_statistic.
frame_call keeps_p_value.
frame_call keeps_resultToDict.
Qed.

Lemma keeps_logistic_regression hc : keeps hc (logistic_regression (T:=T)).
Proof.
rewrite /logistic_regression; frame.
frame_call keeps_np_array.
frame_call keeps_np_array.
frame_call keeps_frame_columns.
apply: wp_for_each => // e s' Hs'; frame.
Qed.

Lemma keeps_fit_model hc : keeps hc (fit_model (T:=T)).
Proof.
rewrite /fit_model; frame.
- frame_call keeps_ols_regression.
- frame_call keeps_logistic_regression.
Qed.

End Frame.

(** ** The caller's objects *)

Section Caller.

Context {T : Type} {np : NumPy T} {sp : SciPy T}.

(** The state after [RegressionModel(...)] and [n] calls of
    [fit_model], whatever each of them returned or raised. *)
Definition after_fits (h : heap T) (x y : loc) (create_intercept : bool)
    (regression_type : string) (n : nat) : state T :=
  iter n (fun s => (fit_model s).2)
       (RegressionModel_new h x y create_intercept regression_type).2.

Lemma owned_after_fits h x y ci rt n : owned h (after_fits h x y ci rt n).
Proof.
elim: n => [|n IH] /=.
- have H0 : owned h (State h (new_instance (T:=T))).
    by split=> //=; rewrite take_size.
  move: (keeps_init (np:=np) x y ci rt H0).
  by rewrite /wp /RegressionModel_new; case: (init _ _ _ _ _) => [[a|e] s'].
- move: (keeps_fit_model (np:=np) (sp:=sp) IH).
  rewrite /after_fits /= /wp.
  by case: (fit_model _) => [[a|e] s'].
Qed.

End Caller.

(** ** Running a method to its end *)

Section Run.

Variable T : Type.
Implicit Types (s : state T) (h : heap T) (l : loc).

(** [returns c Q s]: from [s], [c] returns, in a state that satisfies
    [Q]. *)
Definition returns {A} (c : M T A) (Q : A -> state T -> Prop) (s : state T) : Prop :=
  wp c Q (fun _ _ => False) s.

Lemma returnsP {A} (c : M T A) Q s :
  returns c Q s <-> exists a s', c s = (Ok a, s') /\ Q a s'.
Proof.
rewrite /returns /wp; case: (c s) => [[a|e] s']; split=> //.
- by move=> HQ; exists a, s'.
- by case=> a' [s'' [[-> ->]]].
- by case=> a' [s'' []].
Qed.

Lemma returns_getattr {A} (attr : RegressionModel T -> option A) name v
    (Q : A -> state T -> Prop) R s :
  attr (st_self s) = Some v -> Q v s -> wp (getattr attr name) Q R s.
Proof. by rewrite /wp /getattr => ->. Qed.

Lemma returns_lift {A} (o : outcome A) a (Q : A -> state T -> Prop) R s :
  o = Ok a -> Q a s -> wp (lift o) Q R s.
Proof. by rewrite /wp /lift => ->. Qed.

Lemma returns_deref l o (Q : obj T -> state T -> Prop) R s :
  read (st_heap s) l = Some o -> Q o s -> wp (deref l) Q R s.
Proof. by rewrite /wp /deref => ->. Qed.

Lemma raises_lift {A} (o : outcome A) e (Q : A -> state T -> Prop)
    (R : exn -> state T -> Prop) s :
  o = Raise e -> R e s -> wp (lift o) Q R s.
Proof. by rewrite /wp /lift => ->. Qed.

End Run.

(** Finding an object in a heap that grew since it was allocated. *)
Ltac lookup :=
  repeat first [ eassumption | exact: read_rcons_new | apply: read_rcons_old ].

(** One step of a run whose reads all succeed. *)
Ltac run_step :=
  cbn [st_heap st_self]; rewrite ?write_rcons;
  match goal with
  | |- wp (bind _ _) _ _ _ => apply: wp_bind
  | |- wp (ret _) _ _ _ => apply: wp_ret
  | |- wp (setattr _) _ _ _ => apply: wp_setattr
  | |- wp (new _) _ _ _ => apply: wp_new
  | |- wp (store _ _) _ _ _ => apply: wp_store
  | |- wp (getattr _ _) _ _ _ =>
      eapply returns_getattr; [first [reflexivity | eassumption] |]
  | |- wp (deref _) _ _ _ => eapply returns_deref; [by lookup |]
  | |- wp (lift (Ok _)) _ _ _ => eapply returns_lift; [reflexivity |]
  end.

Ltac run := repeat run_step.

(** ** Construction *)

Section Construction.

Context {T : Type} {np : NumPy T}.
Implicit Types (s : state T) (h : heap T) (X Y : seq (seq T)).

(** The caller's arguments: [x] is a frame with columns [cols] and rows
    [X], [y] a series named [nm] with values [Y] (one per row). *)
Definition table h (x : loc) (cols : seq string) X : Prop :=
  exists b, read h x = Some (DataFrame cols b) /\ read h b = Some (Block X).

Definition series h (y : loc) (nm : string) Y : Prop :=
  exists b, read h y = Some (Series nm b) /\ read h b = Some (Block Y).

(** The design matrix and its column names: the caller's, with the
    constant column last when an intercept is asked for. *)
Definition with_intercept X : seq (seq T) :=
  [seq p.1 ++ p.2 | p <- zip X [seq [:: v] | v <- nseq (size X) I1]].

Definition design (create_intercept : bool) X : seq (seq T) :=
  if create_intercept then with_intercept X else X.

Definition labels (create_intercept : bool) (cols : seq string) : seq string :=
  if create_intercept then rcons cols "intercept"%string else cols.

(** [Ready s names X Y rt]: [s] is the state of an instance constructed
    over the design matrix [X] with columns [names], the response [Y]
    and the family [rt]. *)
Record Ready s (names : seq string) X Y (rt : string) : Prop := {
  ready_x : exists lx, self_x (st_self s) = Some lx /\ table (st_heap s) lx names X;
  ready_y2 : exists ly nm, self_y2 (st_self s) = Some ly /\
                           table (st_heap s) ly [:: nm] Y;
  ready_x_list : exists l, self_x_list (st_self s) = Some l /\
                           read (st_heap s) l = Some (PyList names);
  ready_x1 : self_x1 (st_self s) = Some X;
  ready_y1 : self_y1 (st_self s) = Some Y;
  ready_num_obs : self_num_obs (st_self s) = Some (size X);
  ready_num_vars : self_num_vars (st_self s) = Some (size names);
  ready_regression_type : self_regression_type (st_self s) = Some rt
}.

Lemma size_with_intercept X : size (with_intercept X) = size X.
Proof. by rewrite /with_intercept size_map size_zip size_map size_nseq minnn. Qed.

Lemma init_ready h x y ci rt cols X nm Y :
  table h x cols X -> series h y nm Y ->
  rt \in [:: "ols"; "logit"]%string ->
  exists s, RegressionModel_new h x y ci rt = (Ok tt, s) /\
            Ready s (labels ci cols) (design ci X) Y rt.
Proof.
move=> [bx [Hx Hbx]] [b [Hy Hb]] Hrt.
suff: returns (init (np:=np) x y ci rt)
        (fun _ s => Ready s (labels ci cols) (design ci X) Y rt)
        (State h new_instance).
  by move/returnsP=> [[] [s [Hs Hr]]]; exists s.
rewrite /returns /init /add_intercept /pd_DataFrame /len /shape /py_list
  /series_name /list_append /pd_DataFrame_of_list /pd_concat_axis1
  /reset_index /np_array /frame_columns Hrt.
case: ci; run; rewrite ?cats1.
all: split; cbn [st_heap st_self];
  [ eexists; split; [reflexivity|]; eexists; split; by lookup
  | do 2 eexists; split; [reflexivity|]; eexists; split; by lookup
  | eexists; split; [reflexivity | by lookup]
  | .. ]; by rewrite /= ?size_with_intercept ?size_rcons.
Qed.

End Construction.

(** ** What a fit computes

    The methods read the design matrix and the response from [self] and
    leave their results in [self].  [ols_estimates] and
    [logit_estimates] are the same computations as functions of the data;
    [ols_regression_spec] and [logistic_regression_spec] below show that
    the methods compute exactly these. *)

Section Estimates.

Context {T : Type} {np : NumPy T} {sp : SciPy T}.
Implicit Types (X Y : seq (seq T)) (names : seq string).
Local Open Scope np_scope.

Record ols_result := OlsResult {
  ols_Beta_hat_M : seq (seq T);
  ols_Beta_hat : seq T;
  ols_df : int;
  ols_stdError : seq T;
  ols_t_stat : seq T;
  ols_p_val : seq T;
  ols_results : dict (dict T)
}.

Definition ols_table names (b se t p : seq T) : dict (dict T) :=
  foldl (fun d r => dict_set d r.1 (record "t_stat" r.2.1 r.2.2.1 r.2.2.2.1 r.2.2.2.2))
        [::] (zip names (zip b (zip se (zip t p)))).

Definition ols_estimates names X Y : outcome ols_result :=
  obind (matmul (transpose X) X) (fun xt_x =>
  obind (matmul (transpose X) Y) (fun xt_y =>
  obind (np_linalg_inv xt_x) (fun i =>
  obind (matmul i xt_y) (fun bm =>
  obind (getitem [::] (transpose bm) 0) (fun b =>
  let df := (Posz (size X) - Posz (ncols X))%R in
  obind (matmul X bm) (fun xb =>
  obind (msub Y xb) (fun e =>
  obind (matmul (transpose e) e) (fun ee =>
  obind (getitem [::] (sdiv ee (of_int df)) 0) (fun r =>
  obind (getitem I0 r 0) (fun c =>
  let se := [seq np_sqrt a | a <- np_diag (smul c i)] in
  let t := [seq p.1 / p.2 | p <- zip b se] in
  let p := [seq t_sf a df | a <- t] in
  if all (fun n => n == size names) [:: size b; size se; size t; size p]
  then Ok (OlsResult bm b df se t p (ols_table names b se t p))
  else Raise ValueError)))))))))).

Definition install_ols (e : ols_result) (m : RegressionModel T) : RegressionModel T :=
  set_results (ols_results e) (set_p_val (ols_p_val e) (set_t_stat (ols_t_stat e)
    (set_stdError (ols_stdError e) (set_df (ols_df e)
      (set_Beta_hat (ols_Beta_hat e) (set_Beta_hat_M (ols_Beta_hat_M e) m)))))).

Record logit_result := LogitResult {
  logit_res : OptimizeResult T;
  logit_stdError : seq T;
  logit_zScores : seq T;
  logit_p_val : seq T;
  logit_results : dict (dict T)
}.

(** The loop that fills [self.results]. *)
Definition logit_table names (b se z p : seq T) : outcome (dict (dict T)) :=
  foldl (fun acc e =>
           obind acc (fun d =>
           obind (getitem I0 b e.1) (fun c =>
           obind (getitem I0 se e.1) (fun s =>
           obind (getitem I0 z e.1) (fun zi =>
           obind (getitem I0 p e.1) (fun pi =>
           Ok (dict_set d e.2 (record "z_stat" c s zi pi))))))))
        (Ok [::]) (enumerate names).

Definition logit_estimates names X Y (num_obs num_vars : nat) : outcome logit_result :=
  obind (minimize (fun b => loglike b Y X) (np_full num_vars lit_0_1)) (fun res =>
  let betas := res_x res in
  let shat2 := of_int (Posz num_obs) * np_mean Y * (I1 - np_mean Y) in
  obind (matmul (transpose X) X) (fun xt_x =>
  obind (np_linalg_inv xt_x) (fun i =>
  let se := [seq np_sqrt a | a <- np_diag (smul shat2 i)] in
  obind (vdiv betas se) (fun z =>
  let p := [seq norm_sf (np_abs a) * of_int 2 | a <- z] in
  obind (logit_table names betas se z p) (fun r =>
  Ok (LogitResult res se z p r)))))).

Definition install_logit (e : logit_result) (m : RegressionModel T) : RegressionModel T :=
  set_results (logit_results e) (set_p_val (logit_p_val e)
    (set_zScores (logit_zScores e) (set_stdError (logit_stdError e)
      (set_Beta_hat (res_x (logit_res e)) m)))).

End Estimates.

(** One step of a method body against its functional description: a
    library call either returned before, or its two outcomes are
    followed. *)
Ltac spec_step :=
  cbn [st_heap st_self obind];
  match goal with
  | |- wp (bind _ _) _ _ _ => apply: wp_bind
  | |- wp (ret _) _ _ _ => apply: wp_ret
  | |- wp (setattr _) _ _ _ => apply: wp_setattr
  | |- wp (getattr _ _) _ _ _ =>
      eapply returns_getattr; [simpl; first [reflexivity | eassumption] |]
  | |- wp (deref _) _ _ _ => eapply returns_deref; [by lookup |]
  | |- wp (lift _) _ _ _ =>
      first [ eapply returns_lift; [eassumption |]
            | let a := fresh "a" in let Ha := fresh "Ha" in
              apply: wp_lift => [a Ha | a Ha]; rewrite ?Ha; cbn [obind]; try done ]
  end.

Section Specs.

Context {T : Type} {np : NumPy T} {sp : SciPy T}.
Implicit Types (s : state T) (X Y : seq (seq T)) (names : seq string).

Lemma ols_regression_spec s names X Y rt :
  Ready s names X Y rt ->
  wp ols_regression
     (fun _ s' => exists2 e, ols_estimates names X Y = Ok e
                  & s' = State (st_heap s) (install_ols e (st_self s)))
     (fun ex _ => ols_estimates names X Y = Raise ex) s.
Proof.
case=> _ _ [lxl [Hxl Hl]] Hx1 Hy1 _ _ _.
rewrite /ols_regression /BetaHat /std_error /varianceOfBeta_hat /chat2
  /t_statistic /p_value /resultToDict /inver /list_items /ols_estimates.
repeat spec_step.
case: ifP => _; last by apply: wp_raise.
by apply: wp_setattr; eexists; reflexivity.
Qed.

Lemma foldl_obind_Raise {A B : Type} (f : A -> B -> outcome A) ex (es : seq B) :
  foldl (fun acc e => obind acc (fun d => f d e)) (Raise ex) es = Raise ex.
Proof. by elim: es. Qed.

(** The loop of [logistic_regression] over the enumerated names. *)
Lemma results_loop (betas se z p : seq T) (es : seq (nat * string)) d h m :
  self_stdError m = Some se -> self_zScores m = Some z ->
  self_p_val m = Some p ->
  let step := fun d (e : nat * string) =>
           obind (getitem I0 betas e.1) (fun c =>
           obind (getitem I0 se e.1) (fun si =>
           obind (getitem I0 z e.1) (fun zi =>
           obind (getitem I0 p e.1) (fun pi =>
           Ok (dict_set d e.2 (record "z_stat" c si zi pi)))))) in
  wp (for_each es (fun e =>
        let* c := lift (getitem I0 betas e.1) in
        let* se := getattr (@self_stdError T) "stdError" in
        let* si := lift (getitem I0 se e.1) in
        let* z := getattr (@self_zScores T) "zScores" in
        let* zi := lift (getitem I0 z e.1) in
        let* p := getattr (@self_p_val T) "p_val" in
        let* pi := lift (getitem I0 p e.1) in
        let* r := getattr (@self_results T) "results" in
        setattr (set_results (dict_set r e.2 (record "z_stat" c si zi pi)))))
     (fun _ s' => exists2 r,
        foldl (fun acc e => obind acc (fun d => step d e)) (Ok d) es = Ok r
        & s' = State h (set_results r m))
     (fun ex _ =>
        foldl (fun acc e => obind acc (fun d => step d e)) (Ok d) es = Raise ex)
     (State h (set_results d m)).
Proof.
move=> Hse Hz Hp step; elim: es d => [|e es IH] d /=.
  by apply: wp_ret; exists d.
apply: wp_bind; rewrite /step.
by repeat spec_step; rewrite ?foldl_obind_Raise.
Qed.

Lemma logistic_regression_spec s names X Y rt :
  Ready s names X Y rt ->
  wp logistic_regression
     (fun _ s' => exists2 e,
        logit_estimates names X Y (size X) (size names) = Ok e
        & s' = State (st_heap s) (install_logit e (st_self s)))
     (fun ex _ => logit_estimates names X Y (size X) (size names) = Raise ex) s.
Proof.
case=> [[lx [Hx [bx [Hlx Hbx]]]] [ly [nm [Hy [b [Hly Hb]]]]] _ _ _ Hn Hk _].
rewrite /logistic_regression /np_array /frame_columns /logit_estimates.
repeat spec_step.
apply: wp_mono; first by apply: results_loop; reflexivity.
- by move=> _ s' [r Hr ->]; rewrite /logit_table Hr /=; eexists; reflexivity.
- by move=> ex s' Hr; rewrite /logit_table Hr.
Qed.

End Specs.

(** ** The interfaces in exact arithmetic

    Over an ordered field [F] numpy's arithmetic is the field's, and
    [np.linalg.inv] is the inverse of MathComp's matrices: it raises on
    a matrix that is not square or not invertible.  The transcendental
    functions, the minimizer and the distribution functions stay
    arbitrary: [Phi] is the standard normal distribution function, of
    which [scipy.stats.norm.sf] is the complement.

    Nothing is rounded, and the quotient is the field's, which is
    total: [a / 0] is [0] here, where numpy returns an infinity or NaN.
    What this model says of a quotient it says of the program where the
    divisor is not zero; the extended arithmetic further down keeps the
    special values.  The arrays hold one type of number: an array of
    int64, which numpy builds from a caller's integer columns and whose
    products wrap around, is not one of them. *)

Section Exact.

Variable F : realFieldType.
Local Open Scope ring_scope.

Definition to_mx (m n : nat) (A : seq (seq F)) : 'M[F]_(m, n) :=
  \matrix_(i, j) nth 0 (nth [::] A i) j.

Definition of_mx (m n : nat) (A : 'M[F]_(m, n)) : seq (seq F) :=
  [seq [seq A i j | j <- enum 'I_n] | i <- enum 'I_m].

(** [shaped m n A]: [A] has [m] rows of [n] entries. *)
Definition shaped (m n : nat) (A : seq (seq F)) : bool :=
  (size A == m) && all (fun r => size r == n) A.

Definition inv_exact (A : seq (seq F)) : outcome (seq (seq F)) :=
  let n := size A in
  if shaped n n A && (to_mx n n A \in unitmx)
  then Ok (of_mx (invmx (to_mx n n A)))
  else Raise LinAlgError.

Variables (exp log sqrt : F -> F).

Definition numpy_exact : NumPy F :=
  Build_NumPy (fun z => z%:~R) (10%:R^-1) +%R (fun a b => a - b) *%R
              (fun a b => a / b) exp log sqrt Num.norm inv_exact.

Variable minimizer :
  (seq F -> outcome F) -> seq F -> outcome (OptimizeResult F).
Variables (student_sf : F -> int -> F) (Phi : F -> F).

Definition scipy_exact : SciPy F :=
  Build_SciPy minimizer student_sf (fun a => 1 - Phi a).

End Exact.

(** ** The tables of results *)

Section Tables.

Context {T : Type} {np : NumPy T}.
Implicit Types (names : seq string) (b se z p : seq T).

(** The row the logit loop writes for the [i]-th name. *)
Definition logit_row b se z p (e : nat * string) : string * dict T :=
  (e.2, record "z_stat" (nth I0 b e.1) (nth I0 se e.1) (nth I0 z e.1) (nth I0 p e.1)).

Lemma logit_table_fold b se z p (es : seq (nat * string)) (d : dict (dict T)) :
  foldl (fun acc e =>
           obind acc (fun d =>
           obind (getitem I0 b e.1) (fun c =>
           obind (getitem I0 se e.1) (fun s =>
           obind (getitem I0 z e.1) (fun zi =>
           obind (getitem I0 p e.1) (fun pi =>
           Ok (dict_set d e.2 (record "z_stat" c s zi pi))))))))
        (Ok d) es =
  if all (fun e => [&& e.1 < size b, e.1 < size se, e.1 < size z & e.1 < size p]) es
  then Ok (foldl (fun d e => dict_set d e.2 (logit_row b se z p e).2) d es)
  else foldl (fun acc e =>
           obind acc (fun d =>
           obind (getitem I0 b e.1) (fun c =>
           obind (getitem I0 se e.1) (fun s =>
           obind (getitem I0 z e.1) (fun zi =>
           obind (getitem I0 p e.1) (fun pi =>
           Ok (dict_set d e.2 (record "z_stat" c s zi pi))))))))
        (Ok d) es.
Proof.
elim: es d => [|e es IH] d //=.
rewrite /getitem.
case: (e.1 < size b); last by [].
case: (e.1 < size se); last by [].
case: (e.1 < size z); last by [].
case: (e.1 < size p); last by [].
exact: IH.
Qed.

Lemma all_enumerate_lt names n : size names <= n ->
  all (fun e : nat * string => e.1 < n) (enumerate names).
Proof.
move=> Hn; apply/allP=> e /(nthP (0, ""%string)) [i].
rewrite /enumerate size_zip size_iota minnn => Hi <-.
by rewrite nth_zip ?size_iota //= nth_iota // add0n (leq_trans Hi).
Qed.

Lemma logit_table_ok names b se z p :
  size names <= size b -> size names <= size se -> size names <= size z ->
  size names <= size p ->
  logit_table names b se z p =
  Ok (foldl (fun d e => dict_set d e.2 (logit_row b se z p e).2) [::] (enumerate names)).
Proof.
move=> Hb Hse Hz Hp; rewrite /logit_table logit_table_fold.
have -> // : all (fun e : nat * string =>
   [&& e.1 < size b, e.1 < size se, e.1 < size z & e.1 < size p]) (enumerate names).
apply/allP=> e He.
by rewrite !(allP (all_enumerate_lt _) e He).
Qed.

End Tables.

Import GRing.Theory Num.Theory.

#[local] Arguments enum_mem : simpl never.

(** ** Arrays as matrices *)

Section Bridge.

Variable F : realFieldType.
Variables (exp log sqrt : F -> F).
Local Open Scope ring_scope.
Local Notation npx := (numpy_exact exp log sqrt).
Local Existing Instance numpy_exact.

Implicit Types (A B : seq (seq F)) (u v : seq F).

Lemma I0E : @I0 F npx = 0.
Proof. by []. Qed.
Lemma I1E : @I1 F npx = 1.
Proof. by []. Qed.

Lemma pysumE u : pysum (np:=npx) u = \sum_(a <- u) a.
Proof. by rewrite /pysum foldl_idx. Qed.

Lemma dotE n u v : size u = n -> size v = n ->
  dot (np:=npx) u v = \sum_(i < n) nth 0 u i * nth 0 v i.
Proof.
move=> Hu Hv; rewrite /dot pysumE big_map (big_nth (0, 0)) size_zip Hu Hv minnn.
rewrite big_mkord; apply: eq_bigr => i _.
by rewrite nth_zip ?Hu ?Hv.
Qed.

Lemma shaped_size m n A : shaped m n A -> size A = m.
Proof. by case/andP=> /eqP. Qed.

Lemma shaped_row m n A i : shaped m n A -> (i < m)%N -> size (nth [::] A i) = n.
Proof.
case/andP=> /eqP <- /all_nthP H Hi; exact/eqP/H.
Qed.

Lemma shaped_ncols m n A : shaped m n A -> (0 < m)%N -> ncols A = n.
Proof.
move=> HA Hm; rewrite /ncols -nth0; exact: (shaped_row HA).
Qed.

Lemma of_mxE m n (M : 'M[F]_(m, n)) :
  of_mx M = [seq [seq M i j | j <- enum 'I_n] | i <- enum 'I_m].
Proof. by []. Qed.

Lemma of_mxK m n (M : 'M[F]_(m, n)) : to_mx m n (of_mx M) = M.
Proof.
apply/matrixP=> i j; rewrite mxE /of_mx.
rewrite (nth_map i) ?size_enum_ord // (nth_map j) ?size_enum_ord //.
by rewrite !nth_ord_enum.
Qed.

Lemma shaped_of_mx m n (M : 'M[F]_(m, n)) : shaped m n (of_mx M).
Proof.
rewrite /shaped /of_mx size_map size_enum_ord eqxx /=.
by apply/allP=> r /mapP [i _ ->]; rewrite size_map size_enum_ord.
Qed.

Lemma to_mxK m n A : shaped m n A -> of_mx (to_mx m n A) = A.
Proof.
move=> HA; apply: (@eq_from_nth _ [::]).
  by rewrite size_map size_enum_ord (shaped_size HA).
move=> i; rewrite size_map size_enum_ord => Hi.
have Hi' := Hi; rewrite -(size_enum_ord m) in Hi'.
rewrite (nth_map (Ordinal Hi)) //.
apply: (@eq_from_nth _ 0).
  by rewrite size_map size_enum_ord (shaped_row HA).
move=> j; rewrite size_map size_enum_ord => Hj.
have Hj' := Hj; rewrite -(size_enum_ord n) in Hj'.
by rewrite (nth_map (Ordinal Hj)) // mxE !nth_enum_ord.
Qed.


Lemma eq_of_mx m n A (M : 'M[F]_(m, n)) :
  shaped m n A -> to_mx m n A = M -> A = of_mx M.
Proof. by move=> HA HM; rewrite -(to_mxK HA) HM. Qed.

Lemma nth_of_mx m n (M : 'M[F]_(m, n)) (i : 'I_m) (j : 'I_n) :
  nth 0 (nth [::] (of_mx M) i) j = M i j.
Proof. by rewrite -{2}(of_mxK M) mxE. Qed.

Lemma size_of_mx m n (M : 'M[F]_(m, n)) : size (of_mx M) = m.
Proof. exact: shaped_size (shaped_of_mx M). Qed.

Lemma ncols_of_mx m n (M : 'M[F]_(m, n)) : (0 < m)%N -> ncols (of_mx M) = n.
Proof. exact: shaped_ncols (shaped_of_mx M). Qed.

Lemma size_map_enum (A : Type) n (f : 'I_n -> A) :
  size [seq f i | i <- enum 'I_n] = n.
Proof. by rewrite size_map size_enum_ord. Qed.

Lemma nth_map_enum (A : Type) n (d : A) (f : 'I_n -> A) (i : 'I_n) :
  nth d [seq f i | i <- enum 'I_n] i = f i.
Proof. by rewrite (nth_map i) ?size_enum_ord // nth_ord_enum. Qed.

Lemma col_of_mx m n (M : 'M[F]_(m, n)) (j : 'I_n) :
  col (np:=npx) (of_mx M) j = [seq M i j | i <- enum 'I_m].
Proof.
rewrite /col of_mxE -map_comp; apply: eq_map => i; rewrite /comp.
have Hj : (j < size (enum 'I_n))%N by rewrite size_enum_ord.
by rewrite (nth_map j) // nth_ord_enum.
Qed.

Lemma transposeE m n (M : 'M[F]_(m, n)) :
  (0 < m)%N -> transpose (np:=npx) (of_mx M) = of_mx M^T.
Proof.
move=> Hm; rewrite /transpose ncols_of_mx // -val_enum_ord -map_comp.
rewrite [RHS]of_mxE; apply: eq_map => j; rewrite /comp.
by rewrite col_of_mx; apply: eq_map => i; rewrite mxE.
Qed.

Lemma matmulE m n p (M : 'M[F]_(m, n)) (N : 'M[F]_(n, p)) :
  (0 < m)%N -> (0 < n)%N ->
  matmul (np:=npx) (of_mx M) (of_mx N) = Ok (of_mx (M *m N)).
Proof.
move=> Hm Hn; rewrite /matmul ncols_of_mx // size_of_mx eqxx.
congr Ok; rewrite ncols_of_mx // [RHS]of_mxE [in LHS](of_mxE M) -map_comp.
apply: eq_map => i; rewrite /comp.
rewrite -val_enum_ord -map_comp; apply: eq_map => j; rewrite /comp.
rewrite col_of_mx (@dotE n) ?size_map_enum // mxE.
by apply: eq_bigr => l _; rewrite !nth_map_enum.
Qed.

Lemma matvecE m n (M : 'M[F]_(m, n)) (b : seq F) :
  (0 < m)%N -> size b = n ->
  matvec (np:=npx) (of_mx M) b =
  Ok [seq (M *m (\col_j nth 0 b j)) i 0 | i <- enum 'I_m].
Proof.
move=> Hm Hb; rewrite /matvec ncols_of_mx // Hb eqxx; congr Ok.
rewrite of_mxE -map_comp; apply: eq_map => i; rewrite /comp.
rewrite (@dotE n) ?size_map_enum // mxE.
by apply: eq_bigr => l _; rewrite nth_map_enum mxE.
Qed.

Lemma msubE m n (M N : 'M[F]_(m, n)) :
  msub (np:=npx) (of_mx M) (of_mx N) = Ok (of_mx (M - N)).
Proof.
rewrite /msub !size_of_mx eqxx /=.
have -> : ncols (of_mx M) == ncols (of_mx N).
  case: m M N => [|m] M N; last by rewrite !ncols_of_mx.
  by rewrite /ncols !of_mxE; case: (enum _) (size_enum_ord 0).
congr Ok; rewrite !of_mxE zip_map -!map_comp; apply: eq_map => i; rewrite /comp.
by rewrite zip_map -map_comp; apply: eq_map => j; rewrite /comp; rewrite !mxE.
Qed.

Lemma smulE m n c (M : 'M[F]_(m, n)) :
  smul (np:=npx) c (of_mx M) = of_mx (c *: M).
Proof.
rewrite /smul !of_mxE -map_comp; apply: eq_map => i; rewrite /comp.
by rewrite -map_comp; apply: eq_map => j; rewrite /comp; rewrite mxE.
Qed.

Lemma sdivE m n c (M : 'M[F]_(m, n)) :
  sdiv (np:=npx) (of_mx M) c = of_mx (c^-1 *: M).
Proof.
rewrite /sdiv !of_mxE -map_comp; apply: eq_map => i; rewrite /comp.
by rewrite -map_comp; apply: eq_map => j; rewrite /comp; rewrite mxE mulrC.
Qed.

Lemma np_diagE n (M : 'M[F]_n) :
  np_diag (np:=npx) (of_mx M) = [seq M i i | i <- enum 'I_n].
Proof.
have Hn : minn (size (of_mx M)) (ncols (of_mx M)) = n.
  rewrite size_of_mx; case: n M => [|n] M; first by rewrite min0n.
  by rewrite ncols_of_mx // minnn.
rewrite /np_diag Hn -val_enum_ord -map_comp; apply: eq_map => i; rewrite /comp.
exact: nth_of_mx.
Qed.

Lemma inv_exactE n (M : 'M[F]_n) :
  inv_exact (of_mx M) =
  if M \in unitmx then Ok (of_mx (invmx M)) else Raise LinAlgError.
Proof.
rewrite /inv_exact.
move: (size_of_mx M) (shaped_of_mx M) (of_mxK M).
move: (of_mx M) => A HA; rewrite -{}HA in M * => -> ->.
by [].
Qed.

Lemma getitem_map_enum n (d : F) (f : 'I_n -> F) (i : 'I_n) :
  getitem d [seq f j | j <- enum 'I_n] i = Ok (f i).
Proof. by rewrite /getitem size_map_enum ltn_ord nth_map_enum. Qed.

Lemma getitem_of_mx m n (M : 'M[F]_(m, n)) (i : 'I_m) :
  getitem [::] (of_mx M) i = Ok [seq M i j | j <- enum 'I_n].
Proof.
rewrite /getitem size_of_mx ltn_ord of_mxE (nth_map i) ?size_enum_ord //.
by rewrite nth_ord_enum.
Qed.


Variables (minimizer : (seq F -> outcome F) -> seq F -> outcome (OptimizeResult F))
          (student_sf : F -> int -> F) (Phi : F -> F).
Local Notation spx := (scipy_exact minimizer student_sf Phi).

Section OlsFormulas.

Variables (n k : nat) (Xm : 'M[F]_(n, k)) (Ym : 'M[F]_(n, 1)).

Definition ols_beta : 'M[F]_(k, 1) := invmx (Xm^T *m Xm) *m (Xm^T *m Ym).

Definition ols_sigma2 : F :=
  ((Ym - Xm *m ols_beta)^T *m (Ym - Xm *m ols_beta)) ord0 ord0
  / (Posz n - Posz k)%:~R.

Definition ols_se (j : 'I_k) : F :=
  sqrt ((ols_sigma2 *: invmx (Xm^T *m Xm)) j j).

Definition ols_t (j : 'I_k) : F := ols_beta j ord0 / ols_se j.

Lemma ols_estimates_exact names :
  (0 < n)%N -> (0 < k)%N -> size names = k -> Xm^T *m Xm \in unitmx ->
  ols_estimates (np:=npx) (sp:=spx) names (of_mx Xm) (of_mx Ym) =
  let b := [seq ols_beta j ord0 | j <- enum 'I_k] in
  let se := [seq ols_se j | j <- enum 'I_k] in
  let t := [seq ols_t j | j <- enum 'I_k] in
  let p := [seq student_sf (ols_t j) (Posz n - Posz k) | j <- enum 'I_k] in
  Ok (OlsResult (of_mx ols_beta) b (Posz n - Posz k) se t p
                (ols_table names b se t p)).
Proof.
move=> Hn Hk Hnames Hu.
rewrite /ols_estimates transposeE // !matmulE //= inv_exactE Hu /=.
rewrite matmulE //= transposeE // (getitem_of_mx _ ord0) /=.
rewrite -/ols_beta matmulE //= msubE /= transposeE // matmulE //=.
rewrite size_of_mx ncols_of_mx // sdivE (getitem_of_mx _ ord0) /=.
rewrite (getitem_map_enum _ _ ord0) /= smulE np_diagE.
have -> : [seq ols_beta^T ord0 j | j <- enum 'I_k]
          = [seq ols_beta j ord0 | j <- enum 'I_k].
  by apply: eq_map => j; rewrite mxE.
have -> : [seq sqrt a | a <- [seq
             (((Posz n - Posz k)%:~R^-1 *:
                 ((Ym - Xm *m ols_beta)^T *m (Ym - Xm *m ols_beta))) ord0 ord0
               *: invmx (Xm^T *m Xm)) i i | i <- enum 'I_k]]
          = [seq ols_se j | j <- enum 'I_k].
  rewrite -map_comp; apply: eq_map => j; rewrite /comp /ols_se /ols_sigma2.
  by rewrite [in LHS]mxE [in LHS]mxE [in RHS]mxE [_ / _]mulrC.
have -> : [seq p.1 / p.2 | p <- zip [seq ols_beta j ord0 | j <- enum 'I_k]
                                     [seq ols_se j | j <- enum 'I_k]]
          = [seq ols_t j | j <- enum 'I_k].
  by rewrite zip_map -map_comp.
by rewrite -map_comp !size_map_enum Hnames !eqxx.
Qed.

End OlsFormulas.


Section LogitFormulas.

Variables (n k : nat) (Xm : 'M[F]_(n, k)) (Ym : 'M[F]_(n, 1)).

Definition sigma (t : F) : F := exp t / (1 + exp t).

Definition NLL (beta : 'M[F]_(k, 1)) : F :=
  - \sum_(i < n) (Ym i ord0 * log (sigma ((Xm *m beta) i ord0))
                  + (1 - Ym i ord0) * log (1 - sigma ((Xm *m beta) i ord0))).

Definition to_col (b : seq F) : 'M[F]_(k, 1) := \col_j nth 0 b j.

Lemma flatten_of_mx_col : flatten (of_mx Ym) = [seq Ym i ord0 | i <- enum 'I_n].
Proof.
have H1 : enum 'I_1 = [:: ord0].
  by rewrite enum_ordSl; case: (enum 'I_0) (size_enum_ord 0).
by rewrite of_mxE H1; elim: (enum 'I_n) => [|i s IH] //=; rewrite IH.
Qed.

Lemma loglikeE (b : seq F) :
  (0 < n)%N -> size b = k ->
  loglike (np:=npx) b (of_mx Ym) (of_mx Xm) = Ok (NLL (to_col b)).
Proof.
move=> Hn Hb; rewrite /loglike matvecE //= flatten_of_mx_col; congr Ok.
rewrite -[X in zip _ X]map_comp zip_map -map_comp pysumE big_map big_enum /=.
by rewrite mulrN1z mulN1r /NLL; congr (- _); apply: eq_bigr => i _.
Qed.

End LogitFormulas.

End Bridge.

(** ** Construction and fit, end to end *)

Section Fit.

Context {T : Type} {np : NumPy T} {sp : SciPy T}.
Implicit Types (s : state T) (X Y : seq (seq T)) (names : seq string).

Lemma wp_True {A} (c : M T A) s : wp c (fun _ _ => True) (fun _ _ => True) s.
Proof. by rewrite /wp; case: (c s) => [[a|e] s']. Qed.

(** Construction succeeds only for the two families. *)
Lemma init_regression_type x y ci rt s :
  wp (init x y ci rt) (fun _ _ => rt \in [:: "ols"; "logit"]%string)
     (fun _ _ => True) s.
Proof.
case Hrt: (rt \in _); first by apply: wp_mono (wp_True _ _) _ _.
rewrite /init Hrt.
by do 9 (apply: wp_bind; apply: wp_mono (wp_True _ _) _ _ => // ? ? _).
Qed.

Lemma RegressionModel_new_ready h x y ci rt cols X nm Y s :
  table h x cols X -> series h y nm Y ->
  RegressionModel_new h x y ci rt = (Ok tt, s) ->
  rt \in [:: "ols"; "logit"]%string /\ Ready s (labels ci cols) (design ci X) Y rt.
Proof.
move=> Hx Hy Hs.
have Hrt : rt \in [:: "ols"; "logit"]%string.
  move: (init_regression_type x y ci rt (State h new_instance)).
  by rewrite /wp -/(RegressionModel_new h x y ci rt) Hs.
split=> //; case: (init_ready ci Hx Hy Hrt) => s' [].
by rewrite Hs => -[<-].
Qed.

Lemma fit_model_ols s names X Y :
  Ready s names X Y "ols" -> fit_model s = ols_regression s.
Proof. by case=> _ _ _ _ _ _ _ Hrt; rewrite /fit_model /bind /getattr Hrt. Qed.

Lemma fit_model_logit s names X Y :
  Ready s names X Y "logit" -> fit_model s = logistic_regression s.
Proof. by case=> _ _ _ _ _ _ _ Hrt; rewrite /fit_model /bind /getattr Hrt. Qed.

Lemma ols_regression_ok s names X Y rt e :
  Ready s names X Y rt -> ols_estimates names X Y = Ok e ->
  ols_regression s = (Ok tt, State (st_heap s) (install_ols e (st_self s))).
Proof.
move=> /ols_regression_spec; rewrite /wp.
case: (ols_regression s) => [[[]|ex] s'] => [[e' -> ->] [->] //|-> //].
Qed.

Lemma ols_regression_inv s names X Y rt s' :
  Ready s names X Y rt -> ols_regression s = (Ok tt, s') ->
  exists2 e, ols_estimates names X Y = Ok e
           & s' = State (st_heap s) (install_ols e (st_self s)).
Proof. by move=> /ols_regression_spec; rewrite /wp => + Hs; rewrite Hs. Qed.


Lemma logistic_regression_ok s names X Y rt e :
  Ready s names X Y rt ->
  logit_estimates names X Y (size X) (size names) = Ok e ->
  logistic_regression s = (Ok tt, State (st_heap s) (install_logit e (st_self s))).
Proof.
move=> /logistic_regression_spec; rewrite /wp.
case: (logistic_regression s) => [[[]|ex] s'] => [[e' -> ->] [->] //|-> //].
Qed.

Lemma logistic_regression_inv s names X Y rt s' :
  Ready s names X Y rt -> logistic_regression s = (Ok tt, s') ->
  exists2 e, logit_estimates names X Y (size X) (size names) = Ok e
           & s' = State (st_heap s) (install_logit e (st_self s)).
Proof. by move=> /logistic_regression_spec; rewrite /wp => + Hs; rewrite Hs. Qed.

Lemma logistic_regression_raise s names X Y rt ex :
  Ready s names X Y rt ->
  logit_estimates names X Y (size X) (size names) = Raise ex ->
  (logistic_regression s).1 = Raise ex.
Proof.
move=> /logistic_regression_spec; rewrite /wp.
by case: (logistic_regression s) => [[[]|ex'] s'] => [[e' -> _] //|-> [->]].
Qed.

(** A fit leaves the instance constructed. *)
Lemma Ready_install_ols s names X Y rt e :
  Ready s names X Y rt ->
  Ready (State (st_heap s) (install_ols e (st_self s))) names X Y rt.
Proof. by case=> *; split. Qed.

Lemma Ready_install_logit s names X Y rt e :
  Ready s names X Y rt ->
  Ready (State (st_heap s) (install_logit e (st_self s))) names X Y rt.
Proof. by case=> *; split. Qed.

End Fit.

(** ** Dictionaries and the table of results *)

Section Dicts.

Variables (V : Type).
Implicit Types (d : dict V) (k : string) (v : V).

Lemma dict_set_notin d k v : k \notin keys d -> dict_set d k v = rcons d (k, v).
Proof.
elim: d => [|e d IH] //=; rewrite inE negb_or eq_sym => /andP [/negbTE -> Hk].
by rewrite IH.
Qed.

Lemma foldl_dict_set {A : Type} (f : A -> string) (g : A -> V) (es : seq A) d :
  uniq (keys d ++ [seq f e | e <- es]) ->
  foldl (fun d e => dict_set d (f e) (g e)) d es = d ++ [seq (f e, g e) | e <- es].
Proof.
elim: es d => [|e es IH] d /=; first by rewrite !cats0.
rewrite -cat_rcons => Hu.
have Hk : f e \notin keys d.
  by move: Hu; rewrite cat_uniq rcons_uniq => /andP [/andP [-> _] _].
rewrite dict_set_notin // IH ?cat_rcons //.
by rewrite /keys map_rcons.
Qed.

Lemma dict_get_nth d (e0 : string * V) i :
  uniq (keys d) -> i < size d -> dict_get d (nth e0 d i).1 = Some (nth e0 d i).2.
Proof.
elim: d i => [|e d IH] [|i] //=; first by rewrite eqxx.
case/andP=> He Hu Hi; rewrite IH //.
case: eqP => // Heq; move: He; rewrite Heq.
by rewrite /keys -(nth_map e0 e0.1 (fun e => e.1)) // mem_nth ?size_map.
Qed.

End Dicts.

Section Results.

Context {T : Type} {np : NumPy T} {sp : SciPy T}.
Implicit Types (s : state T) (X Y : seq (seq T)) (names : seq string).

Ltac obind_inv :=
  repeat match goal with
         | |- obind ?c _ = Ok _ -> _ => case: c => [?|?] //=
         end.

Lemma ols_estimates_table names X Y e :
  ols_estimates names X Y = Ok e ->
  [/\ size (ols_Beta_hat e) = size names, size (ols_stdError e) = size names,
      size (ols_t_stat e) = size names, size (ols_p_val e) = size names
    & ols_results e = ols_table names (ols_Beta_hat e) (ols_stdError e)
                                (ols_t_stat e) (ols_p_val e)].
Proof.
rewrite /ols_estimates; obind_inv.
by case: ifP => // /and5P [/eqP ? /eqP ? /eqP ? /eqP ? _] [<-].
Qed.

Lemma logit_table_inv names (b se z p : seq T) r :
  logit_table names b se z p = Ok r ->
  r = foldl (fun d e => dict_set d e.2 (logit_row b se z p e).2) [::]
            (enumerate names).
Proof.
rewrite /logit_table; elim: (enumerate names) [::] => [|e es IH] d /=.
  by case.
rewrite /getitem.
do 4 (case: ifP => _; last by rewrite foldl_obind_Raise).
exact: IH.
Qed.

Lemma logit_estimates_table names X Y n k e :
  logit_estimates names X Y n k = Ok e ->
  logit_results e =
  foldl (fun d r => dict_set d r.2
           (logit_row (res_x (logit_res e)) (logit_stdError e)
                      (logit_zScores e) (logit_p_val e) r).2)
        [::] (enumerate names).
Proof.
rewrite /logit_estimates.
do 4 (match goal with |- obind ?c _ = Ok _ -> _ => case: c => [?|?] //= end).
by case E: (logit_table _ _ _ _ _) => [r|] //= [<-] /=; apply: logit_table_inv.
Qed.

Lemma ols_table_uniq names (b se t p : seq T) :
  uniq names -> size b = size names -> size se = size names ->
  size t = size names -> size p = size names ->
  keys (ols_table names b se t p) = names /\
  forall i, i < size names ->
    dict_get (ols_table names b se t p) (nth ""%string names i) =
    Some (record "t_stat" (nth I0 b i) (nth I0 se i) (nth I0 t i) (nth I0 p i)).
Proof.
move=> Hu Hb Hse Ht Hp.
set rows := zip names (zip b (zip se (zip t p))).
have Hsz : size rows = size names.
  by rewrite /rows !size_zip Hb Hse Ht Hp !minnn.
have Hk : [seq r.1 | r <- rows] = names.
  by rewrite -/(unzip1 _) unzip1_zip // !size_zip Hb Hse Ht Hp !minnn.
have Hrows : ols_table names b se t p =
    [seq (r.1, record "t_stat" r.2.1 r.2.2.1 r.2.2.2.1 r.2.2.2.2) | r <- rows].
  by rewrite /ols_table (foldl_dict_set (f := fun r => r.1)) //= Hk.
have Hkeys : keys (ols_table names b se t p) = names.
  by rewrite Hrows /keys -map_comp.
split=> // i Hi.
pose e0 : string * dict T := (""%string, [::]).
have := @dict_get_nth _ (ols_table names b se t p) e0 i.
rewrite Hkeys {1 3 4}Hrows size_map Hsz => /(_ Hu Hi).
rewrite (nth_map (""%string, (I0, (I0, (I0, I0))))) ?Hsz //=.
by rewrite /rows !nth_zip ?size_zip ?Hb ?Hse ?Ht ?Hp ?minnn.
Qed.

Lemma logit_rows_uniq names (b se z p : seq T) :
  uniq names ->
  let res := foldl (fun d r => dict_set d r.2 (logit_row b se z p r).2) [::]
                   (enumerate names) in
  keys res = names /\
  forall i, i < size names ->
    dict_get res (nth ""%string names i) =
    Some (record "z_stat" (nth I0 b i) (nth I0 se i) (nth I0 z i) (nth I0 p i)).
Proof.
move=> Hu res.
have Hsz : size (enumerate names) = size names.
  by rewrite /enumerate size_zip size_iota minnn.
have Hk : [seq r.2 | r <- enumerate names] = names.
  by rewrite -/(unzip2 _) unzip2_zip // size_iota.
have Hrows : res = [seq (r.2, (logit_row b se z p r).2) | r <- enumerate names].
  by rewrite /res (foldl_dict_set (f := fun r => r.2)) //= Hk.
have Hkeys : keys res = names by rewrite Hrows /keys -map_comp.
split=> // i Hi.
pose e0 : string * dict T := (""%string, [::]).
have := @dict_get_nth _ res e0 i.
rewrite Hkeys {1 3 4}Hrows size_map Hsz => /(_ Hu Hi).
rewrite (nth_map (0, ""%string)) ?Hsz //=.
by rewrite /enumerate !nth_zip ?size_iota //= nth_iota.
Qed.

(** C8, as amended: after a construction and a fit that both returned,
    in either family, over pairwise distinct column names (a name that
    occurs twice has one entry, the last column's): [self.results] has one
    entry per column of the design matrix, keyed in column order with
    "intercept" last when an intercept was asked for, and under each
    name the record with the four keys coefficient, standard_error,
    t_stat (ols) or z_stat (logit) and p_value, whose values are those
    of the fitted arrays at that name's column index. *)
Theorem fit_results h x y ci rt cols X nm Y s s' :
  table h x cols X -> series h y nm Y -> uniq (labels ci cols) ->
  RegressionModel_new h x y ci rt = (Ok tt, s) ->
  fit_model s = (Ok tt, s') ->
  exists coef se st pv res,
    [/\ self_Beta_hat (st_self s') = Some coef,
        self_stdError (st_self s') = Some se,
        (if rt == "ols"%string then self_t_stat (st_self s')
         else self_zScores (st_self s')) = Some st,
        self_p_val (st_self s') = Some pv
      & [/\ self_results (st_self s') = Some res,
            keys res = labels ci cols
          & forall i, i < size (labels ci cols) ->
              dict_get res (nth ""%string (labels ci cols) i) =
              Some [:: ("coefficient"%string, nth I0 coef i);
                       ("standard_error"%string, nth I0 se i);
                       (if rt == "ols"%string then "t_stat"%string
                        else "z_stat"%string, nth I0 st i);
                       ("p_value"%string, nth I0 pv i)]]].
Proof.
move=> Hx Hy Hu Hs Hfit.
case: (RegressionModel_new_ready Hx Hy Hs) => Hrt Hr.
move: Hrt Hr Hfit; rewrite !inE => /orP [] /eqP -> Hr.
- rewrite (fit_model_ols Hr) => /(ols_regression_inv Hr) [e He ->].
  case: (ols_estimates_table He) => Hb Hse Ht Hp Hres.
  case: (ols_table_uniq Hu Hb Hse Ht Hp) => Hk Hget.
  exists (ols_Beta_hat e), (ols_stdError e), (ols_t_stat e), (ols_p_val e),
         (ols_results e).
  by split=> //=; split; rewrite //= Hres.
- rewrite (fit_model_logit Hr) => /(logistic_regression_inv Hr) [e He ->].
  have Hres := logit_estimates_table He.
  case: (logit_rows_uniq (res_x (logit_res e)) (logit_stdError e)
           (logit_zScores e) (logit_p_val e) Hu) => Hk Hget.
  exists (res_x (logit_res e)), (logit_stdError e), (logit_zScores e),
         (logit_p_val e), (logit_results e).
  by split=> //=; split; rewrite //= Hres.
Qed.

End Results.

(** ** Fitting again *)

Section Refit.

Context {T : Type} {np : NumPy T} {sp : SciPy T}.
Implicit Types (s : state T) (X Y : seq (seq T)) (names : seq string).

Lemma logit_estimates_res names X Y n k e :
  logit_estimates names X Y n k = Ok e ->
  minimize (fun b => loglike b Y X) (np_full k lit_0_1) = Ok (logit_res e).
Proof.
rewrite /logit_estimates.
case: (minimize _ _) => [res|ex] //=.
do 4 (match goal with |- obind ?c _ = Ok _ -> _ => case: c => [?|?] //= end).
by case=> <-.
Qed.

Lemma install_ols_idem (e : ols_result (T:=T)) m :
  install_ols e (install_ols e m) = install_ols e m.
Proof. by []. Qed.

Lemma install_logit_idem (e : logit_result (T:=T)) m :
  install_logit e (install_logit e m) = install_logit e m.
Proof. by []. Qed.

(** A second fit computes the same estimates and leaves the state as
    the first fit left it. *)
Lemma fit_model_again s names X Y rt s1 :
  Ready s names X Y rt -> fit_model s = (Ok tt, s1) ->
  fit_model s1 = (Ok tt, s1).
Proof.
move=> Hr; have Hrt := ready_regression_type Hr.
rewrite /fit_model {1}/bind /getattr Hrt.
case Eo: (rt == "ols"%string).
  move=> /(ols_regression_inv Hr) [e He Hs1].
  have Hr1 := Ready_install_ols e Hr.
  rewrite Hs1 /bind (ready_regression_type Hr1) Eo (ols_regression_ok Hr1 He).
  by rewrite [st_self _]/= install_ols_idem.
case El: (rt == "logit"%string); last first.
  by case=> <-; rewrite /bind Hrt Eo El.
move=> /(logistic_regression_inv Hr) [e He Hs1].
have Hr1 := Ready_install_logit e Hr.
rewrite Hs1 /bind (ready_regression_type Hr1) Eo El (logistic_regression_ok Hr1 He).
by rewrite [st_self _]/= install_logit_idem.
Qed.

End Refit.

(** ** The fit in exact arithmetic *)

Section ExactFit.

Variable F : realFieldType.
Variables (exp log sqrt : F -> F).
Variable minimizer :
  (seq F -> outcome F) -> seq F -> outcome (OptimizeResult F).
Variables (student_sf : F -> int -> F) (Phi : F -> F).
Local Open Scope ring_scope.
Local Notation npx := (numpy_exact exp log sqrt).
Local Notation spx := (scipy_exact minimizer student_sf Phi).
Local Existing Instance numpy_exact.
Local Existing Instance scipy_exact.

Implicit Types (X Y : seq (seq F)) (cols : seq string).

Lemma with_interceptE (T : Type) (np : NumPy T) (A : seq (seq T)) :
  with_intercept A = [seq rcons r I1 | r <- A].
Proof.
by rewrite /with_intercept; elim: A => [|r A IH] //=; rewrite cats1 IH.
Qed.

Lemma shaped_design n k (ci : bool) X :
  shaped n k X -> shaped n (k + ci)%N (design (np:=npx) ci X).
Proof.
case: ci => /=; last by rewrite addn0.
case/andP=> Hn HX; rewrite /shaped with_interceptE size_map Hn /= all_map.
apply: sub_all HX => r /= /eqP <-.
by rewrite size_rcons addn1.
Qed.

Lemma size_labels (ci : bool) cols : size (labels ci cols) = (size cols + ci)%N.
Proof. by case: ci; rewrite /= ?size_rcons ?addn1 ?addn0. Qed.

(** The caller's data: [x] a table with columns [cols] and [n] rows,
    [y] a series of [n] values, [k] the number of columns of the design
    matrix, with at least one observation and one column. *)
Record dataset (h : heap F) (x y : loc) (ci : bool) cols X (nm : string) Y
    (n k : nat) : Prop := {
  ds_table : table h x cols X;
  ds_series : series h y nm Y;
  ds_rows : shaped n (size cols) X;
  ds_response : shaped n 1 Y;
  ds_columns : k = (size cols + ci)%N;
  ds_obs : (0 < n)%N;
  ds_vars : (0 < k)%N
}.

(** The design matrix and the response, as matrices. *)
Definition design_mx (ci : bool) X n k : 'M[F]_(n, k) :=
  to_mx n k (design (np:=npx) ci X).

Definition response_mx Y n : 'M[F]_(n, 1) := to_mx n 1 Y.

Lemma dataset_ready h x y ci cols X nm Y n k rt :
  dataset h x y ci cols X nm Y n k ->
  rt \in [:: "ols"; "logit"]%string ->
  exists s,
    [/\ RegressionModel_new (np:=npx) h x y ci rt = (Ok tt, s),
        Ready s (labels ci cols) (of_mx (design_mx ci X n k))
              (of_mx (response_mx Y n)) rt
      & size (labels ci cols) = k].
Proof.
case=> Hx Hy HX HY Hk Hn _ Hrt.
case: (init_ready (np:=npx) ci Hx Hy Hrt) => s [Hs Hr]; exists s; split=> //.
- by rewrite /design_mx /response_mx Hk !to_mxK // shaped_design.
- by rewrite size_labels Hk.
Qed.

(** *** Ordinary least squares *)

Lemma ols_estimates_singular names n k (Xm : 'M[F]_(n, k)) (Ym : 'M[F]_(n, 1)) :
  (0 < n)%N -> (0 < k)%N -> Xm^T *m Xm \notin unitmx ->
  ols_estimates (np:=npx) (sp:=spx) names (of_mx Xm) (of_mx Ym)
  = Raise LinAlgError.
Proof.
move=> Hn Hk /negbTE Hu.
by rewrite /ols_estimates transposeE // !matmulE //= inv_exactE Hu.
Qed.

Lemma wide_design_singular n k (Xm : 'M[F]_(n, k)) :
  (n < k)%N -> Xm^T *m Xm \notin unitmx.
Proof.
move=> Hnk; rewrite -row_full_unit /row_full neq_ltn; apply/orP; left.
exact: leq_ltn_trans (leq_trans (mxrankM_maxr _ _) (rank_leq_row _)) Hnk.
Qed.

(** *** Logistic regression *)

Section LogitInference.

Variables (n k : nat) (Xm : 'M[F]_(n, k)) (Ym : 'M[F]_(n, 1)).

(** [mean(y)] *)
Definition response_mean : F := (\sum_(i < n) Ym i ord0) / n%:R.

(** [Cov = n mean(y) (1 - mean(y)) (X^T X)^-1] *)
Definition logit_cov : 'M[F]_k :=
  (n%:R * response_mean * (1 - response_mean)) *: invmx (Xm^T *m Xm).

Definition logit_se (j : 'I_k) : F := sqrt (logit_cov j j).

Definition logit_z (b : seq F) (j : 'I_k) : F := nth 0 b j / logit_se j.

Definition logit_p (b : seq F) (j : 'I_k) : F := 2 * (1 - Phi `|logit_z b j|).

Lemma seq_enum_nth (b : seq F) :
  size b = k -> b = map (fun j : 'I_k => nth 0 b j) (enum 'I_k).
Proof.
move=> Hb; apply: (@eq_from_nth _ 0); first by rewrite size_map_enum.
move=> i; rewrite Hb => Hi.
by rewrite (nth_map_enum 0 (fun j : 'I_k => nth 0 b j) (Ordinal Hi)).
Qed.

Lemma np_meanE : np_mean (np:=npx) (of_mx Ym) = response_mean.
Proof.
by rewrite /np_mean flatten_of_mx_col pysumE big_map big_enum size_map_enum.
Qed.

Lemma logit_estimates_exact names res :
  (0 < n)%N -> (0 < k)%N -> size names = k -> Xm^T *m Xm \in unitmx ->
  minimizer (fun b => loglike (np:=npx) b (of_mx Ym) (of_mx Xm))
            (nseq k (10%:R^-1)) = Ok res ->
  size (res_x res) = k ->
  exists r,
    logit_estimates (np:=npx) (sp:=spx) names (of_mx Xm) (of_mx Ym) n k =
    Ok (LogitResult res [seq logit_se j | j <- enum 'I_k]
                    [seq logit_z (res_x res) j | j <- enum 'I_k]
                    [seq logit_p (res_x res) j | j <- enum 'I_k] r).
Proof.
move=> Hn Hk Hnames Hu Hmin Hb.
rewrite /logit_estimates !np_meanE /np_full /= Hmin /= transposeE // matmulE //=.
rewrite inv_exactE Hu /= smulE np_diagE -map_comp.
rewrite /vdiv size_map_enum Hb eqxx /= [X in zip X _](seq_enum_nth Hb) zip_map.
rewrite -map_comp -[X in LogitResult _ _ _ X]map_comp.
rewrite logit_table_ok ?size_map -?enumT ?size_enum_ord ?Hb ?Hnames //=.
eexists; congr (Ok (LogitResult _ _ _ _ _)).
by apply: eq_map => j; rewrite /comp /logit_p mulrC.
Qed.

End LogitInference.

(** A logit fit runs to its end when the minimizer returns a point of
    the right length and [X^T X] has an inverse. *)
Lemma logit_fit_run h x y ci cols X nm Y n k res :
  dataset h x y ci cols X nm Y n k ->
  (design_mx ci X n k)^T *m design_mx ci X n k \in unitmx ->
  minimizer (fun b => loglike (np:=npx) b Y (design (np:=npx) ci X))
            (nseq k (10%:R^-1)) = Ok res ->
  size (res_x res) = k ->
  exists s s',
    RegressionModel_new (np:=npx) h x y ci "logit"%string = (Ok tt, s) /\
    fit_model (np:=npx) (sp:=spx) s = (Ok tt, s').
Proof.
move=> Hd Hu Hmin Hb.
case: (dataset_ready (rt:="logit"%string) Hd) => // s [Hs Hr Hk].
have HX : of_mx (design_mx ci X n k) = design (np:=npx) ci X.
  by rewrite /design_mx to_mxK // (ds_columns Hd) shaped_design // (ds_rows Hd).
have HY : of_mx (response_mx Y n) = Y.
  by rewrite /response_mx to_mxK // (ds_response Hd).
rewrite -[in X in minimizer X]HX -[in X in minimizer X]HY in Hmin.
case: (logit_estimates_exact (ds_obs Hd) (ds_vars Hd) Hk Hu Hmin Hb) => r He.
exists s; eexists; split; first exact: Hs.
rewrite (fit_model_logit Hr); apply: (logistic_regression_ok Hr).
by rewrite size_of_mx Hk; exact: He.
Qed.

Lemma logit_fit_minimizer h x y ci cols X nm Y n k s s' :
  dataset h x y ci cols X nm Y n k ->
  RegressionModel_new (np:=npx) h x y ci "logit"%string = (Ok tt, s) ->
  fit_model (np:=npx) (sp:=spx) s = (Ok tt, s') ->
  exists2 res,
    minimizer (fun b => loglike (np:=npx) b Y (design (np:=npx) ci X))
              (nseq k (10%:R^-1)) = Ok res
    & self_Beta_hat (st_self s') = Some (res_x res).
Proof.
move=> Hd Hs Hfit.
case: (dataset_ready (rt:="logit"%string) Hd) => // s0 [].
rewrite Hs => -[<-] Hr Hk.
have HX : of_mx (design_mx ci X n k) = design (np:=npx) ci X.
  by rewrite /design_mx to_mxK // (ds_columns Hd) shaped_design // (ds_rows Hd).
have HY : of_mx (response_mx Y n) = Y.
  by rewrite /response_mx to_mxK // (ds_response Hd).
move: Hfit; rewrite (fit_model_logit Hr) => /(logistic_regression_inv Hr) [e He ->].
have := logit_estimates_res He; rewrite Hk HX HY => Hmin.
by exists (logit_res e).
Qed.

Lemma loglike_design h x y ci cols X nm Y n k b :
  dataset h x y ci cols X nm Y n k -> size b = k ->
  loglike (np:=npx) b Y (design (np:=npx) ci X) =
  Ok (NLL exp log (design_mx ci X n k) (response_mx Y n) (to_col k b)).
Proof.
move=> Hd Hb.
have HX : of_mx (design_mx ci X n k) = design (np:=npx) ci X.
  by rewrite /design_mx to_mxK // (ds_columns Hd) shaped_design // (ds_rows Hd).
have HY : of_mx (response_mx Y n) = Y.
  by rewrite /response_mx to_mxK // (ds_response Hd).
by rewrite -[in LHS]HX -[in LHS]HY loglikeE //; exact: (ds_obs Hd).
Qed.

End ExactFit.

(** ** Exact arithmetic with the special values

    The numbers of an ordered field together with the two infinities
    and NaN, combined as IEEE 754 combines them and without rounding:
    a quotient by zero, the logarithm of zero and the square root of a
    negative number are what numpy returns for them.  (A zero has no
    sign here: [a / 0] has the sign of [a].) *)

Section Extended.

Import Order.TTheory.

Variable F : realFieldType.
Local Open Scope ring_scope.

Inductive xnum :=
| Fin (a : F)
| Inf (negative : bool)
| NaN.

Definition xopp (u : xnum) : xnum :=
  match u with
  | Fin a => Fin (- a)
  | Inf s => Inf (~~ s)
  | NaN => NaN
  end.

Definition xadd (u v : xnum) : xnum :=
  match u, v with
  | Fin a, Fin b => Fin (a + b)
  | Fin _, Inf s | Inf s, Fin _ => Inf s
  | Inf s, Inf s' => if s == s' then Inf s else NaN
  | _, _ => NaN
  end.

Definition xsub (u v : xnum) : xnum := xadd u (xopp v).

Definition xmul (u v : xnum) : xnum :=
  match u, v with
  | Fin a, Fin b => Fin (a * b)
  | Fin a, Inf s | Inf s, Fin a => if a == 0 then NaN else Inf (s (+) (a < 0))
  | Inf s, Inf s' => Inf (s (+) s')
  | _, _ => NaN
  end.

Definition xdiv (u v : xnum) : xnum :=
  match u, v with
  | Fin a, Fin b =>
      if b == 0 then (if a == 0 then NaN else Inf (a < 0)) else Fin (a / b)
  | Fin _, Inf _ => Fin 0
  | Inf s, Fin b => Inf (s (+) (b < 0))
  | _, _ => NaN
  end.

Definition xabs (u : xnum) : xnum :=
  match u with
  | Fin a => Fin `|a|
  | Inf _ => Inf false
  | NaN => NaN
  end.

Variables (exp log sqrt : F -> F).

Definition xexp (u : xnum) : xnum :=
  match u with
  | Fin a => Fin (exp a)
  | Inf false => Inf false
  | Inf true => Fin 0
  | NaN => NaN
  end.

Definition xlog (u : xnum) : xnum :=
  match u with
  | Fin a => if a < 0 then NaN else if a == 0 then Inf true else Fin (log a)
  | Inf false => Inf false
  | _ => NaN
  end.

Definition xsqrt (u : xnum) : xnum :=
  match u with
  | Fin a => if a < 0 then NaN else Fin (sqrt a)
  | Inf false => Inf false
  | _ => NaN
  end.

(** The finite entries of a table, when all are. *)
Definition finite (u : xnum) : option F :=
  if u is Fin a then Some a else None.

Definition finite1 (r : seq xnum) : option (seq F) :=
  foldr (fun u acc => if (finite u, acc) is (Some a, Some s) then Some (a :: s)
                      else None) (Some [::]) r.

Definition finite2 (A : seq (seq xnum)) : option (seq (seq F)) :=
  foldr (fun r acc => if (finite1 r, acc) is (Some a, Some s) then Some (a :: s)
                      else None) (Some [::]) A.

(** [np.linalg.inv]: the exact inverse of a table of finite entries.
    On a square table with an entry that is not finite numpy runs the
    elimination all the same; what it returns depends on where the
    entry stands, and is taken to be NaN throughout here: no statement
    below reads that case. *)
Definition inv_extended (A : seq (seq xnum)) : outcome (seq (seq xnum)) :=
  match finite2 A with
  | Some A0 => obind (inv_exact A0) (fun B => Ok [seq [seq Fin b | b <- r] | r <- B])
  | None =>
      if all (fun r => size r == size A) A
      then Ok [seq [seq NaN | _ <- r] | r <- A]
      else Raise LinAlgError
  end.

Definition numpy_extended : NumPy xnum :=
  Build_NumPy (fun z => Fin z%:~R) (Fin (10%:R^-1)) xadd xsub xmul xdiv
              xexp xlog xsqrt xabs inv_extended.

Variable minimizer :
  (seq xnum -> outcome xnum) -> seq xnum -> outcome (OptimizeResult xnum).
Variables (student_sf : F -> int -> F) (Phi : F -> F).

(** [t.sf]: NaN without degrees of freedom, the limits at the
    infinities. *)
Definition xt_sf (u : xnum) (df : int) : xnum :=
  if 0 < df then
    match u with
    | Fin a => Fin (student_sf a df)
    | Inf false => Fin 0
    | Inf true => Fin 1
    | NaN => NaN
    end
  else NaN.

Definition xnorm_sf (u : xnum) : xnum :=
  match u with
  | Fin a => Fin (1 - Phi a)
  | Inf false => Fin 0
  | Inf true => Fin 1
  | NaN => NaN
  end.

Definition scipy_extended : SciPy xnum :=
  Build_SciPy minimizer xt_sf xnorm_sf.

End Extended.

Arguments Fin {F} a.
Arguments Inf {F} negative.
Arguments NaN {F}.

(** ** Finite data in the extended arithmetic

    On finite numbers the extended operations are the field's, as long
    as no divisor is zero, no logarithm is taken at or below zero and
    no square root below zero. *)

Section Finite.

Import Order.TTheory.

Variable F : realFieldType.
Variables (exp log sqrt : F -> F).
Local Open Scope ring_scope.
Local Notation npx := (numpy_exact exp log sqrt).
Local Notation npe := (numpy_extended exp log sqrt).

Implicit Types (A B : seq (seq F)) (u v : seq F).

Definition fin1 (u : seq F) : seq (xnum F) := [seq Fin a | a <- u].
Definition fin2 (A : seq (seq F)) : seq (seq (xnum F)) := [seq fin1 r | r <- A].

(** [o], with the table it returns read in the extended numbers. *)
Definition ofin2 (o : outcome (seq (seq F))) : outcome (seq (seq (xnum F))) :=
  obind o (fun C => Ok (fin2 C)).

Lemma size_fin1 u : size (fin1 u) = size u.
Proof. by rewrite size_map. Qed.

Lemma size_fin2 A : size (fin2 A) = size A.
Proof. by rewrite size_map. Qed.

Lemma finite1_fin u : finite1 (fin1 u) = Some u.
Proof. by elim: u => [|a u IH] //=; rewrite IH. Qed.

Lemma finite2_fin A : finite2 (fin2 A) = Some A.
Proof. by elim: A => [|r A IH] //=; rewrite finite1_fin IH. Qed.

Lemma zip_fin1 u v :
  zip (fin1 u) (fin1 v) = [seq (Fin p.1, Fin p.2) | p <- zip u v].
Proof. by elim: u v => [|a u IH] [|b v] //=; rewrite IH. Qed.


Lemma pysum_fin u : pysum (np:=npe) (fin1 u) = Fin (pysum (np:=npx) u).
Proof.
by rewrite /pysum /I0 /=; elim: u (0%:~R) => [|a u IH] b //=.
Qed.

Lemma dot_fin u v : dot (np:=npe) (fin1 u) (fin1 v) = Fin (dot (np:=npx) u v).
Proof.
rewrite /dot -pysum_fin; congr (pysum _).
by rewrite zip_fin1 /fin1 -!map_comp.
Qed.

Lemma ncols_fin A : ncols (fin2 A) = ncols A.
Proof. by case: A => [|r A] //; rewrite /ncols /= size_fin1. Qed.

Lemma col_fin A j : col (np:=npe) (fin2 A) j = fin1 (col (np:=npx) A j).
Proof.
rewrite /col /fin2 /fin1 -!map_comp; apply: eq_map => r /=.
case: (ltnP j (size r)) => Hj; first by rewrite (nth_map (I0 (np:=npx))).
by rewrite !nth_default ?size_map.
Qed.

Lemma transpose_fin A : transpose (np:=npe) (fin2 A) = fin2 (transpose (np:=npx) A).
Proof.
rewrite /transpose ncols_fin /fin2 -map_comp; apply: eq_map => j /=.
exact: col_fin.
Qed.

Lemma matmul_fin A B :
  matmul (np:=npe) (fin2 A) (fin2 B) = ofin2 (matmul (np:=npx) A B).
Proof.
rewrite /matmul !ncols_fin size_fin2; case: ifP => //= _; congr Ok.
rewrite /fin2 -!map_comp; apply: eq_map => r /=.
rewrite /fin1 -!map_comp; apply: eq_map => j /=.
by rewrite -dot_fin -col_fin.
Qed.

Lemma matvec_fin A u :
  matvec (np:=npe) (fin2 A) (fin1 u) =
  obind (matvec (np:=npx) A u) (fun w => Ok (fin1 w)).
Proof.
rewrite /matvec ncols_fin size_fin1; case: ifP => //= _; congr Ok.
rewrite /fin2 /fin1 -!map_comp; apply: eq_map => r /=.
exact: dot_fin.
Qed.


Lemma smul_fin c A : smul (np:=npe) (Fin c) (fin2 A) = fin2 (smul (np:=npx) c A).
Proof.
rewrite /smul /fin2 -!map_comp; apply: eq_map => r /=.
by rewrite /fin1 -!map_comp.
Qed.


Lemma np_diag_fin A : np_diag (np:=npe) (fin2 A) = fin1 (np_diag (np:=npx) A).
Proof.
rewrite /np_diag size_fin2 ncols_fin /fin1 -map_comp; apply: eq_map => i /=.
case: (ltnP i (size A)) => Hi; last first.
  by rewrite !(nth_default [::]) ?size_fin2 // !nth_nil.
rewrite (nth_map [::]) //.
case: (ltnP i (size (nth [::] A i))) => Hj.
  by rewrite (nth_map (I0 (np:=npx))).
by rewrite nth_default ?size_fin1 // [in RHS]nth_default.
Qed.

Lemma inv_fin A : inv_extended (fin2 A) = ofin2 (inv_exact A).
Proof. by rewrite /inv_extended finite2_fin. Qed.



Lemma sqrt_fin u :
  all (fun a => 0 <= a) u ->
  [seq xsqrt sqrt a | a <- fin1 u] = fin1 [seq sqrt a | a <- u].
Proof.
move=> /allP Hu; rewrite /fin1 -!map_comp; apply/eq_in_map => a /Hu /= Ha.
by rewrite ltNge Ha.
Qed.

Lemma zip_div_fin u v :
  all (fun b => b != 0) v ->
  [seq xdiv p.1 p.2 | p <- zip (fin1 u) (fin1 v)] =
  fin1 [seq p.1 / p.2 | p <- zip u v].
Proof.
elim: u v => [|a u IH] [|b v] //= /andP [/negbTE Hb Hv].
by rewrite Hb IH.
Qed.

Lemma vdiv_fin u v :
  size u = size v -> all (fun b => b != 0) v ->
  vdiv (np:=npe) (fin1 u) (fin1 v) = Ok (fin1 [seq p.1 / p.2 | p <- zip u v]).
Proof.
by move=> Hs Hv; rewrite /vdiv !size_fin1 Hs eqxx zip_div_fin.
Qed.

Lemma flatten_fin A : flatten (fin2 A) = fin1 (flatten A).
Proof. by rewrite /fin2 /fin1 map_flatten. Qed.

Lemma np_mean_fin A :
  (0 < size (flatten A))%N ->
  np_mean (np:=npe) (fin2 A) = Fin (np_mean (np:=npx) A).
Proof.
move=> Hn; rewrite /np_mean flatten_fin pysum_fin size_fin1 /=.
by rewrite -pmulrn pnatr_eq0 eqn0Ngt Hn.
Qed.

End Finite.

(** ** The estimates on finite data

    On finite data, with [X^T X] invertible and no zero divisor, the
    extended arithmetic computes the estimates of the exact one. *)

Section ExtendedOls.

Import Order.TTheory.

Variable F : realFieldType.
Variables (exp log sqrt : F -> F).
Variable minimizer :
  (seq (xnum F) -> outcome (xnum F)) -> seq (xnum F) ->
  outcome (OptimizeResult (xnum F)).
Variables (student_sf : F -> int -> F) (Phi : F -> F).
Local Open Scope ring_scope.
Local Notation npx := (numpy_exact exp log sqrt).
Local Notation npe := (numpy_extended exp log sqrt).
Local Notation spe := (scipy_extended minimizer student_sf Phi).

Variables (n k : nat) (Xm : 'M[F]_(n, k)) (Ym : 'M[F]_(n, 1)).

(** [(X^T X)^-1] is a Gram matrix: its diagonal is not negative. *)
Lemma inv_gram_diag_ge0 (j : 'I_k) :
  Xm^T *m Xm \in unitmx -> 0 <= invmx (Xm^T *m Xm) j j.
Proof.
move=> Hu; set A := Xm^T *m Xm; set Z := Xm *m invmx A.
have HA : A^T = A by rewrite /A trmx_mul trmxK.
have -> : invmx A = Z^T *m Z.
  rewrite /Z trmx_mul trmx_inv HA -!mulmxA [Xm^T *m _]mulmxA -/A.
  by rewrite mulmxV // mulmx1.
by rewrite !mxE sumr_ge0 // => i _; rewrite !mxE -expr2 sqr_ge0.
Qed.




Lemma norm_sf_fin u :
  [seq xnorm_sf Phi a | a <- fin1 u] = fin1 [seq 1 - Phi a | a <- u].
Proof. by rewrite /fin1 -!map_comp. Qed.


End ExtendedOls.

Section ExtendedLogit.

Import Order.TTheory.

Variable F : realFieldType.
Variables (exp log sqrt : F -> F).
Variable minimizer :
  (seq (xnum F) -> outcome (xnum F)) -> seq (xnum F) ->
  outcome (OptimizeResult (xnum F)).
Variables (student_sf : F -> int -> F) (Phi : F -> F).
Local Open Scope ring_scope.
Local Notation npx := (numpy_exact exp log sqrt).
Local Notation npe := (numpy_extended exp log sqrt).
Local Notation spe := (scipy_extended minimizer student_sf Phi).

Lemma zip_mapr (A B C : Type) (f : B -> C) (u : seq A) (v : seq B) :
  zip u (map f v) = [seq (q.1, f q.2) | q <- zip u v].
Proof. by elim: u v => [|a u IH] [|b v] //=; rewrite IH. Qed.

(** With a positive [exp] the probability [sigma t] lies strictly
    between 0 and 1. *)
Lemma sigma_gt0 t : (forall u, 0 < exp u) -> 0 < sigma exp t.
Proof. by move=> He; rewrite /sigma divr_gt0 // addr_gt0. Qed.

Lemma sigma_lt1 t : (forall u, 0 < exp u) -> sigma exp t < 1.
Proof.
move=> He; rewrite /sigma ltr_pdivrMr ?addr_gt0 // mul1r.
by rewrite ltrDr.
Qed.

(** The objective on finite data at a finite point: no logarithm is
    taken at zero, and the value is finite. *)
Lemma loglike_fin b Y X :
  (forall u, 0 < exp u) ->
  loglike (np:=npe) (fin1 b) (fin2 Y) (fin2 X) =
  obind (loglike (np:=npx) b Y X) (fun v => Ok (Fin v)).
Proof.
move=> He; rewrite /loglike matvec_fin.
case: (matvec X b) => [xb|e] //=; congr Ok.
rewrite flatten_fin.
have -> : [seq xdiv (xexp exp t)
                match xexp exp t with
                | Fin b0 => Fin (1%:~R + b0)
                | Inf s => Inf s
                | NaN => NaN
                end | t <- fin1 xb]
          = fin1 [seq sigma exp t | t <- xb].
  rewrite /fin1 -!map_comp; apply: eq_map => t /=.
  by rewrite gt_eqF // addr_gt0.
rewrite zip_fin1 zip_mapr -!map_comp.
set f := (X in [seq X p | p <- _]).
have -> : [seq f p | p <- zip (flatten Y) xb] =
          fin1 [seq p.1 * log (sigma exp p.2)
                    + (1 - p.1) * log (1 - sigma exp p.2)
               | p <- zip (flatten Y) xb].
  rewrite /fin1 -map_comp; apply: eq_map => p; rewrite /f /=.
  have H0 := sigma_gt0 p.2 He; have H1 := sigma_lt1 p.2 He.
  rewrite (lt_gtF H0) (gt_eqF H0).
  have H2 : 0 < 1%:~R + - sigma exp p.2 by rewrite subr_gt0.
  by rewrite (lt_gtF H2) (gt_eqF H2).
by rewrite (pysum_fin exp log sqrt) /=; congr (Fin (_ * pysum _)).
Qed.

Section Inference.

Variables (n k : nat) (Xm : 'M[F]_(n, k)) (Ym : 'M[F]_(n, 1)).

Lemma logit_cov_ge0 (j : 'I_k) :
  Xm^T *m Xm \in unitmx -> 0 <= response_mean Ym <= 1 ->
  0 <= logit_cov Xm Ym j j.
Proof.
move=> Hu /andP [H0 H1]; rewrite /logit_cov mxE mulr_ge0 ?inv_gram_diag_ge0 //.
by apply: mulr_ge0; [apply: mulr_ge0 |]; rewrite ?ler0n ?subr_ge0.
Qed.

(** A response of zeros and ones has its mean between 0 and 1. *)
Lemma binary_response_mean :
  (forall i, (Ym i ord0 == 0) || (Ym i ord0 == 1)) ->
  0 <= response_mean Ym <= 1.
Proof.
move=> Hb; rewrite /response_mean.
have H0 : 0 <= \sum_(i < n) Ym i ord0.
  by apply: sumr_ge0 => i _; case/orP: (Hb i) => /eqP ->.
have H1 : \sum_(i < n) Ym i ord0 <= n%:R.
  rewrite -[n in n%:R]card_ord -sum1_card natr_sum.
  by apply: ler_sum => i _; case/orP: (Hb i) => /eqP ->.
case: (posnP n) => [Hn0|Hn].
  have -> : n%:R = 0 :> F by rewrite Hn0.
  by rewrite invr0 mulr0 lexx ler01.
by rewrite divr_ge0 ?ler0n //= ler_pdivrMr ?ltr0n // mul1r.
Qed.

Lemma logit_estimates_extended names res b :
  (0 < n)%N -> (0 < k)%N -> size names = k -> Xm^T *m Xm \in unitmx ->
  0 <= response_mean Ym <= 1 ->
  (forall j, logit_se sqrt Xm Ym j != 0) ->
  minimizer (fun b => loglike (np:=npe) b (fin2 (of_mx Ym)) (fin2 (of_mx Xm)))
            (nseq k (Fin (10%:R^-1))) = Ok res ->
  res_x res = fin1 b -> size b = k ->
  exists r,
    logit_estimates (np:=npe) (sp:=spe) names (fin2 (of_mx Xm))
                    (fin2 (of_mx Ym)) n k =
    Ok (LogitResult res (fin1 [seq logit_se sqrt Xm Ym j | j <- enum 'I_k])
                    (fin1 [seq logit_z sqrt Xm Ym b j | j <- enum 'I_k])
                    (fin1 [seq logit_p sqrt Phi Xm Ym b j | j <- enum 'I_k]) r).
Proof.
move=> Hn Hk Hnames Hu Hm Hse Hmin Hres Hb.
have Hy : (0 < size (flatten (of_mx Ym)))%N.
  by rewrite flatten_of_mx_col size_map_enum.
rewrite /logit_estimates (np_mean_fin exp log sqrt Hy) (np_meanE exp log sqrt).
have Hmin' : minimize (SciPy:=spe)
    (fun b => loglike (np:=npe) b (fin2 (of_mx Ym)) (fin2 (of_mx Xm)))
    (nseq k (lit_0_1 (NumPy:=npe))) = Ok res by exact: Hmin.
rewrite /np_full Hmin' [obind _ _]/= Hres.
rewrite transpose_fin transposeE // matmul_fin matmulE // [obind _ _]/=.
rewrite inv_fin inv_exactE Hu [obind _ _]/=.
have -> : (Posz n)%:~R * response_mean Ym * (1%:~R - response_mean Ym) =
          n%:R * response_mean Ym * (1 - response_mean Ym) :> F.
  by rewrite -pmulrn.
rewrite smul_fin smulE np_diag_fin np_diagE -/(logit_cov Xm Ym).
have Hv : all (fun a => 0 <= a) [seq logit_cov Xm Ym j j | j <- enum 'I_k].
  by apply/allP => a /mapP [j _ ->]; exact: logit_cov_ge0.
have -> : [seq xsqrt sqrt a | a <- fin1 [seq logit_cov Xm Ym j j | j <- enum 'I_k]]
          = fin1 [seq logit_se sqrt Xm Ym j | j <- enum 'I_k].
  by rewrite (sqrt_fin _ Hv) -map_comp.
have Hz : all (fun b => b != 0) [seq logit_se sqrt Xm Ym j | j <- enum 'I_k].
  by apply/allP => a /mapP [j _ ->].
rewrite vdiv_fin ?size_map_enum // [obind _ _]/=.
have -> : [seq p.1 / p.2
            | p <- zip b [seq logit_se sqrt Xm Ym j | j <- enum 'I_k]]
          = [seq logit_z sqrt Xm Ym b j | j <- enum 'I_k].
  by rewrite [X in zip X _](seq_enum_nth Hb) zip_map -map_comp.
have -> : [seq xmul (xnorm_sf Phi (xabs a)) (Fin 2%:~R)
            | a <- fin1 [seq logit_z sqrt Xm Ym b j | j <- enum 'I_k]]
          = fin1 [seq logit_p sqrt Phi Xm Ym b j | j <- enum 'I_k].
  rewrite /fin1 -!map_comp; apply: eq_map => j /=.
  by rewrite /logit_p mulrC.
rewrite logit_table_ok ?size_fin1 ?size_map_enum ?Hb ?Hnames //=.
by eexists.
Qed.

End Inference.

End ExtendedLogit.

(** ** The fit in the extended arithmetic *)

Section Start.

Context {T : Type} {np : NumPy T} {sp : SciPy T}.
Implicit Types (s : state T) (X Y : seq (seq T)) (names : seq string).

(** What a logit fit that returned has done: it called the minimizer
    once, on the objective over the design matrix and the response of
    the instance, from the start that is 0.1 in every coordinate, and
    the coefficients are the point the minimizer returned. *)
Lemma fit_model_logit_minimizer h x y ci cols X nm Y s s' :
  table h x cols X -> series h y nm Y ->
  RegressionModel_new h x y ci "logit"%string = (Ok tt, s) ->
  fit_model s = (Ok tt, s') ->
  exists2 res,
    minimize (fun b => loglike b Y (design ci X))
             (nseq (size (labels ci cols)) lit_0_1) = Ok res
    & self_Beta_hat (st_self s') = Some (res_x res).
Proof.
move=> Hx Hy Hs Hfit.
case: (RegressionModel_new_ready Hx Hy Hs) => _ Hr.
move: Hfit; rewrite (fit_model_logit Hr).
move=> /(logistic_regression_inv Hr) [e He ->].
by exists (logit_res e); first exact: (logit_estimates_res He).
Qed.

End Start.

Section ExtendedFit.

Import Order.TTheory.

Variable F : realFieldType.
Variables (exp log sqrt : F -> F).
Variable minimizer :
  (seq (xnum F) -> outcome (xnum F)) -> seq (xnum F) ->
  outcome (OptimizeResult (xnum F)).
Variables (student_sf : F -> int -> F) (Phi : F -> F).
Local Open Scope ring_scope.
Local Notation npx := (numpy_exact exp log sqrt).
Local Notation npe := (numpy_extended exp log sqrt).
Local Notation spe := (scipy_extended minimizer student_sf Phi).

Implicit Types (X Y : seq (seq F)) (cols : seq string).

Lemma design_fin (ci : bool) X :
  design (np:=npe) ci (fin2 X) = fin2 (design (np:=npx) ci X).
Proof.
case: ci => //=; rewrite !with_interceptE /fin2 -!map_comp.
by apply: eq_map => r /=; rewrite /fin1 map_rcons.
Qed.

(** The caller's data when every entry is a finite number: [x] a table
    with columns [cols] and the [n] rows [X], [y] a series of the [n]
    values [Y], [k] the number of columns of the design matrix, with at
    least one observation and one column. *)
Record finite_dataset (h : heap (xnum F)) (x y : loc) (ci : bool) cols X
    (nm : string) Y (n k : nat) : Prop := {
  fd_table : table h x cols (fin2 X);
  fd_series : series h y nm (fin2 Y);
  fd_rows : shaped n (size cols) X;
  fd_response : shaped n 1 Y;
  fd_columns : k = (size cols + ci)%N;
  fd_obs : (0 < n)%N;
  fd_vars : (0 < k)%N
}.

Lemma finite_dataset_ready h x y ci cols X nm Y n k rt :
  finite_dataset h x y ci cols X nm Y n k ->
  rt \in [:: "ols"; "logit"]%string ->
  exists s,
    [/\ RegressionModel_new (np:=npe) h x y ci rt = (Ok tt, s),
        Ready s (labels ci cols)
              (fin2 (of_mx (design_mx exp log sqrt ci X n k)))
              (fin2 (of_mx (response_mx Y n))) rt,
        of_mx (design_mx exp log sqrt ci X n k) = design (np:=npx) ci X,
        of_mx (response_mx Y n) = Y
      & size (labels ci cols) = k].
Proof.
case=> Hx Hy HX HY Hk Hn _ Hrt.
have HXm : of_mx (design_mx exp log sqrt ci X n k) = design (np:=npx) ci X.
  by rewrite /design_mx to_mxK // Hk shaped_design.
have HYm : of_mx (response_mx Y n) = Y by rewrite /response_mx to_mxK.
case: (init_ready (np:=npe) ci Hx Hy Hrt) => s [Hs Hr]; exists s; split=> //.
- by rewrite HXm HYm -design_fin.
- by rewrite size_labels Hk.
Qed.

(** *** Ordinary least squares *)




(** *** Logistic regression *)

(** C1, as amended: in exact arithmetic with [exp] positive and on
    finite data: in a fit of family logit that returns, the function
    handed to the minimizer is the objective over the design matrix and
    the response of the instance, the search starts at 0.1 in every
    coordinate and the fitted coefficients are the point the minimizer
    returns; at every finite coefficient vector [b] of the right length
    the value of that objective is the negative log-likelihood
    [- sum_i (y_i log (sigma (x_i b)) + (1 - y_i) log (1 - sigma (x_i b)))]
    with [sigma t = exp t / (1 + exp t)]. *)
Theorem logit_objective_nll h x y ci cols X nm Y n k s s' :
  finite_dataset h x y ci cols X nm Y n k ->
  (forall t, 0 < exp t) ->
  RegressionModel_new (np:=npe) h x y ci "logit"%string = (Ok tt, s) ->
  fit_model (np:=npe) (sp:=spe) s = (Ok tt, s') ->
  let Xm := design_mx exp log sqrt ci X n k in
  let Ym := response_mx Y n in
  let objective :=
    fun b => loglike (np:=npe) b (fin2 Y) (design (np:=npe) ci (fin2 X)) in
  exists res,
    [/\ minimizer objective (nseq k (Fin (10%:R^-1))) = Ok res,
        self_Beta_hat (st_self s') = Some (res_x res)
      & forall b, size b = k ->
          objective [seq Fin a | a <- b] =
          Ok (Fin (NLL exp log Xm Ym (to_col k b)))].
Proof.
move=> Hd He Hs Hfit Xm Ym objective.
case: (finite_dataset_ready (rt:="logit"%string) Hd) => // s0 [_ _ HX HY Hk].
case: (fit_model_logit_minimizer (fd_table Hd) (fd_series Hd) Hs Hfit).
rewrite Hk => res Hmin Hb; exists res; split=> // b Hsz.
rewrite /objective design_fin -/(fin1 b) loglike_fin // -[in LHS]HX -[in LHS]HY.
by rewrite loglikeE //; exact: (fd_obs Hd).
Qed.

(** A logit fit on finite data runs to its end when the minimizer
    returns a finite point of the right length, [X^T X] has an inverse,
    the mean of the response lies between 0 and 1 and no standard error
    is zero. *)
Lemma logit_fit_extended h x y ci cols X nm Y n k res b :
  finite_dataset h x y ci cols X nm Y n k ->
  let Xm := design_mx exp log sqrt ci X n k in
  let Ym := response_mx Y n in
  Xm^T *m Xm \in unitmx ->
  0 <= response_mean Ym <= 1 ->
  (forall j, logit_se sqrt Xm Ym j != 0) ->
  minimizer (fun b => loglike (np:=npe) b (fin2 Y) (design (np:=npe) ci (fin2 X)))
            (nseq k (Fin (10%:R^-1))) = Ok res ->
  res_x res = [seq Fin a | a <- b] -> size b = k ->
  exists s s',
    [/\ RegressionModel_new (np:=npe) h x y ci "logit"%string = (Ok tt, s),
        fit_model (np:=npe) (sp:=spe) s = (Ok tt, s')
      & [/\ self_Beta_hat (st_self s') = Some [seq Fin a | a <- b],
            self_stdError (st_self s') =
              Some [seq Fin (logit_se sqrt Xm Ym j) | j <- enum 'I_k],
            self_zScores (st_self s') =
              Some [seq Fin (logit_z sqrt Xm Ym b j) | j <- enum 'I_k]
          & self_p_val (st_self s') =
              Some [seq Fin (logit_p sqrt Phi Xm Ym b j) | j <- enum 'I_k]]].
Proof.
move=> Hd Xm Ym Hu Hm Hse Hmin Hres Hb.
case: (finite_dataset_ready (rt:="logit"%string) Hd) => // s [Hs Hr HX HY Hk].
rewrite design_fin -HX -HY in Hmin.
case: (logit_estimates_extended student_sf Phi (fd_obs Hd) (fd_vars Hd) Hk Hu Hm Hse Hmin
         Hres Hb) => r He.
exists s; eexists; split; first exact: Hs.
- rewrite (fit_model_logit Hr); apply: (logistic_regression_ok Hr).
  by rewrite size_fin2 size_of_mx Hk; exact: He.
- by split; rewrite /= ?Hres /fin1 -?map_comp.
Qed.


End ExtendedFit.

(** ** Shapes

    What the array operations need of the shapes of their arguments,
    whatever the arithmetic. *)

Section Shapes.

Context {T : Type} {np : NumPy T}.
Implicit Types (A B : seq (seq T)).










End Shapes.

(** ** Degrees of freedom *)

Section DegreesOfFreedom.

Context {T : Type} {np : NumPy T} {sp : SciPy T}.
Implicit Types (s : state T) (X Y : seq (seq T)) (names : seq string).
Local Open Scope np_scope.



End DegreesOfFreedom.

(** ** Fitting twice *)

Section Again.

Context {T : Type} {np : NumPy T} {sp : SciPy T}.
Implicit Types (s : state T) (X Y : seq (seq T)) (names : seq string).

(** C9: after a construction and a fit that returned, in either family,
    the coefficients, the standard errors and the p-values are set; a
    second [fit_model] on the fitted instance returns and leaves the
    three set to the same values.  For the family logit the
    coefficients are what the minimizer returns from the start that is
    0.1 in every coordinate, which depends on nothing but the number of
    columns and, in binary64, is not zero. *)
Theorem refit_reproduces h x y ci cols X nm Y rt s s' :
  table h x cols X -> series h y nm Y ->
  RegressionModel_new h x y ci rt = (Ok tt, s) ->
  fit_model s = (Ok tt, s') ->
  exists coef se pv,
    [/\ [/\ self_Beta_hat (st_self s') = Some coef,
            self_stdError (st_self s') = Some se
          & self_p_val (st_self s') = Some pv],
        exists s'',
          [/\ fit_model s' = (Ok tt, s''),
              self_Beta_hat (st_self s'') = Some coef,
              self_stdError (st_self s'') = Some se
            & self_p_val (st_self s'') = Some pv],
        rt = "logit"%string ->
          exists2 res,
            minimize (fun b => loglike b Y (design ci X))
                     (nseq (size (labels ci cols)) lit_0_1) = Ok res
            & coef = res_x res
      & PrimFloat.eqb (lit_0_1 (NumPy:=Float64.numpy)) PrimFloat.zero = false].
Proof.
move=> Hx Hy Hs Hfit.
case: (RegressionModel_new_ready Hx Hy Hs) => Hrt Hr.
have Hagain := fit_model_again Hr Hfit.
move: Hrt Hr Hfit Hs Hagain; rewrite !inE => /orP [] /eqP -> Hr Hfit Hs Hagain.
- move: Hfit Hagain; rewrite (fit_model_ols Hr).
  move=> /(ols_regression_inv Hr) [e He ->] Hagain.
  exists (ols_Beta_hat e), (ols_stdError e), (ols_p_val e); split=> //.
  by eexists; split; first exact: Hagain.
- case: (fit_model_logit_minimizer Hx Hy Hs Hfit) => res Hmin Hb.
  move: Hfit Hagain Hb; rewrite (fit_model_logit Hr).
  move=> /(logistic_regression_inv Hr) [e He ->] Hagain /= [Hb].
  exists (res_x (logit_res e)), (logit_stdError e), (logit_p_val e); split=> //.
  + by eexists; split; first exact: Hagain.
  + by move=> _; exists res.
Qed.

End Again.

(** ** The minimizer's report *)

Section Convergence.

Context {T : Type} {np : NumPy T}.
Variables (student_sf : T -> int -> T) (normal_sf : T -> T).
Implicit Types (s : state T) (X Y : seq (seq T)) (names : seq string).

Local Notation scipy_with m := (Build_SciPy m student_sf normal_sf).

(** C6, as amended: a fit of family logit does not look at the
    minimizer's report of convergence, nor at whether the point is
    finite: two minimizers that return the same point, converged or
    not, lead to the same outcome and the same instance, and when the
    fit returns, the coefficients are that point as it is. *)
Theorem logit_fit_ignores_success m1 m2 s names X Y r1 r2 :
  Ready s names X Y "logit" ->
  m1 (fun b => loglike b Y X) (np_full (size names) lit_0_1) = Ok r1 ->
  m2 (fun b => loglike b Y X) (np_full (size names) lit_0_1) = Ok r2 ->
  res_x r1 = res_x r2 ->
  fit_model (sp:=scipy_with m1) s = fit_model (sp:=scipy_with m2) s /\
  forall s', fit_model (sp:=scipy_with m1) s = (Ok tt, s') ->
    self_Beta_hat (st_self s') = Some (res_x r1).
Proof.
move=> Hr H1 H2 Hx; split.
- rewrite !(fit_model_logit Hr).
  case: Hr => [[lx [Hlx [bx [Hrx Hbx]]]] [ly [nm [Hly [b [Hry Hb]]]]] _ _ _ _ Hk _].
  rewrite /logistic_regression /np_array /bind /getattr /deref /lift /ret.
  by rewrite Hk Hly Hlx Hry Hb Hrx Hbx /= H1 H2 Hx.
- move=> s'; rewrite (fit_model_logit Hr).
  move=> /(logistic_regression_inv Hr) [e /logit_estimates_res /= He ->] /=.
  by move: He; rewrite H1 => -[->].
Qed.

End Convergence.

(** ** The caller's data *)

Section CallerData.

Context {T : Type} {np : NumPy T} {sp : SciPy T}.

(** C10: after construction and any number of calls of [fit_model],
    whatever they returned or raised, every object the caller had is as
    it was, the caller's table and series among them; the frame
    [self.x], to which the intercept column is added, and the list
    [self.x_list], which is appended to in place, are objects made by
    the instance. *)
Theorem caller_data_unchanged (h : heap T) (x y : loc) (ci : bool)
    (rt : string) (n : nat) :
  let s := after_fits h x y ci rt n in
  [/\ forall l o, read h l = Some o -> read (st_heap s) l = Some o,
      forall l, self_x (st_self s) = Some l -> size h <= l
    & forall l, self_x_list (st_self s) = Some l -> size h <= l].
Proof.
move=> s; case: (owned_after_fits (np:=np) (sp:=sp) h x y ci rt n).
rewrite -/s => Ht Hl Hx; split=> // l o Ho.
by rewrite -(read_take (st_heap s) (read_size Ho)) Ht.
Qed.

End CallerData.

(** A caller's heap with one regressor: the frame [x] at 1 over the
    block at 0, the series [y] at 3 over the block at 2. *)
Definition caller (T : Type) (X Y : seq (seq T)) : heap T :=
  [:: Block X; DataFrame [:: "a"%string] 0%N; Block Y; Series "y"%string 2%N].

(** ** The exact model on a small data set

    Two observations of one regressor over the rationals.  The
    theorems above hold for every choice of the transcendental
    functions, of the minimizer and of the distribution functions; here
    these are simple rational stand-ins. *)

Module Example.

Import Order.TTheory.
Local Open Scope ring_scope.

Definition exp (t : rat) : rat := 1 + t + t ^+ 2 / 2%:R.
Definition log (t : rat) : rat := t - 1.
Definition sqrt (t : rat) : rat := (t + 1) / 2%:R.

(** A minimizer that returns its starting point. *)
Definition minimizer (f : seq rat -> outcome rat) (b : seq rat) :
    outcome (OptimizeResult rat) :=
  Ok {| res_x := b; success := true |}.

Definition student_sf (t : rat) (d : int) : rat :=
  if t < 0 then 3%:R / 4%:R else if t == 0 then 2^-1 else 4%:R^-1.

Definition Phi (t : rat) : rat := 1 - student_sf t 1.

Definition np : NumPy rat := numpy_exact exp log sqrt.
Definition sp : SciPy rat := scipy_exact minimizer student_sf Phi.

Definition X2 : seq (seq rat) := [:: [:: 1]; [:: 1]].
Definition Y2 : seq (seq rat) := [:: [:: -1]; [:: - 3%:R]].

Lemma dataset2 :
  dataset (caller X2 Y2) 1 3 false [:: "a"%string] X2 "y"%string Y2 2 1.
Proof. by split=> //; [exists 0%N | exists 2%N]. Qed.

Lemma unit2 :
  (design_mx exp log sqrt false X2 2 1)^T *m design_mx exp log sqrt false X2 2 1 \in unitmx.
Proof.
rewrite unitmxE det_mx11 mxE !big_ord_recl big_ord0 !mxE /=.
by rewrite unitfE.
Qed.



(** The logit fit on the example runs to its end. *)
Lemma logit_run2 :
  exists s s',
    RegressionModel_new (np:=np) (caller X2 Y2) 1 3 false "logit"%string = (Ok tt, s) /\
    fit_model (np:=np) (sp:=sp) s = (Ok tt, s').
Proof.
exact: (logit_fit_run student_sf Phi dataset2 unit2
          (res := {| res_x := [:: 10%:R^-1]; success := true |}) erefl erefl).
Qed.

Lemma logit_fit_ignores_success_example :
  exists s,
    RegressionModel_new (np:=np) (caller X2 Y2) 1 3 false "logit"%string = (Ok tt, s) /\
    fit_model (np:=np) (sp:=sp) s =
    fit_model (np:=np)
      (sp:=scipy_exact (fun _ b => Ok {| res_x := b; success := false |})
                       student_sf Phi) s.
Proof.
case: (init_ready (np:=np) false (ds_table dataset2) (ds_series dataset2)
         (rt:="logit"%string) isT) => s [Hs Hr].
exists s; split; first exact: Hs.
by apply: (proj1 (logit_fit_ignores_success (m1:=minimizer)
            (m2:=fun _ b => Ok {| res_x := b; success := false |})
            (r1:={| res_x := [:: 10%:R^-1]; success := true |})
            (r2:={| res_x := [:: 10%:R^-1]; success := false |})
            student_sf (fun a => 1 - Phi a) Hr _ _ _)).
Defined.

End Example.

(** ** Exact arithmetic with special values on a small data set

    Three observations of one regressor and the constant column, over
    the rationals extended by the infinities and NaN, with the
    stand-ins of [Example] for the transcendental functions. *)

Module FiniteExample.

Import Order.TTheory GRing.Theory Num.Theory Example.
Local Open Scope ring_scope.

Definition npe : NumPy (xnum rat) := numpy_extended exp log sqrt.

(** A minimizer that returns its starting point. *)
Definition start_point (f : seq (xnum rat) -> outcome (xnum rat))
    (b : seq (xnum rat)) : outcome (OptimizeResult (xnum rat)) :=
  Ok {| res_x := b; success := true |}.

Definition spe : SciPy (xnum rat) := scipy_extended start_point student_sf Phi.

Definition X4 : seq (seq rat) := [:: [:: 0]; [:: 1]; [:: 2%:R]].
Definition Y4 : seq (seq rat) := [:: [:: 0]; [:: 1]; [:: 1]].

Definition caller4 : heap (xnum rat) := caller (fin2 X4) (fin2 Y4).

Lemma dataset4 :
  finite_dataset caller4 1 3 true [:: "a"%string] X4 "y"%string Y4 3 2.
Proof. by split=> //; [exists 0%N | exists 2%N]. Qed.

Lemma unit4 :
  (design_mx exp log sqrt true X4 3 2)^T *m design_mx exp log sqrt true X4 3 2
    \in unitmx.
Proof.
pose B : 'M[rat]_2 :=
  \matrix_(i, j) nth 0 (nth [::] [:: [:: 2^-1; - 2^-1]; [:: - 2^-1; 5%:R / 6%:R]] i) j.
suff /mulmx1_unit [] : (design_mx exp log sqrt true X4 3 2)^T
                         *m design_mx exp log sqrt true X4 3 2 *m B = 1%:M by [].
apply/matrixP=> i j; rewrite !mxE !big_ord_recl big_ord0.
rewrite !mxE !big_ord_recl !big_ord0 !mxE /=.
by case: i => [[|[|i]] Hi] //; case: j => [[|[|j]] Hj].
Qed.

Lemma exp_gt0 t : 0 < exp t.
Proof.
have -> : exp t = ((t + 1) ^+ 2 + 1) / 2%:R.
  by rewrite /exp sqrrD1 -[RHS]mulrC; field.
by rewrite divr_gt0 // ltr_wpDl // sqr_ge0.
Qed.

Lemma sqrt_neq0 v : 0 <= v -> sqrt v != 0.
Proof. by move=> Hv; rewrite /sqrt gt_eqF // divr_gt0 // ltr_wpDl. Qed.


Lemma binary4 i :
  (response_mx Y4 3 i ord0 == 0) || (response_mx Y4 3 i ord0 == 1).
Proof. by rewrite mxE; case: i => [[|[|[|i]]] Hi]. Qed.

Lemma mean4 : 0 <= response_mean (response_mx Y4 3) <= 1.
Proof. exact: (binary_response_mean binary4). Qed.

Lemma logit_se4 j :
  logit_se sqrt (design_mx exp log sqrt true X4 3 2) (response_mx Y4 3) j != 0.
Proof.
by apply: sqrt_neq0; apply: logit_cov_ge0; [exact: unit4 | exact: mean4].
Qed.

(** The logit fit on the example runs to its end. *)
Lemma logit_run4 :
  exists s s',
    RegressionModel_new (np:=npe) caller4 1 3 true "logit"%string = (Ok tt, s) /\
    fit_model (np:=npe) (sp:=spe) s = (Ok tt, s').
Proof.
case: (logit_fit_extended (minimizer:=start_point) student_sf Phi dataset4 unit4
         mean4 logit_se4
         (res := {| res_x := [:: Fin (10%:R^-1); Fin (10%:R^-1)]; success := true |})
         (b := [:: 10%:R^-1; 10%:R^-1]) erefl erefl erefl)
  => s [s' [Hs Hf _]].
exists s, s'; split; [exact: Hs | exact: Hf].
Qed.



Lemma logit_objective_nll_example :
  exists s s' res,
    [/\ RegressionModel_new (np:=npe) caller4 1 3 true "logit"%string = (Ok tt, s),
        fit_model (np:=npe) (sp:=spe) s = (Ok tt, s'),
        start_point (fun b => loglike (np:=npe) b (fin2 Y4)
                              (design (np:=npe) true (fin2 X4)))
                  [:: Fin (10%:R^-1); Fin (10%:R^-1)] = Ok res,
        self_Beta_hat (st_self s') = Some (res_x res)
      & loglike (np:=npe) [:: Fin 1; Fin 0] (fin2 Y4)
                (design (np:=npe) true (fin2 X4)) =
        Ok (Fin (NLL exp log (design_mx exp log sqrt true X4 3 2)
                     (response_mx Y4 3) (to_col 2 [:: 1; 0])))].
Proof.
case: logit_run4 => s [s' [Hs Hf]].
case: (logit_objective_nll dataset4 exp_gt0 Hs Hf)
  => res [Hmin Hb Hobj].
exists s, s', res; split; [exact: Hs | exact: Hf | exact: Hmin | exact: Hb |].
exact: (Hobj [:: 1; 0] erefl).
Defined.


End FiniteExample.

(** ** Runs on binary64 *)

Module Binary64.

Import PrimFloat.
Local Open Scope float_scope.

Lemma Prim2SF_nan x : is_nan x = true -> FloatOps.Prim2SF x = SpecFloat.S754_nan.
Proof. by rewrite /FloatOps.Prim2SF => ->. Qed.

Lemma is_nan_Prim2SF x : FloatOps.Prim2SF x = SpecFloat.S754_nan -> is_nan x = true.
Proof. by rewrite /is_nan FloatAxioms.eqb_spec => ->. Qed.

(** NaN is absorbing for the sum and the product. *)
Lemma nan_add_l x y : is_nan x = true -> is_nan (x + y) = true.
Proof.
by move=> /Prim2SF_nan Hx; apply: is_nan_Prim2SF; rewrite FloatAxioms.add_spec Hx.
Qed.

Lemma nan_add_r x y : is_nan y = true -> is_nan (x + y) = true.
Proof.
move=> /Prim2SF_nan Hy; apply: is_nan_Prim2SF; rewrite FloatAxioms.add_spec Hy.
by case: (FloatOps.Prim2SF x).
Qed.

Lemma nan_mul_r x y : is_nan y = true -> is_nan (x * y) = true.
Proof.
move=> /Prim2SF_nan Hy; apply: is_nan_Prim2SF; rewrite FloatAxioms.mul_spec Hy.
by case: (FloatOps.Prim2SF x).
Qed.

Lemma nan_mul_l x y : is_nan x = true -> is_nan (x * y) = true.
Proof.
by move=> /Prim2SF_nan Hx; apply: is_nan_Prim2SF; rewrite FloatAxioms.mul_spec Hx.
Qed.

Lemma nan_foldl_acc a (s : seq float) :
  is_nan a = true -> is_nan (foldl add a s) = true.
Proof. by elim: s a => [|t s IH] a Ha //=; apply: IH; apply: nan_add_l. Qed.

(** One NaN among the terms makes Python's [sum] NaN. *)
Lemma nan_foldl a (s : seq float) i :
  i < size s -> is_nan (nth 0 s i) = true -> is_nan (foldl add a s) = true.
Proof.
elim: s a i => [|t s IH] a [|i] //=.
- by move=> _ Ht; apply: nan_foldl_acc; apply: nan_add_r.
- by rewrite ltnS; apply: IH.
Qed.

Section Saturation.

(** Any [exp] and [log]; of [log] only its value at zero matters, which
    is minus infinity for numpy's. *)
Variables exp log : float -> float.
Hypothesis log_0 : log 0 = neg_infinity.

Local Notation np64 := (Float64.numpy_with exp log).

(** C5, as amended: the objective takes the logarithms of the
    probability and of its complement as they are; when the probability
    of an observation is exactly 1 and its response is 1, or exactly 0
    and its response is 0, a term is zero times minus infinity, and the
    objective returns NaN as its value, without raising. *)
Theorem loglike_saturated (b : seq float) (y x : seq (seq float))
    (xb : seq float) (i : nat) :
  matvec (np:=np64) x b = Ok xb ->
  i < size (flatten y) -> i < size xb ->
  let gamma := exp (nth 0 xb i) / (1 + exp (nth 0 xb i)) in
  (gamma = 1 /\ nth 0 (flatten y) i = 1) \/
  (gamma = 0 /\ nth 0 (flatten y) i = 0) ->
  exists v, loglike (np:=np64) b y x = Ok v /\ is_nan v = true.
Proof.
move=> Hxb Hy Hi gamma Hsat; rewrite /loglike Hxb /=.
eexists; split; first by reflexivity.
apply: nan_mul_r; apply: (@nan_foldl _ _ i).
  by rewrite size_map size_zip size_map leq_min Hy Hi.
rewrite (nth_map (0, 0)) ?size_zip ?size_map ?leq_min ?Hy ?Hi //.
rewrite nth_zip_cond size_zip size_map leq_min Hy Hi /=.
rewrite (nth_map 0) //= -/gamma.
case: Hsat => [[-> ->]|[-> ->]].
- apply: nan_add_r; have -> : I1 (np:=np64) - 1 = 0 by [].
  by rewrite log_0.
- by apply: nan_add_l; rewrite log_0.
Qed.

End Saturation.

Local Notation np64 := Float64.numpy.

(** A minimizer that stops at once: it evaluates the objective at the
    initial guess and returns that point, not converged. *)
Definition stalled (f : seq float -> outcome float) (b : seq float) :
    outcome (OptimizeResult float) :=
  obind (f b) (fun _ => Ok {| res_x := b; success := false |}).

(** A minimizer that reports a point, converged or not, without
    looking at the objective. *)
Definition reports (pt : seq float) (flag : bool)
    (f : seq float -> outcome float) (b : seq float) :
    outcome (OptimizeResult float) :=
  Ok {| res_x := pt; success := flag |}.

(** [RegressionModel(x, y, ci, rt)] followed by [fit_model()]. *)
Definition fit64 minimizer (h : heap float) (x y : loc) (ci : bool) (rt : string) :
    outcome unit * state float :=
  let r := RegressionModel_new (np:=np64) h x y ci rt in
  match r.1 with
  | Ok _ => fit_model (np:=np64) (sp:=Float64.scipy minimizer) r.2
  | Raise e => (Raise e, r.2)
  end.

(** The objective at the initial guess 0.1, for the one observation
    [x = 400], [y = 1]: the probability rounds to 1 and the sum is
    NaN, returned as a value. *)
Lemma loglike_returns_nan :
  exists v, loglike (np:=np64) [:: 0x1.999999999999ap-4] [:: [:: 1]] [:: [:: 400]] = Ok v
            /\ is_nan v = true.
Proof. by exists nan; vm_compute. Qed.

Lemma loglike_saturated_example :
  exists v, loglike (np:=np64) [:: 0x1.999999999999ap-4] [:: [:: 1]] [:: [:: 400]] = Ok v
            /\ is_nan v = true.
Proof.
apply: (@loglike_saturated Float64.exp Float64.log _ _ _ _
          [:: 0x1.999999999999ap-4 * 400 + 0] 0).
- by vm_compute.
- by vm_compute.
- by [].
- by [].
- by left; vm_compute.
Defined.


(** A logit fit whose minimizer reports NaN, not converged: the fit
    returns, and NaN is the coefficient. *)
Lemma logit_fit_keeps_nan :
  let r := fit64 (reports [:: nan] false)
                 (caller [:: [:: 1]; [:: 2]] [:: [:: 0]; [:: 1]]) 1%N 3%N false "logit" in
  [/\ r.1 = Ok tt, self_Beta_hat (st_self r.2) = Some [:: nan]
    & omap (@keys _) (self_results (st_self r.2)) = Some [:: "a"%string]].
Proof. by vm_compute. Qed.

End Binary64.

(** ** Fits on binary64

    What the fits leave on small data sets in the arithmetic numpy
    runs: where rounding, a zero standard error or a repeated column
    name part the program from the formulas. *)

Module Doubles.

Import PrimFloat Binary64.
Local Open Scope float_scope.
Local Notation np64 := Float64.numpy.

(** The objective at the initial guess 0.1 for the one observation
    [x = 800], [y = 0]: [1 + exp 80] rounds to [exp 80], the
    probability to 1 and the logarithm of its complement is minus
    infinity.  The objective is plus infinity where the sum of the
    negative log-likelihood is [log (1 + exp 80)], about 80. *)
Lemma loglike_returns_infinity :
  loglike (np:=np64) [:: 0x1.999999999999ap-4] [:: [:: 0]] [:: [:: 800]]
  = Ok infinity.
Proof. by vm_compute. Qed.






(** Three observations of one regressor, with the constant column. *)
Definition rows3 : seq (seq float) := [:: [:: 0]; [:: 1]; [:: 2]].
Definition response3 : seq (seq float) := [:: [:: 1]; [:: 2]; [:: 4]].
Definition binary3 : seq (seq float) := [:: [:: 0]; [:: 1]; [:: 1]].

(** The instance after construction with an intercept and one fit. *)
Definition fitted (h : heap float) (rt : string) : state float :=
  (fit_model (np:=np64) (sp:=Float64.scipy stalled)
     (RegressionModel_new (np:=np64) h 1%N 3%N true rt).2).2.

Lemma fitted_run (h : heap float) (rt : string) :
  (RegressionModel_new (np:=np64) h 1%N 3%N true rt).1 = Ok tt ->
  (fit_model (np:=np64) (sp:=Float64.scipy stalled)
     (RegressionModel_new (np:=np64) h 1%N 3%N true rt).2).1 = Ok tt ->
  RegressionModel_new (np:=np64) h 1%N 3%N true rt =
    (Ok tt, (RegressionModel_new (np:=np64) h 1%N 3%N true rt).2) /\
  fit_model (np:=np64) (sp:=Float64.scipy stalled)
    (RegressionModel_new (np:=np64) h 1%N 3%N true rt).2 = (Ok tt, fitted h rt).
Proof.
rewrite /fitted; case: (RegressionModel_new _ _ _ _ _) => o s /= ->.
by case: (fit_model s) => o' s' /= ->.
Qed.

(** The caller's column is itself named "intercept": the design matrix
    has two columns and two coefficients are fitted, but the results
    have one entry, and its coefficient is that of the constant column,
    not of the caller's. *)
Definition named_intercept : heap float :=
  [:: Block rows3; DataFrame [:: "intercept"%string] 0%N; Block response3;
      Series "y"%string 2%N].

Lemma fit_results_repeated_name :
  let s' := fitted named_intercept "ols" in
  exists coef res entry,
    [/\ self_Beta_hat (st_self s') = Some coef, size coef = 2%N,
        self_results (st_self s') = Some res,
        keys res = [:: "intercept"%string]
      & [/\ dict_get res "intercept" = Some entry,
            dict_get entry "coefficient" = Some (nth 0 coef 1)
          & (nth 0 coef 0 =? nth 0 coef 1) = false]].
Proof. by do 3 eexists; vm_compute. Qed.

(** The results of a fit, as [fit_results] gives them. *)
Definition tabulated (rt : string) (names : seq string) (s' : state float) : Prop :=
  exists coef se st pv res,
    [/\ self_Beta_hat (st_self s') = Some coef,
        self_stdError (st_self s') = Some se,
        (if rt == "ols"%string then self_t_stat (st_self s')
         else self_zScores (st_self s')) = Some st,
        self_p_val (st_self s') = Some pv
      & [/\ self_results (st_self s') = Some res,
            keys res = names
          & forall i, (i < size names)%N ->
              dict_get res (nth ""%string names i) =
              Some [:: ("coefficient"%string, nth (I0 (np:=np64)) coef i);
                       ("standard_error"%string, nth (I0 (np:=np64)) se i);
                       (if rt == "ols"%string then "t_stat"%string
                        else "z_stat"%string, nth (I0 (np:=np64)) st i);
                       ("p_value"%string, nth (I0 (np:=np64)) pv i)]]].

Lemma fitted_ols :
  RegressionModel_new (np:=np64) (caller rows3 response3) 1%N 3%N true "ols" =
    (Ok tt, (RegressionModel_new (np:=np64) (caller rows3 response3) 1%N 3%N true "ols").2) /\
  fit_model (np:=np64) (sp:=Float64.scipy stalled)
    (RegressionModel_new (np:=np64) (caller rows3 response3) 1%N 3%N true "ols").2 =
    (Ok tt, fitted (caller rows3 response3) "ols").
Proof. by apply: fitted_run; vm_compute. Qed.

Lemma fitted_logit :
  RegressionModel_new (np:=np64) (caller rows3 binary3) 1%N 3%N true "logit" =
    (Ok tt, (RegressionModel_new (np:=np64) (caller rows3 binary3) 1%N 3%N true "logit").2) /\
  fit_model (np:=np64) (sp:=Float64.scipy stalled)
    (RegressionModel_new (np:=np64) (caller rows3 binary3) 1%N 3%N true "logit").2 =
    (Ok tt, fitted (caller rows3 binary3) "logit").
Proof. by apply: fitted_run; vm_compute. Qed.

Lemma fit_results_example :
  tabulated "ols" [:: "a"; "intercept"]%string (fitted (caller rows3 response3) "ols") /\
  tabulated "logit" [:: "a"; "intercept"]%string (fitted (caller rows3 binary3) "logit").
Proof.
have Hx Y : table (caller rows3 Y) 1%N [:: "a"%string] rows3 by exists 0%N.
have Hy Y : series (caller rows3 Y) 3%N "y"%string Y by exists 2%N.
split.
- case: fitted_ols => Hs Hf.
  exact: (fit_results (ci:=true) (Hx response3) (Hy response3) isT Hs Hf).
- case: fitted_logit => Hs Hf.
  exact: (fit_results (ci:=true) (Hx binary3) (Hy binary3) isT Hs Hf).
Defined.

(** A fit and a second fit agree on the three arrays. *)
Definition reproduced (s' : state float) : Prop :=
  exists coef se pv s'',
    [/\ fit_model (np:=np64) (sp:=Float64.scipy stalled) s' = (Ok tt, s''),
        self_Beta_hat (st_self s') = Some coef /\
        self_Beta_hat (st_self s'') = Some coef,
        self_stdError (st_self s') = Some se /\
        self_stdError (st_self s'') = Some se
      & self_p_val (st_self s') = Some pv /\
        self_p_val (st_self s'') = Some pv].

Lemma refit_reproduces_example :
  reproduced (fitted (caller rows3 response3) "ols") /\
  reproduced (fitted (caller rows3 binary3) "logit").
Proof.
have Hx Y : table (caller rows3 Y) 1%N [:: "a"%string] rows3 by exists 0%N.
have Hy Y : series (caller rows3 Y) 3%N "y"%string Y by exists 2%N.
split.
- case: fitted_ols => Hs Hf.
  case: (refit_reproduces (Hx response3) (Hy response3) Hs Hf)
    => coef [se [pv [[Hb Hse Hp] [s'' [Hf' Hb' Hse' Hp']] _ _]]].
  exists coef, se, pv, s''; split; [exact: Hf' | | |]; split; eassumption.
- case: fitted_logit => Hs Hf.
  case: (refit_reproduces (Hx binary3) (Hy binary3) Hs Hf)
    => coef [se [pv [[Hb Hse Hp] [s'' [Hf' Hb' Hse' Hp']] _ _]]].
  exists coef, se, pv, s''; split; [exact: Hf' | | |]; split; eassumption.
Defined.

End Doubles.

(** ** The profit function of the lesson *)

Section Profit.

Context {T : Type} {np : NumPy T}.

(** The literal [0.5]. *)
Variable lit_0_5 : T.
Local Open Scope np_scope.

(** [profit(q)] of the first cell. *)
Definition profit (q : T) : T :=
  let p := of_int 300 - lit_0_5 * q in
  let tr := p * q in
  let tc := of_int 4000 + of_int 45 * q in
  tr - tc.

(** [profit(q)] as redefined for [minimize]: minus the profit. *)
Definition neg_profit (q : T) : T :=
  let p := of_int 300 - lit_0_5 * q in
  let tr := p * q in
  let tc := of_int 4000 + of_int 45 * q in
  let pi := tr - tc in
  of_int (- 1)%R * pi.

End Profit.

Section ProfitExact.

Variable F : realFieldType.
Variables (exp log sqrt : F -> F).
Local Open Scope ring_scope.
Local Notation npx := (numpy_exact exp log sqrt).

Lemma profitE (q : F) :
  profit (np:=npx) 2^-1 q = 57025%:R / 2 - (q - 255) ^+ 2 / 2.
Proof. rewrite /profit /=. field. Qed.

Lemma neg_profitE (q : F) :
  neg_profit (np:=npx) 2^-1 q = (q - 255) ^+ 2 / 2 - 57025%:R / 2.
Proof. rewrite /neg_profit /=. field. Qed.

(** X1: the function handed to [minimize] has its least value, minus
    28512.5, at the quantity 255 and nowhere else. *)
Theorem neg_profit_minimum (q : F) :
  [/\ neg_profit (np:=npx) 2^-1 255 = - (57025%:R / 2),
      neg_profit (np:=npx) 2^-1 255 <= neg_profit (np:=npx) 2^-1 q
    & (neg_profit (np:=npx) 2^-1 q == neg_profit (np:=npx) 2^-1 255) = (q == 255)].
Proof.
rewrite !neg_profitE subrr expr0n /= mul0r sub0r; split=> //.
- by rewrite lerBrDr addNr divr_ge0 // sqr_ge0.
- rewrite -subr_eq0 opprK subrK mulf_eq0 invr_eq0 pnatr_eq0 orbF.
  by rewrite sqrf_eq0 subr_eq0.
Qed.

(** X2: the gradient by central differences is exact for the profit
    function: at [q] with any step [h] it is [255 - q]. *)
Theorem profit_central_difference (q h : F) :
  h != 0 ->
  (profit (np:=npx) 2^-1 (q + h) - profit (np:=npx) 2^-1 (q - h)) / (2 * h)
  = 255 - q.
Proof. by move=> Hh; rewrite !profitE; field. Qed.

End ProfitExact.

(** ** Runs with a known end *)

Section Ends.

Context {T : Type}.

Lemma wp_eq {A} (c : M T A) (r : outcome A) s s1 :
  wp c (fun a s' => r = Ok a /\ s' = s1) (fun e s' => r = Raise e /\ s' = s1) s ->
  c s = (r, s1).
Proof. by rewrite /wp; case: (c s) => [[a|e] s'] [-> ->]. Qed.

Lemma raises_getattr {A} (attr : RegressionModel T -> option A) name
    (Q : A -> state T -> Prop) (R : exn -> state T -> Prop) s :
  attr (st_self s) = None -> R (AttributeError name) s ->
  wp (getattr attr name) Q R s.
Proof. by rewrite /wp /getattr => ->. Qed.

Lemma wp_lift_eq {A} (o : outcome A) (Q : A -> state T -> Prop) R s :
  match o with Ok a => Q a s | Raise e => R e s end -> wp (lift o) Q R s.
Proof. by rewrite /wp /lift. Qed.

End Ends.

(** One step of a method that reads attributes of a known instance. *)
Ltac read_step :=
  cbn [st_heap st_self];
  match goal with
  | |- wp (bind _ _) _ _ _ => apply: wp_bind
  | |- wp (ret _) _ _ _ => apply: wp_ret
  | |- wp (setattr _) _ _ _ => apply: wp_setattr
  | |- wp (getattr _ _) _ _ _ =>
      first [ eapply returns_getattr; [eassumption |]
            | eapply raises_getattr; [eassumption |] ]
  | |- wp (deref _) _ _ _ => eapply returns_deref; [eassumption |]
  | |- wp (list_items _) _ _ _ => rewrite /list_items
  | |- wp (lift _) _ _ _ => apply: wp_lift_eq
  end.

(** ** The summaries

    [summary_ols] and [summary] build a frame of five columns and print
    it under a heading.  The value a method returns here stands for
    what it prints: the heading and the frame, whose rendering as text
    is pandas's. *)

Section Summaries.

Context {T : Type} {np : NumPy T} {sp : SciPy T}.
Implicit Types (s : state T) (X Y : seq (seq T)) (names : seq string).

(** The frame that [summary] and [summary_ols] build: the titles of
    its columns, its first column (titled "Variable name") of the
    design-matrix column names, and its columns of numbers.  Its index
    is pandas' default. *)
Record summary_frame := SummaryFrame {
  sf_titles : seq string;
  sf_names : seq string;
  sf_columns : seq (seq T)
}.

(** [pd.DataFrame({...})] of a column of names and columns of numbers:
    pandas refuses columns of different lengths. *)
Definition pd_DataFrame_of_dict (titles : seq string) names
    (cols : seq (seq T)) : outcome summary_frame :=
  if all (fun c => size c == size names) cols
  then Ok (SummaryFrame titles names cols)
  else Raise ValueError.

(** The text before the frame: a quote, a line break, the dashes, a
    line break, a quote. *)
Definition heading : string :=
  let q := String (Ascii.ascii_of_nat 34) EmptyString in
  let nl := String (Ascii.ascii_of_nat 10) EmptyString in
  (q ++ nl ++ "-------- Summary --------" ++ nl ++ q)%string.

Definition titles (stat : string) : seq string :=
  [:: "Variable name"; "coefficient value"; "standard error"; stat; "p-value"]%string.

Definition summary_ols : M T (string * summary_frame) :=
  let* xl := getattr (@self_x_list T) "x_list" in
  let* names := list_items xl in
  let* b := getattr (@self_Beta_hat T) "Beta_hat" in
  let* se := getattr (@self_stdError T) "stdError" in
  let* t := getattr (@self_t_stat T) "t_stat" in
  let* p := getattr (@self_p_val T) "p_val" in
  let* dfResults := lift (pd_DataFrame_of_dict (titles "t-statistic") names
                            [:: b; se; t; p]) in
  ret (heading, dfResults).

(** [summary]: for a family that is neither, [dfResults] is not bound
    when it is printed. *)
Definition summary : M T (string * summary_frame) :=
  let* rt := getattr (@self_regression_type T) "regression_type" in
  let* dfResults :=
    if rt == "logit"%string then
      let* xl := getattr (@self_x_list T) "x_list" in
      let* names := list_items xl in
      let* b := getattr (@self_Beta_hat T) "Beta_hat" in
      let* se := getattr (@self_stdError T) "stdError" in
      let* z := getattr (@self_zScores T) "zScores" in
      let* p := getattr (@self_p_val T) "p_val" in
      lift (pd_DataFrame_of_dict (titles "z-statistic") names [:: b; se; z; p])
    else
      let* rt := getattr (@self_regression_type T) "regression_type" in
      if rt == "ols"%string then
        let* xl := getattr (@self_x_list T) "x_list" in
        let* names := list_items xl in
        let* b := getattr (@self_Beta_hat T) "Beta_hat" in
        let* se := getattr (@self_stdError T) "stdError" in
        let* t := getattr (@self_t_stat T) "t_stat" in
        let* p := getattr (@self_p_val T) "p_val" in
        lift (pd_DataFrame_of_dict (titles "t-statistic") names [:: b; se; t; p])
      else raise (UnboundLocalError "dfResults") in
  ret (heading, dfResults).

(** An instance that no fit has touched. *)
Definition unfitted (m : RegressionModel T) : Prop :=
  [/\ self_Beta_hat m = None, self_stdError m = None, self_t_stat m = None,
      self_zScores m = None & self_p_val m = None /\ self_results m = None].

Lemma init_unfitted h x y ci rt cols X nm Y s :
  table h x cols X -> series h y nm Y ->
  RegressionModel_new h x y ci rt = (Ok tt, s) ->
  unfitted (st_self s).
Proof.
move=> Hx Hy Hs.
have Hrt : rt \in [:: "ols"; "logit"]%string.
  by case: (RegressionModel_new_ready Hx Hy Hs).
case: Hx Hy => [bx [Hx Hbx]] [b [Hy Hb]].
suff: returns (init (np:=np) x y ci rt) (fun _ s => unfitted (st_self s))
        (State h new_instance).
  by move/returnsP=> [[] [s0 []]]; rewrite -/(RegressionModel_new h x y ci rt) Hs => -[<-].
clear Hs; rewrite /returns /init /add_intercept /pd_DataFrame /len /shape
  /py_list /series_name /list_append /pd_DataFrame_of_list /pd_concat_axis1
  /reset_index /np_array /frame_columns Hrt.
by case: ci; run.
Qed.

(** The frame [summary] builds from a fitted instance. *)
Definition summary_of (rt : string) names (coef se st pv : seq T) :
    outcome (string * summary_frame) :=
  obind (pd_DataFrame_of_dict
           (titles (if rt == "ols"%string then "t-statistic"%string
                    else "z-statistic"%string))
           names [:: coef; se; st; pv])
        (fun dfResults => Ok (heading, dfResults)).

(** [summary] on an instance whose attributes are known. *)
Lemma summary_run h m rt l names coef se st pv :
  self_regression_type m = Some rt ->
  rt \in [:: "ols"; "logit"]%string ->
  self_x_list m = Some l -> read h l = Some (PyList names) ->
  self_Beta_hat m = Some coef -> self_stdError m = Some se ->
  (if rt == "ols"%string then self_t_stat m else self_zScores m) = Some st ->
  self_p_val m = Some pv ->
  summary (State h m) = (summary_of rt names coef se st pv, State h m).
Proof.
move=> Hrt Hin Hl Hrl Hb Hse Hst Hp; apply: wp_eq.
rewrite /summary; do 3 read_step.
move: Hin Hrt Hst; rewrite !inE => /orP [] /eqP -> Hrt Hst.
- rewrite (_ : ("ols" == "logit")%string = false) //.
  do 2 read_step.
  rewrite eqxx; repeat read_step.
  by rewrite /summary_of eqxx; case: (pd_DataFrame_of_dict _ _ _).
- rewrite eqxx; repeat read_step.
  rewrite /summary_of (_ : ("logit" == "ols")%string = false) //.
  by case: (pd_DataFrame_of_dict _ _ _).
Qed.

(** [summary_ols] reads the same attributes whatever the family. *)
Lemma summary_ols_run h m l names coef se st pv :
  self_x_list m = Some l -> read h l = Some (PyList names) ->
  self_Beta_hat m = Some coef -> self_stdError m = Some se ->
  self_t_stat m = Some st -> self_p_val m = Some pv ->
  summary_ols (State h m) = (summary_of "ols" names coef se st pv, State h m).
Proof.
move=> Hl Hrl Hb Hse Hst Hp; apply: wp_eq.
rewrite /summary_ols; repeat read_step.
by rewrite /summary_of eqxx; case: (pd_DataFrame_of_dict _ _ _).
Qed.

(** X3: after a construction and a fit that both returned, [summary] reads
    the names and the four arrays of the family, changes nothing, and
    prints the frame of these columns under the titles of the family,
    or raises the ValueError of pandas when their lengths differ; after
    a fit of family ols they never do. *)
Theorem summary_after_fit h x y ci rt cols X nm Y s s' :
  table h x cols X -> series h y nm Y ->
  RegressionModel_new h x y ci rt = (Ok tt, s) ->
  fit_model s = (Ok tt, s') ->
  exists coef se st pv,
    [/\ self_Beta_hat (st_self s') = Some coef,
        self_stdError (st_self s') = Some se,
        (if rt == "ols"%string then self_t_stat (st_self s')
         else self_zScores (st_self s')) = Some st,
        self_p_val (st_self s') = Some pv
      & summary s' = (summary_of rt (labels ci cols) coef se st pv, s') /\
        (rt = "ols"%string ->
         summary_of rt (labels ci cols) coef se st pv =
         Ok (heading, SummaryFrame (titles "t-statistic") (labels ci cols)
                                   [:: coef; se; st; pv]))].
Proof.
move=> Hx Hy Hs Hfit.
case: (RegressionModel_new_ready Hx Hy Hs) => Hrt Hr.
have [l [Hl Hrl]] := ready_x_list Hr.
have Hty := ready_regression_type Hr.
move: (Hrt) Hr Hty Hfit; rewrite !inE => /orP [] /eqP Ert; rewrite {}Ert in Hrt * => Hr Hty.
- rewrite (fit_model_ols Hr) => /(ols_regression_inv Hr) [e He ->].
  case: (ols_estimates_table He) => Hb Hse Ht Hp _.
  exists (ols_Beta_hat e), (ols_stdError e), (ols_t_stat e), (ols_p_val e).
  split=> //; split.
    exact: (summary_run (rt:="ols") (l:=l) (names:=labels ci cols)).
  by rewrite /summary_of /pd_DataFrame_of_dict /= Hb Hse Ht Hp !eqxx.
- rewrite (fit_model_logit Hr) => /(logistic_regression_inv Hr) [e He ->].
  exists (res_x (logit_res e)), (logit_stdError e), (logit_zScores e),
         (logit_p_val e).
  split=> //; split; last by [].
  exact: (summary_run (rt:="logit") (l:=l) (names:=labels ci cols)).
Qed.

(** X4: before any fit, [summary] raises the AttributeError of the first
    array it reads, and changes nothing. *)
Theorem summary_before_fit h x y ci rt cols X nm Y s :
  table h x cols X -> series h y nm Y ->
  RegressionModel_new h x y ci rt = (Ok tt, s) ->
  summary s = (Raise (AttributeError "Beta_hat"), s).
Proof.
move=> Hx Hy Hs.
case: (RegressionModel_new_ready Hx Hy Hs) => Hrt Hr.
have [l [Hl Hrl]] := ready_x_list Hr.
have Hty := ready_regression_type Hr.
case: (init_unfitted Hx Hy Hs) => Hb _ _ _ _.
case: s Hl Hrl Hty Hb {Hs Hr} => hs m /= Hl Hrl Hty Hb.
apply: wp_eq; rewrite /summary; do 3 read_step.
move: Hrt Hty; rewrite !inE => /orP [] /eqP -> Hty.
- rewrite (_ : ("ols" == "logit")%string = false) //.
  by do 2 read_step; rewrite eqxx; repeat read_step.
- by rewrite eqxx; repeat read_step.
Qed.

(** X5: after a fit of family logit, [summary_ols] raises the
    AttributeError of [t_stat], which only a fit of family ols
    assigns. *)
Theorem summary_ols_after_logit_fit h x y ci cols X nm Y s s' :
  table h x cols X -> series h y nm Y ->
  RegressionModel_new h x y ci "logit" = (Ok tt, s) ->
  fit_model s = (Ok tt, s') ->
  summary_ols s' = (Raise (AttributeError "t_stat"), s').
Proof.
move=> Hx Hy Hs Hfit.
case: (RegressionModel_new_ready Hx Hy Hs) => Hrt Hr.
have [l [Hl Hrl]] := ready_x_list Hr.
case: (init_unfitted Hx Hy Hs) => _ _ Ht _ _.
move: Hfit; rewrite (fit_model_logit Hr) => /(logistic_regression_inv Hr) [e He ->].
have Hb : self_Beta_hat (install_logit e (st_self s)) = Some (res_x (logit_res e)) by [].
have Hse : self_stdError (install_logit e (st_self s)) = Some (logit_stdError e) by [].
have Ht' : self_t_stat (install_logit e (st_self s)) = None by [].
have Hl' : self_x_list (install_logit e (st_self s)) = Some l by [].
move: (install_logit _ _) Hb Hse Ht' Hl' => m Hb Hse Ht' Hl'.
by apply: wp_eq; rewrite /summary_ols; repeat read_step.
Qed.

(** X6: after a fit of family ols, [summary_ols] and [summary] print the
    same frame: the statistic is titled "t-statistic" and the column
    "Variable name" holds the design-matrix column names. *)
Theorem summary_ols_is_summary h x y ci cols X nm Y s s' :
  table h x cols X -> series h y nm Y ->
  RegressionModel_new h x y ci "ols" = (Ok tt, s) ->
  fit_model s = (Ok tt, s') ->
  summary_ols s' = summary s' /\
  exists frame, summary s' = (Ok (heading, frame), s') /\
                sf_titles frame = titles "t-statistic" /\
                sf_names frame = labels ci cols.
Proof.
move=> Hx Hy Hs Hfit.
case: (RegressionModel_new_ready Hx Hy Hs) => Hrt Hr.
have [l [Hl Hrl]] := ready_x_list Hr.
have Hty := ready_regression_type Hr.
move: Hfit; rewrite (fit_model_ols Hr) => /(ols_regression_inv Hr) [e He ->].
case: (ols_estimates_table He) => Hb Hse Ht Hp _.
rewrite (summary_ols_run (l:=l) (names:=labels ci cols) (coef:=ols_Beta_hat e)
           (se:=ols_stdError e) (st:=ols_t_stat e) (pv:=ols_p_val e)) //.
rewrite (summary_run (rt:="ols") (l:=l) (names:=labels ci cols)
           (coef:=ols_Beta_hat e) (se:=ols_stdError e) (st:=ols_t_stat e)
           (pv:=ols_p_val e)) //.
split=> //; rewrite /summary_of /pd_DataFrame_of_dict /= Hb Hse Ht Hp !eqxx /=.
by eexists; split; first by reflexivity.
Qed.

End Summaries.

(** ** Construction and fit: errors and what they leave *)

Section Behaviour.

Context {T : Type} {np : NumPy T} {sp : SciPy T}.
Implicit Types (s : state T) (h : heap T) (X Y : seq (seq T)) (names : seq string).

(** X7: a family other than the two is refused with a RuntimeError, after
    the data and its sizes were stored and before anything else is. *)
Theorem init_rejects_family h x y ci rt cols X nm Y :
  table h x cols X -> series h y nm Y ->
  rt \notin [:: "ols"; "logit"]%string ->
  exists s,
    [/\ RegressionModel_new h x y ci rt =
          (Raise (RuntimeError "Enter ols or logit to processed"), s),
        self_num_obs (st_self s) = Some (size X),
        self_num_vars (st_self s) = Some (size cols),
        self_regression_type (st_self s) = None
      & self_x_list (st_self s) = None /\ self_x1 (st_self s) = None].
Proof.
move=> [bx [Hx Hbx]] [b [Hy Hb]] /negbTE Hrt.
suff: wp (init (np:=np) x y ci rt) (fun _ _ => False)
        (fun e s => [/\ e = RuntimeError "Enter ols or logit to processed",
           self_num_obs (st_self s) = Some (size X),
           self_num_vars (st_self s) = Some (size cols),
           self_regression_type (st_self s) = None
         & self_x_list (st_self s) = None /\ self_x1 (st_self s) = None])
        (State h new_instance).
  rewrite /wp /RegressionModel_new; case: (init _ _ _ _ _) => [[[]|e] s] //.
  by case=> -> *; exists s.
rewrite /init /pd_DataFrame /len /shape /np_array Hrt.
by run; apply: wp_raise.
Qed.

(** X8: a series given for the table of regressors is refused with the
    ValueError of unpacking its one-dimensional shape. *)
Theorem init_rejects_series h x y ci rt nm Y nm' Y' :
  series h x nm' Y' -> series h y nm Y ->
  exists s,
    RegressionModel_new h x y ci rt = (Raise ValueError, s) /\
    self_num_obs (st_self s) = Some (size Y') /\
    self_num_vars (st_self s) = None.
Proof.
move=> [bx [Hx Hbx]] [b [Hy Hb]].
suff: wp (init (np:=np) x y ci rt) (fun _ _ => False)
        (fun e s => [/\ e = ValueError,
           self_num_obs (st_self s) = Some (size Y')
         & self_num_vars (st_self s) = None])
        (State h new_instance).
  rewrite /wp /RegressionModel_new; case: (init _ _ _ _ _) => [[[]|e] s] //.
  by case=> -> *; exists s.
rewrite /init /pd_DataFrame /len /shape /np_array.
by run; apply: wp_raise.
Qed.

(** X9: for a caller's table and series with the default index, as the
    frames of this heap have: with an intercept, the instance holds the
    caller's rows, each followed by 1, under the caller's column names
    followed by "intercept"; [self.y] is the caller's series itself. *)
Theorem construction_with_intercept h x y rt cols X nm Y :
  table h x cols X -> series h y nm Y ->
  rt \in [:: "ols"; "logit"]%string ->
  exists s,
    [/\ RegressionModel_new h x y true rt = (Ok tt, s),
        self_x1 (st_self s) = Some [seq rcons r I1 | r <- X],
        self_num_obs (st_self s) = Some (size X) /\
        self_num_vars (st_self s) = Some (size cols).+1,
        exists2 l, self_x_list (st_self s) = Some l
                 & read (st_heap s) l = Some (PyList (rcons cols "intercept"%string))
      & self_y (st_self s) = Some y /\ self_y_label (st_self s) = Some nm].
Proof.
move=> [bx [Hx Hbx]] [b [Hy Hb]] Hrt.
suff: returns (init (np:=np) x y true rt)
        (fun _ s =>
           [/\ self_x1 (st_self s) = Some [seq rcons r (I1 (np:=np)) | r <- X],
               self_num_obs (st_self s) = Some (size X) /\
               self_num_vars (st_self s) = Some (size cols).+1,
               exists2 l, self_x_list (st_self s) = Some l
                 & read (st_heap s) l = Some (PyList (rcons cols "intercept"%string))
             & self_y (st_self s) = Some y /\ self_y_label (st_self s) = Some nm])
        (State h new_instance).
  by move/returnsP=> [[] [s [Hs [H1 H2 H3 H4]]]]; exists s.
rewrite /returns /init /add_intercept /pd_DataFrame /len /shape /py_list
  /series_name /list_append /pd_DataFrame_of_list /pd_concat_axis1
  /reset_index /np_array /frame_columns Hrt.
run; rewrite ?cats1; split; cbn [st_heap st_self].
- by rewrite /= -with_interceptE.
- by rewrite /= size_rcons.
- by eexists; [reflexivity | lookup].
- by [].
Qed.

(** X10: when the minimizer raises, the fit of family logit raises the same
    exception and the instance is as it was. *)
Theorem logit_fit_minimizer_raises s names X Y ex :
  Ready s names X Y "logit" ->
  minimize (fun b => loglike b Y X) (np_full (size names) lit_0_1) = Raise ex ->
  fit_model s = (Raise ex, s).
Proof.
move=> Hr Hmin; rewrite (fit_model_logit Hr).
case: Hr => [[lx [Hlx [bx [Hrx Hbx]]]] [ly [nm [Hly [b [Hry Hb]]]]] _ _ _ _ Hk _].
apply: wp_eq; rewrite /logistic_regression /np_array; repeat read_step.
by rewrite Hmin; case: s {Hlx Hrx Hbx Hly Hry Hb Hk}.
Qed.

(** X11: a fit that returns leaves the heap of frames, series, blocks
    and lists as it was, adding no object to it (the arrays and the
    dict it builds are values of attributes), and leaves what
    construction stored: the frames, the names, the matrices, the
    sizes, the family and the caller's series. *)
Theorem fit_keeps_construction s names X Y rt s' :
  Ready s names X Y rt -> fit_model s = (Ok tt, s') ->
  [/\ st_heap s' = st_heap s, Ready s' names X Y rt,
      self_y (st_self s') = self_y (st_self s)
    & self_y_label (st_self s') = self_y_label (st_self s)].
Proof.
move=> Hr; have Hrt := ready_regression_type Hr.
rewrite /fit_model {1}/bind /getattr Hrt.
case Eo: (rt == "ols"%string).
  move=> /(ols_regression_inv Hr) [e He ->].
  by split=> //; apply: Ready_install_ols.
case El: (rt == "logit"%string); last by case=> <-.
move=> /(logistic_regression_inv Hr) [e He ->].
by split=> //; apply: Ready_install_logit.
Qed.

(** The standard errors of a fit of family logit, as a function of the
    data alone. *)
Definition logit_stdError_of X Y (num_obs : nat) : outcome (seq T) :=
  let shat2 := (of_int (Posz num_obs) * np_mean Y * (I1 - np_mean Y))%np in
  obind (matmul (transpose X) X) (fun xt_x =>
  obind (np_linalg_inv xt_x) (fun i =>
  Ok [seq np_sqrt a | a <- np_diag (smul shat2 i)])).

Lemma logit_estimates_stdError names X Y n k e :
  logit_estimates names X Y n k = Ok e ->
  logit_stdError_of X Y n = Ok (logit_stdError e).
Proof.
rewrite /logit_estimates /logit_stdError_of.
case: (minimize _ _) => [res|ex] //=.
do 4 (match goal with |- obind ?c _ = Ok _ -> _ => case: c => [?|?] //= end).
by case=> <-.
Qed.

End Behaviour.

Section Points.

Context {T : Type} {np : NumPy T}.
Variables (student_sf : T -> int -> T) (normal_sf : T -> T).
Implicit Types (s : state T) (X Y : seq (seq T)) (names : seq string).

Local Notation scipy_with m := (Build_SciPy m student_sf normal_sf).

(** X12: the standard errors of a fit of family logit do not depend on the
    point the minimizer returns: they are computed from the data
    alone. *)
Theorem logit_stdError_ignores_point m1 m2 s names X Y s1 s2 :
  Ready s names X Y "logit" ->
  fit_model (sp:=scipy_with m1) s = (Ok tt, s1) ->
  fit_model (sp:=scipy_with m2) s = (Ok tt, s2) ->
  self_stdError (st_self s1) = self_stdError (st_self s2) /\
  exists2 se, logit_stdError_of X Y (size X) = Ok se
            & self_stdError (st_self s1) = Some se.
Proof.
move=> Hr; rewrite !(fit_model_logit Hr).
move=> /(logistic_regression_inv Hr) [e1 /logit_estimates_stdError H1 ->].
move=> /(logistic_regression_inv Hr) [e2 /logit_estimates_stdError H2 ->] /=.
move: H2; rewrite H1 => -[->]; split=> //.
by exists (logit_stdError e2).
Qed.

End Points.

(** ** Singular designs and residuals, in exact arithmetic *)

Section ExactBehaviour.

Variable F : realFieldType.
Variables (exp log sqrt : F -> F).
Variable minimizer :
  (seq F -> outcome F) -> seq F -> outcome (OptimizeResult F).
Variables (student_sf : F -> int -> F) (Phi : F -> F).
Local Open Scope ring_scope.
Local Notation npx := (numpy_exact exp log sqrt).
Local Notation spx := (scipy_exact minimizer student_sf Phi).
Local Existing Instance numpy_exact.
Local Existing Instance scipy_exact.

Implicit Types (X Y : seq (seq F)) (cols : seq string).

(** An OLS fit runs to its end when [X^T X] has an inverse. *)
Lemma ols_fit_run h x y ci cols X nm Y n k :
  dataset h x y ci cols X nm Y n k ->
  (design_mx exp log sqrt ci X n k)^T *m design_mx exp log sqrt ci X n k \in unitmx ->
  exists s s',
    RegressionModel_new (np:=npx) h x y ci "ols"%string = (Ok tt, s) /\
    fit_model (np:=npx) (sp:=spx) s = (Ok tt, s').
Proof.
move=> Hd Hu.
case: (dataset_ready exp log sqrt (rt:="ols"%string) Hd) => // s [Hs Hr Hk].
have He := ols_estimates_exact exp log sqrt minimizer student_sf Phi
             (response_mx Y n) (ds_obs Hd) (ds_vars Hd) Hk Hu.
exists s; eexists; split; first exact: Hs.
by rewrite (fit_model_ols Hr); apply: (ols_regression_ok Hr He).
Qed.

(** X13: when [X^T X] has no inverse, the fit of family ols raises the
    LinAlgError of [np.linalg.inv] from [inver], before anything is
    assigned: the instance is as construction left it. *)
Theorem ols_fit_singular h x y ci cols X nm Y n k :
  dataset h x y ci cols X nm Y n k ->
  (design_mx exp log sqrt ci X n k)^T *m design_mx exp log sqrt ci X n k
    \notin unitmx ->
  exists s,
    RegressionModel_new (np:=npx) h x y ci "ols"%string = (Ok tt, s) /\
    fit_model (np:=npx) (sp:=spx) s = (Raise LinAlgError, s).
Proof.
move=> Hd /negbTE Hu.
case: (dataset_ready exp log sqrt (rt:="ols"%string) Hd) => // s [Hs Hr Hk].
exists s; split=> //; rewrite (fit_model_ols Hr).
have Hx1 := ready_x1 Hr; have Hy1 := ready_y1 Hr.
have Hn := ds_obs Hd; have Hk0 := ds_vars Hd.
apply: wp_eq; rewrite /ols_regression /BetaHat /inver.
do 5 read_step; rewrite transposeE // matmulE //.
do 4 read_step; rewrite matmulE //.
do 2 read_step; rewrite /= inv_exactE Hu.
by case: s {Hs Hr Hx1 Hy1}.
Qed.

(** X14: when [X^T X] has no inverse, the fit of family logit raises the
    LinAlgError after the minimizer has run: the point it returned is
    left in [self.Beta_hat], and nothing else is assigned. *)
Theorem logit_fit_singular_keeps_point h x y ci cols X nm Y n k res :
  dataset h x y ci cols X nm Y n k ->
  (design_mx exp log sqrt ci X n k)^T *m design_mx exp log sqrt ci X n k
    \notin unitmx ->
  minimizer (fun b => loglike (np:=npx) b Y (design (np:=npx) ci X))
            (nseq k (10%:R^-1)) = Ok res ->
  exists s,
    RegressionModel_new (np:=npx) h x y ci "logit"%string = (Ok tt, s) /\
    fit_model (np:=npx) (sp:=spx) s =
    (Raise LinAlgError,
     State (st_heap s) (set_Beta_hat (res_x res) (st_self s))).
Proof.
move=> Hd /negbTE Hu Hmin.
case: (dataset_ready exp log sqrt (rt:="logit"%string) Hd) => // s [Hs Hr Hk].
have HX : of_mx (design_mx exp log sqrt ci X n k) = design (np:=npx) ci X.
  by rewrite /design_mx to_mxK // (ds_columns Hd) shaped_design // (ds_rows Hd).
have HY : of_mx (response_mx Y n) = Y.
  by rewrite /response_mx to_mxK // (ds_response Hd).
exists s; split=> //; rewrite (fit_model_logit Hr).
have Hn := ds_obs Hd; have Hk0 := ds_vars Hd.
case: Hr => [[lx [Hlx [bx [Hrx Hbx]]]] [ly [nm' [Hly [b [Hry Hb]]]]] _ _ _ Hno Hnv _].
rewrite HY in Hb.
apply: wp_eq; rewrite /logistic_regression /np_array.
repeat read_step.
rewrite /= Hk {1}HX Hmin.
repeat read_step.
rewrite transposeE // matmulE //.
by repeat read_step; rewrite /= inv_exactE Hu.
Qed.

(** The last column of a design matrix built with an intercept is the
    constant 1. *)
Lemma design_mx_intercept cols X n (i : 'I_n) :
  shaped n (size cols) X ->
  design_mx exp log sqrt true X n (size cols).+1 i ord_max = 1.
Proof.
case/andP=> /eqP Hn /allP Hrow.
rewrite /design_mx mxE /= with_interceptE.
have Hi : (i < size X)%N by rewrite Hn.
rewrite (nth_map [::]) // nth_rcons.
have /eqP -> : size (nth [::] X i) == size cols by apply: Hrow; apply: mem_nth.
by rewrite ltnn eqxx /I1 /= .
Qed.

(** The normal equations, as the residual sees them. *)
Lemma ols_residual_orthogonal n k (Xm : 'M[F]_(n, k)) (Ym : 'M[F]_(n, 1)) :
  Xm^T *m Xm \in unitmx ->
  Xm^T *m (Ym - Xm *m ols_beta Xm Ym) = 0.
Proof.
by move=> Hu; rewrite mulmxBr /ols_beta !mulmxA mulmxV // mul1mx subrr.
Qed.

Lemma ols_residual_sum n k (Xm : 'M[F]_(n, k.+1)) (Ym : 'M[F]_(n, 1)) :
  Xm^T *m Xm \in unitmx -> (forall i, Xm i ord_max = 1) ->
  \sum_(i < n) (Ym i ord0 - \sum_(j < k.+1) Xm i j * ols_beta Xm Ym j ord0) = 0.
Proof.
move=> Hu Hones; have := ols_residual_orthogonal Ym Hu.
move/matrixP/(_ ord_max ord0); rewrite !mxE => H; rewrite -[RHS]H.
by apply: eq_bigr => i _; rewrite !mxE Hones mul1r.
Qed.

(** X15: with an intercept, the residuals of the fitted coefficients sum to
    zero. *)
Theorem ols_residuals_sum_to_zero h x y cols X nm Y n :
  dataset h x y true cols X nm Y n (size cols).+1 ->
  let Xm := design_mx exp log sqrt true X n (size cols).+1 in
  let Ym := response_mx Y n in
  Xm^T *m Xm \in unitmx ->
  exists s s' b,
    [/\ RegressionModel_new (np:=npx) h x y true "ols"%string = (Ok tt, s),
        fit_model (np:=npx) (sp:=spx) s = (Ok tt, s'),
        self_Beta_hat (st_self s') = Some b
      & \sum_(i < n) (Ym i ord0 - \sum_(j < (size cols).+1) Xm i j * nth 0 b j) = 0].
Proof.
move=> Hd Xm Ym Hu.
case: (dataset_ready exp log sqrt (rt:="ols"%string) Hd) => // s [Hs Hr Hk].
have He := ols_estimates_exact exp log sqrt minimizer student_sf Phi Ym
             (ds_obs Hd) (ds_vars Hd) Hk Hu.
exists s; eexists.
exists [seq ols_beta Xm Ym j ord0 | j <- enum 'I_(size cols).+1].
split; first exact: Hs.
- by rewrite (fit_model_ols Hr); apply: (ols_regression_ok Hr He).
- by [].
- have Hones : forall i, Xm i ord_max = 1.
    by move=> i; apply: design_mx_intercept; exact: (ds_rows Hd).
  rewrite -[RHS](ols_residual_sum Ym Hu Hones).
  apply: eq_big => // i _; congr (_ - _); apply: eq_big => // j _; congr (_ * _).
  by rewrite (nth_map j) ?size_enum_ord // nth_ord_enum.
Qed.

End ExactBehaviour.

(** ** Column names that repeat *)

Section Overwrite.

Variables (V A : Type) (f : A -> string) (g : A -> V).
Implicit Types (d : dict V) (es : seq A) (k : string).

Lemma dict_get_set d k v k' :
  dict_get (dict_set d k v) k' = if k == k' then Some v else dict_get d k'.
Proof.
elim: d => [|e d IH] //=.
case: (e.1 =P k) => [->|Hek] /=; first by case: ifP.
rewrite IH; case: (k =P k') => [Hk|//].
by case: eqP => // He; case: Hek; rewrite He Hk.
Qed.

(** Looking a key up after a loop of assignments: the last assignment
    to that key, if any. *)
Lemma dict_get_foldl es d k :
  dict_get (foldl (fun d e => dict_set d (f e) (g e)) d es) k =
  foldl (fun acc e => if f e == k then Some (g e) else acc) (dict_get d k) es.
Proof. by elim: es d => [|e es IH] d //=; rewrite IH dict_get_set. Qed.

Lemma foldl_other es k (a : option V) :
  all (fun e => f e != k) es ->
  foldl (fun acc e => if f e == k then Some (g e) else acc) a es = a.
Proof. by elim: es a => [|e es IH] a //= /andP [/negbTE -> /IH]. Qed.

Lemma foldl_last es k (a : option V) e0 i :
  i < size es -> f (nth e0 es i) = k ->
  (forall j, i < j < size es -> f (nth e0 es j) != k) ->
  foldl (fun acc e => if f e == k then Some (g e) else acc) a es =
  Some (g (nth e0 es i)).
Proof.
elim: es a i => [|e es IH] a [|i] //=.
- move=> _ -> Hlast; rewrite eqxx foldl_other //.
  apply/(all_nthP e0) => j Hj.
  by apply: (Hlast j.+1).
- rewrite ltnS => Hi Hk Hlast; apply: IH => // j Hj.
  by apply: (Hlast j.+1).
Qed.

End Overwrite.

Section Repeats.

Context {T : Type} {np : NumPy T} {sp : SciPy T}.
Implicit Types (s : state T) (X Y : seq (seq T)) (names : seq string).

Lemma ols_table_last names (b se t p : seq T) i :
  size b = size names -> size se = size names ->
  size t = size names -> size p = size names ->
  i < size names ->
  (forall j, i < j < size names ->
     nth ""%string names j != nth ""%string names i) ->
  dict_get (ols_table names b se t p) (nth ""%string names i) =
  Some (record "t_stat" (nth I0 b i) (nth I0 se i) (nth I0 t i) (nth I0 p i)).
Proof.
move=> Hb Hse Ht Hp Hi Hlast.
set rows := zip names (zip b (zip se (zip t p))).
have Hsz : size rows = size names.
  by rewrite /rows !size_zip Hb Hse Ht Hp !minnn.
have Hnth j : j < size names ->
    nth (""%string, (I0, (I0, (I0, I0)))) rows j =
    (nth ""%string names j, (nth I0 b j, (nth I0 se j, (nth I0 t j, nth I0 p j)))).
  by move=> Hj; rewrite /rows !nth_zip ?size_zip ?Hb ?Hse ?Ht ?Hp ?minnn.
rewrite /ols_table -/rows
  (dict_get_foldl (fun r => r.1)
     (fun r => record "t_stat" r.2.1 r.2.2.1 r.2.2.2.1 r.2.2.2.2)) /=.
rewrite (@foldl_last _ _ _ _ _ _ _ (""%string, (I0, (I0, (I0, I0)))) i) ?Hsz //.
- by rewrite Hnth.
- by move=> j Hj; rewrite Hnth /=; [case/andP: Hj | exact: Hlast].
- by rewrite Hnth.
Qed.

Lemma logit_rows_last names (b se z p : seq T) i :
  i < size names ->
  (forall j, i < j < size names ->
     nth ""%string names j != nth ""%string names i) ->
  dict_get (foldl (fun d r => dict_set d r.2 (logit_row b se z p r).2) [::]
                  (enumerate names))
           (nth ""%string names i) =
  Some (record "z_stat" (nth I0 b i) (nth I0 se i) (nth I0 z i) (nth I0 p i)).
Proof.
move=> Hi Hlast.
have Hsz : size (enumerate names) = size names.
  by rewrite /enumerate size_zip size_iota minnn.
have Hnth j : j < size names ->
    nth (0, ""%string) (enumerate names) j = (j, nth ""%string names j).
  by move=> Hj; rewrite /enumerate nth_zip ?size_iota // nth_iota.
rewrite (dict_get_foldl (fun r : nat * string => r.2)
           (fun r => (logit_row b se z p r).2)) /=.
rewrite (@foldl_last _ _ _ _ _ _ _ (0, ""%string) i) ?Hsz //.
- by rewrite Hnth.
- by move=> j Hj; rewrite Hnth /=; [case/andP: Hj | exact: Hlast].
- by rewrite Hnth.
Qed.

(** X16: when a column name occurs more than once, the entry under that
    name holds the values of its last column: for a column [i] whose
    name no later column bears, the record under the name is that of
    index [i]. *)
Theorem fit_results_last_wins h x y ci rt cols X nm Y s s' i :
  table h x cols X -> series h y nm Y ->
  RegressionModel_new h x y ci rt = (Ok tt, s) ->
  fit_model s = (Ok tt, s') ->
  i < size (labels ci cols) ->
  (forall j, i < j < size (labels ci cols) ->
     nth ""%string (labels ci cols) j != nth ""%string (labels ci cols) i) ->
  exists coef se st pv res,
    [/\ self_Beta_hat (st_self s') = Some coef,
        self_stdError (st_self s') = Some se,
        (if rt == "ols"%string then self_t_stat (st_self s')
         else self_zScores (st_self s')) = Some st,
        self_p_val (st_self s') = Some pv
      & self_results (st_self s') = Some res /\
        dict_get res (nth ""%string (labels ci cols) i) =
        Some [:: ("coefficient"%string, nth I0 coef i);
                 ("standard_error"%string, nth I0 se i);
                 (if rt == "ols"%string then "t_stat"%string
                  else "z_stat"%string, nth I0 st i);
                 ("p_value"%string, nth I0 pv i)]].
Proof.
move=> Hx Hy Hs Hfit Hi Hlast.
case: (RegressionModel_new_ready Hx Hy Hs) => Hrt Hr.
move: Hrt Hr Hfit; rewrite !inE => /orP [] /eqP -> Hr.
- rewrite (fit_model_ols Hr) => /(ols_regression_inv Hr) [e He ->].
  case: (ols_estimates_table He) => Hb Hse Ht Hp Hres.
  exists (ols_Beta_hat e), (ols_stdError e), (ols_t_stat e), (ols_p_val e),
         (ols_results e).
  by split=> //=; split; rewrite //= Hres ols_table_last.
- rewrite (fit_model_logit Hr) => /(logistic_regression_inv Hr) [e He ->].
  have Hres := logit_estimates_table He.
  exists (res_x (logit_res e)), (logit_stdError e), (logit_zScores e),
         (logit_p_val e), (logit_results e).
  by split=> //=; split; rewrite //= Hres logit_rows_last.
Qed.

End Repeats.

(** ** More runs of the exact model *)

Module Cases.

Import Order.TTheory Example.
Local Open Scope ring_scope.

(** A regressor that is constantly zero, and one that is not
    constant. *)
Definition X0 : seq (seq rat) := [:: [:: 0]; [:: 0]].
Definition X3 : seq (seq rat) := [:: [:: 0]; [:: 1]].

Lemma dataset0 :
  dataset (caller X0 Y2) 1 3 false [:: "a"%string] X0 "y"%string Y2 2 1.
Proof. by split=> //; [exists 0%N | exists 2%N]. Qed.

Lemma dataset3 :
  dataset (caller X3 Y2) 1 3 true [:: "a"%string] X3 "y"%string Y2 2 2.
Proof. by split=> //; [exists 0%N | exists 2%N]. Qed.

Lemma singular0 :
  (design_mx exp log sqrt false X0 2 1)^T *m design_mx exp log sqrt false X0 2 1
    \notin unitmx.
Proof.
by rewrite unitmxE det_mx11 mxE !big_ord_recl big_ord0 !mxE /=.
Qed.

Lemma unit3 :
  (design_mx exp log sqrt true X3 2 2)^T *m design_mx exp log sqrt true X3 2 2
    \in unitmx.
Proof.
pose B : 'M[rat]_2 := \matrix_(i, j) nth 0 (nth [::] [:: [:: 2%:R; -1]; [:: -1; 1]] i) j.
suff /mulmx1_unit [] : (design_mx exp log sqrt true X3 2 2)^T
                         *m design_mx exp log sqrt true X3 2 2 *m B = 1%:M by [].
apply/matrixP=> i j; rewrite !mxE !big_ord_recl big_ord0.
rewrite !mxE !big_ord_recl !big_ord0 !mxE /=.
by case: i => [[|[|i]] Hi] //; case: j => [[|[|j]] Hj].
Qed.

(** The OLS fit on the example of two observations runs to its end. *)
Lemma ols_run2 :
  exists s s',
    RegressionModel_new (np:=np) (caller X2 Y2) 1 3 false "ols"%string = (Ok tt, s) /\
    fit_model (np:=np) (sp:=sp) s = (Ok tt, s').
Proof. exact: (ols_fit_run minimizer student_sf Phi dataset2 unit2). Qed.

Lemma profit_central_difference_example :
  (profit (np:=np) 2^-1 (200%:R + 1) - profit (np:=np) 2^-1 (200%:R - 1)) / (2 * 1)
  = 255 - 200%:R :> rat.
Proof. exact: (profit_central_difference exp log sqrt (200%:R : rat) (oner_neq0 _)). Defined.

Lemma summary_after_fit_example :
  exists (s' : state rat) coef se st pv,
    summary s' = (summary_of "logit" [:: "a"%string] coef se st pv, s').
Proof.
case: logit_run2 => s [s' [Hs Hf]].
case: (summary_after_fit (ci:=false) (ds_table dataset2) (ds_series dataset2) Hs Hf)
  => coef [se [st [pv [_ _ _ _ [H _]]]]].
by exists s', coef, se, st, pv.
Defined.

Lemma summary_before_fit_example :
  exists s : state rat,
    RegressionModel_new (np:=np) (caller X2 Y2) 1 3 false "ols"%string = (Ok tt, s) /\
    summary s = (Raise (AttributeError "Beta_hat"), s).
Proof.
case: ols_run2 => s [_ [Hs _]]; exists s; split=> //.
exact: (summary_before_fit (ds_table dataset2) (ds_series dataset2) Hs).
Defined.

Lemma summary_ols_after_logit_fit_example :
  exists s' : state rat, summary_ols s' = (Raise (AttributeError "t_stat"), s').
Proof.
case: logit_run2 => s [s' [Hs Hf]]; exists s'.
exact: (summary_ols_after_logit_fit (ds_table dataset2) (ds_series dataset2) Hs Hf).
Defined.

Lemma summary_ols_is_summary_example :
  exists s' : state rat, summary_ols s' = summary s'.
Proof.
case: ols_run2 => s [s' [Hs Hf]]; exists s'.
by case: (summary_ols_is_summary (ds_table dataset2) (ds_series dataset2) Hs Hf).
Defined.

Lemma init_rejects_family_example :
  exists s : state rat,
    RegressionModel_new (np:=np) (caller X2 Y2) 1 3 true "probit"%string =
    (Raise (RuntimeError "Enter ols or logit to processed"), s).
Proof.
case: (init_rejects_family (np:=np) true (rt:="probit"%string)
         (ds_table dataset2) (ds_series dataset2) isT) => s [Hs _ _ _ _].
by exists s.
Defined.

Lemma init_rejects_series_example :
  exists s : state rat,
    RegressionModel_new (np:=np) (caller X2 Y2) 3 3 true "ols"%string =
    (Raise ValueError, s).
Proof.
case: (init_rejects_series (np:=np) true "ols"%string
         (ds_series dataset2) (ds_series dataset2)) => s [Hs _].
by exists s.
Defined.

Lemma construction_with_intercept_example :
  exists s : state rat,
    RegressionModel_new (np:=np) (caller X3 Y2) 1 3 true "ols"%string = (Ok tt, s) /\
    self_x1 (st_self s) = Some [:: [:: 0; I1 (np:=np)]; [:: 1; I1 (np:=np)]].
Proof.
case: (construction_with_intercept (np:=np) (rt:="ols"%string)
         (ds_table dataset3) (ds_series dataset3) isT) => s [Hs Hx1 _ _ _].
by exists s; split; [exact: Hs | exact: Hx1].
Defined.

Lemma logit_fit_minimizer_raises_example :
  exists s : state rat,
    fit_model (np:=np)
      (sp:=scipy_exact (fun _ _ => Raise ValueError) student_sf Phi) s
    = (Raise ValueError, s).
Proof.
case: (init_ready (np:=np) false (ds_table dataset2) (ds_series dataset2)
         (rt:="logit"%string) isT) => s [Hs Hr].
exists s.
exact: (logit_fit_minimizer_raises
          (sp:=scipy_exact (fun _ _ => Raise ValueError) student_sf Phi) Hr erefl).
Defined.

Lemma fit_keeps_construction_example :
  exists s s' : state rat,
    fit_model (np:=np) (sp:=sp) s = (Ok tt, s') /\ st_heap s' = st_heap s.
Proof.
case: logit_run2 => s [s' [Hs Hf]].
case: (RegressionModel_new_ready (ds_table dataset2) (ds_series dataset2) Hs)
  => _ Hr.
case: (fit_keeps_construction Hr Hf) => Hh _ _ _.
by exists s, s'.
Defined.

(** A minimizer that returns another point. *)
Definition minimizer' (f : seq rat -> outcome rat) (b : seq rat) :
    outcome (OptimizeResult rat) :=
  Ok {| res_x := [:: 1]; success := true |}.

Lemma logit_run2' :
  exists s s',
    RegressionModel_new (np:=np) (caller X2 Y2) 1 3 false "logit"%string = (Ok tt, s) /\
    fit_model (np:=np) (sp:=scipy_exact minimizer' student_sf Phi) s = (Ok tt, s').
Proof.
exact: (logit_fit_run student_sf Phi dataset2 unit2
          (res := {| res_x := [:: 1]; success := true |}) erefl erefl).
Qed.

Lemma logit_stdError_ignores_point_example :
  exists s1 s2 : state rat,
    self_Beta_hat (st_self s1) <> self_Beta_hat (st_self s2) /\
    self_stdError (st_self s1) = self_stdError (st_self s2).
Proof.
case: logit_run2 => s [s1 [Hs H1]].
case: logit_run2' => s0 [s2 []]; rewrite Hs => -[<-] H2.
case: (RegressionModel_new_ready (ds_table dataset2) (ds_series dataset2) Hs)
  => _ Hr.
case: (logit_stdError_ignores_point (m1:=minimizer) (m2:=minimizer')
         (student_sf:=student_sf) (normal_sf:=fun a => 1 - Phi a) Hr H1 H2)
  => Hse _.
exists s1, s2; split=> //.
case: (logit_fit_minimizer dataset2 Hs H1) => r1 [<-] ->.
by case: (logit_fit_minimizer dataset2 Hs H2) => r2 [<-] ->.
Defined.

Lemma ols_fit_singular_example :
  exists s : state rat,
    RegressionModel_new (np:=np) (caller X0 Y2) 1 3 false "ols"%string = (Ok tt, s) /\
    fit_model (np:=np) (sp:=sp) s = (Raise LinAlgError, s).
Proof. exact: (ols_fit_singular minimizer student_sf Phi dataset0 singular0). Defined.

Lemma logit_fit_singular_keeps_point_example :
  exists s : state rat,
    RegressionModel_new (np:=np) (caller X0 Y2) 1 3 false "logit"%string = (Ok tt, s) /\
    fit_model (np:=np) (sp:=sp) s =
    (Raise LinAlgError,
     State (st_heap s) (set_Beta_hat [:: 10%:R^-1] (st_self s))).
Proof.
exact: (logit_fit_singular_keeps_point (minimizer:=minimizer) student_sf Phi
          dataset0 singular0
          (res := {| res_x := [:: 10%:R^-1]; success := true |}) erefl).
Defined.

Lemma ols_residuals_sum_to_zero_example :
  exists (s' : state rat) b,
    self_Beta_hat (st_self s') = Some b /\
    \sum_(i < 2) (response_mx Y2 2 i ord0
                  - \sum_(j < 2) design_mx exp log sqrt true X3 2 2 i j * nth 0 b j) = 0.
Proof.
case: (ols_residuals_sum_to_zero minimizer student_sf Phi dataset3 unit3)
  => s [s' [b [_ _ Hb Hsum]]].
by exists s', b.
Defined.

(** A caller's table whose one column is already named "intercept". *)
Definition caller' : heap rat :=
  [:: Block X3; DataFrame [:: "intercept"%string] 0%N; Block Y2;
      Series "y"%string 2%N].

Lemma dataset3' :
  dataset caller' 1 3 true [:: "intercept"%string] X3 "y"%string Y2 2 2.
Proof. by split=> //; [exists 0%N | exists 2%N]. Qed.

Lemma fit_results_last_wins_example :
  exists (s' : state rat) coef res,
    [/\ self_Beta_hat (st_self s') = Some coef,
        self_results (st_self s') = Some res
      & exists se st pv,
          dict_get res "intercept" =
          Some [:: ("coefficient"%string, nth (I0 (np:=np)) coef 1);
                   ("standard_error"%string, se);
                   ("t_stat"%string, st); ("p_value"%string, pv)]].
Proof.
case: (ols_fit_run minimizer student_sf Phi dataset3' unit3) => s [s' [Hs Hf]].
have Hlast j : (1 < j < 2)%N ->
    nth ""%string (labels true [:: "intercept"%string]) j
    != nth ""%string (labels true [:: "intercept"%string]) 1.
  by case: j => [|[|j]].
case: (fit_results_last_wins (sp:=sp) (ds_table dataset3') (ds_series dataset3')
         Hs Hf (i:=1) isT Hlast)
  => coef [se [st [pv [res [Hb _ _ _ [Hres Hget]]]]]].
exists s', coef, res; split; [exact: Hb | exact: Hres |].
exists (nth (I0 (np:=np)) se 1), (nth (I0 (np:=np)) st 1), (nth (I0 (np:=np)) pv 1).
exact: Hget.
Defined.

End Cases.
